(** * grant_scraper: a shallow embedding of the extraction pipeline

    The development follows [fundsforngos_scraper.py]: Python text as a list
    of code points, the [re] patterns of the script parsed from their source
    text and run by a backtracking matcher, the float arithmetic of
    [clean_and_convert] on binary64 ([SpecFloat]), the date parser, the
    eligibility summariser, the organisation resolver, and the article and
    page loops with the state of a run.

    Alphabet.  A character is a Unicode code point ([N]).  Whitespace is
    Python's table ([str.isspace], which [\s] and [str.strip] share).  Digits,
    letters and letter case are those of ASCII; every other code point is a
    caseless symbol that is neither a digit nor a word character, which is
    what the code points named in the script are (currency signs, zero-width
    marks, typographic quotes and dashes).

    Collaborators.  What the script gets from outside (pages, detail pages,
    BeautifulSoup lookups, [urlparse], the locale and [dateutil] date
    parsers) is data of the records [article], [Pipeline.content],
    [Pipeline.page] and the functions of [Pipeline.world] and
    [Dates.fallbacks].  A grant is a dictionary with the nine keys of the
    script; the store is a list of such dictionaries.

    Exceptions are values: a function that can raise returns a [result]. *)

From Stdlib Require Import ZArith NArith List String Ascii Bool Lia.
From Stdlib Require Import SpecFloat.
From stdpp Require Import base option list gmap.
Import ListNotations.

Local Open Scope N_scope.

(** ** Python text *)

Definition cp := N.
Definition text := list cp.

(** UTF-8 decoding, used to write texts as string literals. *)
Fixpoint utf8_decode (bs : list N) : text :=
  match bs with
  | [] => []
  | b :: r =>
      if b <? 128 then b :: utf8_decode r
      else if b <? 224 then
        match r with
        | b1 :: r1 => ((b - 192) * 64 + (b1 - 128)) :: utf8_decode r1
        | [] => [b]
        end
      else if b <? 240 then
        match r with
        | b1 :: b2 :: r2 =>
            ((b - 224) * 4096 + (b1 - 128) * 64 + (b2 - 128)) :: utf8_decode r2
        | _ => [b]
        end
      else
        match r with
        | b1 :: b2 :: b3 :: r3 =>
            ((b - 240) * 262144 + (b1 - 128) * 4096 + (b2 - 128) * 64 + (b3 - 128))
              :: utf8_decode r3
        | _ => [b]
        end
  end.

Definition txt (s : string) : text :=
  utf8_decode (map N_of_ascii (list_ascii_of_string s)).

(** [a == b] on texts. *)
Fixpoint text_eqb (a b : text) : bool :=
  match a, b with
  | [], [] => true
  | x :: a', y :: b' => (x =? y) && text_eqb a' b'
  | _, _ => false
  end.

Module Py.

Definition in_range (lo hi c : cp) : bool := (lo <=? c) && (c <=? hi).

Definition is_digit (c : cp) : bool := in_range 48 57 c.
Definition is_upper (c : cp) : bool := in_range 65 90 c.
Definition is_lower (c : cp) : bool := in_range 97 122 c.
Definition is_alpha (c : cp) : bool := is_upper c || is_lower c.
Definition is_alnum (c : cp) : bool := is_alpha c || is_digit c.
(** [\w] *)
Definition is_word (c : cp) : bool := is_alnum c || (c =? 95).
(** [str.isspace]: the code points Python treats as whitespace. *)
Definition is_space (c : cp) : bool :=
  in_range 9 13 c || in_range 28 32 c || (c =? 133) || (c =? 160)
  || (c =? 5760) || in_range 8192 8202 c || (c =? 8232) || (c =? 8233)
  || (c =? 8239) || (c =? 8287) || (c =? 12288).

Definition to_lower (c : cp) : cp := if is_upper c then c + 32 else c.
Definition to_upper (c : cp) : cp := if is_lower c then c - 32 else c.

(** [s.lower()] *)
Definition lower (s : text) : text := map to_lower s.

(** [s.lstrip()], [s.rstrip()], [s.strip()] and their [chars] forms. *)
Fixpoint lstrip_by (p : cp -> bool) (s : text) : text :=
  match s with
  | c :: r => if p c then lstrip_by p r else s
  | [] => []
  end.
Definition rstrip_by (p : cp -> bool) (s : text) : text :=
  rev (lstrip_by p (rev s)).
Definition strip_by (p : cp -> bool) (s : text) : text :=
  rstrip_by p (lstrip_by p s).
Definition strip (s : text) : text := strip_by is_space s.
Definition mem_cp (chars : text) (c : cp) : bool := existsb (N.eqb c) chars.
Definition strip_chars (chars : text) (s : text) : text :=
  strip_by (mem_cp chars) s.

(** [s.split(sep)] for a one-character separator. *)
Fixpoint split_acc (sep : cp) (s : text) (cur : text) : list text :=
  match s with
  | [] => [rev cur]
  | c :: r => if c =? sep then rev cur :: split_acc sep r []
              else split_acc sep r (c :: cur)
  end.
Definition split (sep : cp) (s : text) : list text := split_acc sep s [].

(** [s.replace(a, b)] for a one-character [a]. *)
Definition replace (a : cp) (b : text) (s : text) : text :=
  flat_map (fun c => if c =? a then b else [c]) s.

(** [s.title()] *)
Fixpoint title_from (prev_cased : bool) (s : text) : text :=
  match s with
  | [] => []
  | c :: r =>
      if is_alpha c
      then (if prev_cased then to_lower c else to_upper c) :: title_from true r
      else c :: title_from false r
  end.
Definition title (s : text) : text := title_from false s.

(** [s.startswith(p)] and [p in s]. *)
Fixpoint startswith (p s : text) : bool :=
  match p, s with
  | [], _ => true
  | a :: p', b :: s' => (a =? b) && startswith p' s'
  | _ :: _, [] => false
  end.
Fixpoint contains (p s : text) : bool :=
  startswith p s || match s with [] => false | _ :: r => contains p r end.

(** [s.isdigit()] *)
Definition isdigit (s : text) : bool :=
  match s with [] => false | _ => forallb is_digit s end.

(** [s[a:b]] for [0 <= a], [0 <= b]. *)
Definition slice (a b : nat) (s : text) : text := take (b - a) (drop a s).

(** [s.rfind(c, 0, e)]: the last index [< e] holding [c]. *)
Fixpoint rfind_from (c : cp) (s : text) (i : nat) (e : nat) (best : option nat)
  : option nat :=
  match s with
  | [] => best
  | x :: r =>
      if (i <? e)%nat
      then rfind_from c r (S i) e (if x =? c then Some i else best)
      else best
  end.
Definition rfind (c : cp) (s : text) (e : nat) : option nat :=
  rfind_from c s 0 e None.

(** Decimal rendering of a natural number, [str(n)]. *)
Fixpoint digits_fuel (fuel : nat) (n : N) (acc : text) : text :=
  match fuel with
  | O => acc
  | S f => let acc' := (48 + n mod 10) :: acc in
           if n <? 10 then acc' else digits_fuel f (n / 10) acc'
  end.
Definition str_of_N (n : N) : text := digits_fuel (S (N.to_nat (N.log2 n))) n [].
Definition str_of_Z (z : Z) : text :=
  match z with
  | Zneg p => 45 :: str_of_N (Npos p)
  | _ => str_of_N (Z.to_N z)
  end.

(** The [,] format option: groups of three digits from the right. *)
Fixpoint group3 (rev_digits : text) (k : nat) : text :=
  match rev_digits with
  | [] => []
  | d :: r =>
      match k, r with
      | 2%nat, _ :: _ => d :: 44 :: group3 r 0
      | _, _ => d :: group3 r (S k)
      end
  end.
Definition commas (digits : text) : text := rev (group3 (rev digits) 0).
Definition fmt_comma_Z (z : Z) : text :=
  match z with
  | Zneg p => 45 :: commas (str_of_N (Npos p))
  | _ => commas (str_of_N (Z.to_N z))
  end.

(** Value of a run of ASCII digits. *)
Definition digit_val (c : cp) : N := c - 48.
Definition N_of_digits (s : text) : N :=
  fold_left (fun acc c => acc * 10 + digit_val c) s 0.

End Py.

(** ** Regular expressions ([re])

    Patterns are parsed from their source text, so that group numbers and
    group counts are those of the pattern as written, and matched by a
    backtracking matcher with Python's priorities: alternatives left to
    right, greedy repetition longest first, lazy repetition shortest first. *)

Module Re.

Inductive cset_item :=
| CChar (c : cp)
| CRange (lo hi : cp)
| CDigit
| CSpace
| CWord.

Inductive regex :=
| Eps
| Chr (c : cp)
| Any
| CSet (neg : bool) (items : list cset_item)
| Cat (r1 r2 : regex)
| Alt (r1 r2 : regex)
| Rep (greedy : bool) (lo : nat) (hi : option nat) (r : regex)
| Grp (i : nat) (r : regex)
| Look (r : regex)
| Bol
| Eol
| WordB.

Record flags := { ignorecase : bool; multiline : bool }.
Definition no_flags := {| ignorecase := false; multiline := false |}.
Definition IGNORECASE := {| ignorecase := true; multiline := false |}.
Definition IGNORECASE_MULTILINE := {| ignorecase := true; multiline := true |}.

(** A compiled pattern: syntax tree, number of capturing groups, flags. *)
Record pattern := { p_re : regex; p_groups : nat; p_flags : flags }.

(** *** Parsing *)

Definition hex_val (c : cp) : option N :=
  if Py.is_digit c then Some (c - 48)
  else if Py.in_range 97 102 c then Some (c - 87)
  else if Py.in_range 65 70 c then Some (c - 55)
  else None.

Definition parse_hex4 (s : text) : option (cp * text) :=
  match s with
  | a :: b :: c :: d :: r =>
      match hex_val a, hex_val b, hex_val c, hex_val d with
      | Some x, Some y, Some z, Some w => Some (((x * 16 + y) * 16 + z) * 16 + w, r)
      | _, _, _, _ => None
      end
  | _ => None
  end.

(** One member of a character class, after an optional backslash. *)
Definition parse_class_atom (s : text) : option (cset_item * text) :=
  match s with
  | 92 :: 100 :: r => Some (CDigit, r)
  | 92 :: 115 :: r => Some (CSpace, r)
  | 92 :: 119 :: r => Some (CWord, r)
  | 92 :: 117 :: r =>
      match parse_hex4 r with Some (c, r') => Some (CChar c, r') | None => None end
  | 92 :: c :: r => if Py.is_alnum c then None else Some (CChar c, r)
  | 92 :: [] => None
  | c :: r => Some (CChar c, r)
  | [] => None
  end.

Fixpoint parse_class_items (fuel : nat) (s : text) (acc : list cset_item)
  : option (list cset_item * text) :=
  match fuel with
  | O => None
  | S f =>
      match s with
      | 93 :: r => Some (rev acc, r)
      | _ =>
          match parse_class_atom s with
          | None => None
          | Some (it, r) =>
              match it, r with
              | CChar lo, 45 :: r1 =>
                  match r1 with
                  | 93 :: _ => parse_class_items f r (it :: acc)
                  | _ =>
                      match parse_class_atom r1 with
                      | Some (CChar hi, r2) =>
                          if lo <=? hi then parse_class_items f r2 (CRange lo hi :: acc)
                          else None
                      | _ => None
                      end
                  end
              | _, _ => parse_class_items f r (it :: acc)
              end
          end
      end
  end.

Definition parse_class (s : text) : option (regex * text) :=
  let '(neg, s1) := match s with 94 :: r => (true, r) | _ => (false, s) end in
  (* a leading "]" is a literal member *)
  match s1 with
  | 93 :: r =>
      match parse_class_items (S (length r)) r [CChar 93] with
      | Some (items, r') => Some (CSet neg items, r')
      | None => None
      end
  | _ =>
      match parse_class_items (S (length s1)) s1 [] with
      | Some (items, r') => Some (CSet neg items, r')
      | None => None
      end
  end.

Fixpoint parse_nat_acc (s : text) (acc : nat) (seen : bool) : option nat * text :=
  match s with
  | c :: r => if Py.is_digit c then parse_nat_acc r (acc * 10 + N.to_nat (c - 48)) true
              else ((if seen then Some acc else None), s)
  | [] => ((if seen then Some acc else None), s)
  end.

(** A quantifier [{m}], [{m,}], [{m,n}], [{,n}] at the head of [s]. *)
Definition parse_braces (s : text) : option (nat * option nat * text) :=
  let '(lo, s1) := parse_nat_acc s 0%nat false in
  match s1 with
  | 125 :: r => match lo with Some m => Some (m, Some m, r) | None => None end
  | 44 :: s2 =>
      let '(hi, s3) := parse_nat_acc s2 0%nat false in
      match s3 with
      | 125 :: r =>
          match lo, hi with
          | None, None => None
          | _, _ => Some (default 0%nat lo, hi, r)
          end
      | _ => None
      end
  | _ => None
  end.

Definition parse_lazy (s : text) : bool * text :=
  match s with 63 :: r => (false, r) | _ => (true, s) end.

(** The quantifier after an atom, if any. *)
Definition parse_quant (a : regex) (s : text) : regex * text :=
  match s with
  | 42 :: r => let '(g, r') := parse_lazy r in (Rep g 0 None a, r')
  | 43 :: r => let '(g, r') := parse_lazy r in (Rep g 1 None a, r')
  | 63 :: r => let '(g, r') := parse_lazy r in (Rep g 0 (Some 1%nat) a, r')
  | 123 :: r =>
      match parse_braces r with
      | Some (lo, hi, r1) => let '(g, r') := parse_lazy r1 in (Rep g lo hi a, r')
      | None => (a, s)
      end
  | _ => (a, s)
  end.

Definition parse_escape (s : text) : option (regex * text) :=
  match s with
  | 100 :: r => Some (CSet false [CDigit], r)
  | 115 :: r => Some (CSet false [CSpace], r)
  | 119 :: r => Some (CSet false [CWord], r)
  | 98 :: r => Some (WordB, r)
  | 117 :: r => match parse_hex4 r with Some (c, r') => Some (Chr c, r') | None => None end
  | c :: r => if Py.is_alnum c then None else Some (Chr c, r)
  | [] => None
  end.

Definition result_of_parse := option (regex * text * nat).

(** [parse_alt] reads alternatives up to a closing parenthesis or the end;
    [g] is the number of capturing groups opened so far. *)
Fixpoint parse_alt (fuel : nat) (s : text) (g : nat) : result_of_parse :=
  match fuel with
  | O => None
  | S f =>
      match parse_seq f s g with
      | Some (r1, 124 :: s2, g1) =>
          match parse_alt f s2 g1 with
          | Some (r2, s3, g2) => Some (Alt r1 r2, s3, g2)
          | None => None
          end
      | other => other
      end
  end
with parse_seq (fuel : nat) (s : text) (g : nat) : result_of_parse :=
  match fuel with
  | O => None
  | S f =>
      match s with
      | [] => Some (Eps, s, g)
      | 124 :: _ => Some (Eps, s, g)
      | 41 :: _ => Some (Eps, s, g)
      | _ =>
          match parse_atom f s g with
          | Some (a, s1, g1) =>
              let '(p, s2) := parse_quant a s1 in
              match parse_seq f s2 g1 with
              | Some (Eps, s3, g2) => Some (p, s3, g2)
              | Some (r2, s3, g2) => Some (Cat p r2, s3, g2)
              | None => None
              end
          | None => None
          end
      end
  end
with parse_atom (fuel : nat) (s : text) (g : nat) : result_of_parse :=
  match fuel with
  | O => None
  | S f =>
      match s with
      | 40 :: 63 :: 58 :: r =>             (* (?: ... ) *)
          match parse_alt f r g with
          | Some (a, 41 :: r1, g1) => Some (a, r1, g1)
          | _ => None
          end
      | 40 :: 63 :: 61 :: r =>             (* (?= ... ) *)
          match parse_alt f r g with
          | Some (a, 41 :: r1, g1) => Some (Look a, r1, g1)
          | _ => None
          end
      | 40 :: 63 :: _ => None
      | 40 :: r =>                         (* ( ... ) *)
          match parse_alt f r (S g) with
          | Some (a, 41 :: r1, g1) => Some (Grp (S g) a, r1, g1)
          | _ => None
          end
      | 91 :: r =>
          match parse_class r with
          | Some (a, r1) => Some (a, r1, g)
          | None => None
          end
      | 92 :: r =>
          match parse_escape r with
          | Some (a, r1) => Some (a, r1, g)
          | None => None
          end
      | 46 :: r => Some (Any, r, g)
      | 94 :: r => Some (Bol, r, g)
      | 36 :: r => Some (Eol, r, g)
      | 42 :: _ => None                    (* nothing to repeat *)
      | 43 :: _ => None
      | 63 :: _ => None
      | c :: r => Some (Chr c, r, g)
      | [] => None
      end
  end.

(** [re.compile(src, flags)]; [None] stands for [re.error]. *)
Definition compile (src : text) (fl : flags) : option pattern :=
  match parse_alt (4 * length src + 8) src 0 with
  | Some (r, [], g) => Some {| p_re := r; p_groups := g; p_flags := fl |}
  | _ => None
  end.

(** [re.escape] *)
Definition special_chars : text := txt "()[]{}?*+-|^$\.&~# " ++ [9; 10; 13; 11; 12].
Definition escape (s : text) : text :=
  flat_map (fun c => if Py.mem_cp special_chars c then [92; c] else [c]) s.

(** *** Matching *)

Record cursor := { c_prev : option cp; c_rest : text; c_pos : nat }.

Definition advance (x : cp) (r : text) (cur : cursor) : cursor :=
  {| c_prev := Some x; c_rest := r; c_pos := S (c_pos cur) |}.

(** Captures: group number to (start, end), most recent binding first. *)
Definition caps := list (nat * (nat * nat)).

Fixpoint cap_lookup (i : nat) (c : caps) : option (nat * nat) :=
  match c with
  | [] => None
  | (j, se) :: r => if (i =? j)%nat then Some se else cap_lookup i r
  end.

Definition item_match (it : cset_item) (x : cp) : bool :=
  match it with
  | CChar c => x =? c
  | CRange lo hi => Py.in_range lo hi x
  | CDigit => Py.is_digit x
  | CSpace => Py.is_space x
  | CWord => Py.is_word x
  end.

Definition set_match (fl : flags) (items : list cset_item) (x : cp) : bool :=
  existsb (fun it => item_match it x) items
  || (ignorecase fl
      && (existsb (fun it => item_match it (Py.to_lower x)) items
          || existsb (fun it => item_match it (Py.to_upper x)) items)).

Definition chr_match (fl : flags) (c x : cp) : bool :=
  if ignorecase fl then Py.to_lower x =? Py.to_lower c else x =? c.

Definition opt_word (o : option cp) : bool :=
  match o with Some c => Py.is_word c | None => false end.

Definition at_word_boundary (cur : cursor) : bool :=
  xorb (opt_word (c_prev cur)) (opt_word (head (c_rest cur))).

Definition at_bol (fl : flags) (cur : cursor) : bool :=
  match c_prev cur with
  | None => true
  | Some c => multiline fl && (c =? 10)
  end.

Definition at_eol (fl : flags) (cur : cursor) : bool :=
  match c_rest cur with
  | [] => true
  | [10] => true
  | c :: _ => multiline fl && (c =? 10)
  end.

Definition below (hi : option nat) (count : nat) : bool :=
  match hi with None => true | Some h => (count <? h)%nat end.

Definition K := cursor -> caps -> option (cursor * caps).

(** The matcher, in continuation-passing style: [k] is the rest of the
    pattern; [None] makes the caller try its next alternative. *)
Fixpoint mt (fl : flags) (r : regex) (cur : cursor) (cs : caps) (k : K)
  {struct r} : option (cursor * caps) :=
  match r with
  | Eps => k cur cs
  | Chr c =>
      match c_rest cur with
      | x :: rest => if chr_match fl c x then k (advance x rest cur) cs else None
      | [] => None
      end
  | Any =>
      match c_rest cur with
      | x :: rest => if x =? 10 then None else k (advance x rest cur) cs
      | [] => None
      end
  | CSet neg items =>
      match c_rest cur with
      | x :: rest =>
          if xorb neg (set_match fl items x) then k (advance x rest cur) cs else None
      | [] => None
      end
  | Cat r1 r2 => mt fl r1 cur cs (fun cur' cs' => mt fl r2 cur' cs' k)
  | Alt r1 r2 =>
      match mt fl r1 cur cs k with
      | Some res => Some res
      | None => mt fl r2 cur cs k
      end
  | Rep greedy lo hi r' =>
      (fix rep (fuel count : nat) (cur : cursor) (cs : caps) {struct fuel}
         : option (cursor * caps) :=
         match fuel with
         | O => None
         | S fuel' =>
             if greedy then
               match
                 (if below hi count
                  then mt fl r' cur cs
                         (fun cur' cs' =>
                            if (count <? lo)%nat || (c_pos cur <? c_pos cur')%nat
                            then rep fuel' (S count) cur' cs' else None)
                  else None)
               with
               | Some res => Some res
               | None => if (lo <=? count)%nat then k cur cs else None
               end
             else
               match (if (lo <=? count)%nat then k cur cs else None) with
               | Some res => Some res
               | None =>
                   if below hi count
                   then mt fl r' cur cs
                          (fun cur' cs' =>
                             if (count <? lo)%nat || (c_pos cur <? c_pos cur')%nat
                             then rep fuel' (S count) cur' cs' else None)
                   else None
               end
         end) (lo + S (length (c_rest cur)))%nat 0%nat cur cs
  | Grp i r' =>
      mt fl r' cur cs (fun cur' cs' => k cur' ((i, (c_pos cur, c_pos cur')) :: cs'))
  | Look r' =>
      match mt fl r' cur cs (fun cur' cs' => Some (cur', cs')) with
      | Some (_, cs') => k cur cs'
      | None => None
      end
  | Bol => if at_bol fl cur then k cur cs else None
  | Eol => if at_eol fl cur then k cur cs else None
  | WordB => if at_word_boundary cur then k cur cs else None
  end.

(** A match object: span, captures and the cursor just after the match. *)
Record mobj := { m_start : nat; m_end : nat; m_caps : caps; m_after : cursor }.

Definition match_at (p : pattern) (cur : cursor) : option mobj :=
  match mt (p_flags p) (p_re p) cur [] (fun c cs => Some (c, cs)) with
  | Some (c', cs) =>
      Some {| m_start := c_pos cur; m_end := c_pos c'; m_caps := cs; m_after := c' |}
  | None => None
  end.

(** Leftmost match at or after the cursor. *)
Fixpoint search_rest (p : pattern) (prev : option cp) (rest : text) (pos : nat)
  : option mobj :=
  match match_at p {| c_prev := prev; c_rest := rest; c_pos := pos |} with
  | Some m => Some m
  | None =>
      match rest with
      | [] => None
      | x :: rest' => search_rest p (Some x) rest' (S pos)
      end
  end.

Definition search_cur (p : pattern) (cur : cursor) : option mobj :=
  search_rest p (c_prev cur) (c_rest cur) (c_pos cur).

Definition start_cursor (s : text) : cursor :=
  {| c_prev := None; c_rest := s; c_pos := 0 |}.

(** [p.search(s)] *)
Definition search (p : pattern) (s : text) : option mobj :=
  search_cur p (start_cursor s).

(** [p.match(s)]: a match starting at position 0. *)
Definition match_ (p : pattern) (s : text) : option mobj :=
  match_at p (start_cursor s).

(** [p.finditer(s)]: successive non-overlapping matches.  After an empty
    match the scan resumes one character further. *)
Fixpoint finditer_from (fuel : nat) (p : pattern) (cur : cursor) : list mobj :=
  match fuel with
  | O => []
  | S f =>
      match search_cur p cur with
      | None => []
      | Some m =>
          if (m_start m <? m_end m)%nat
          then m :: finditer_from f p (m_after m)
          else
            match c_rest (m_after m) with
            | [] => [m]
            | x :: r => m :: finditer_from f p (advance x r (m_after m))
            end
      end
  end.

Definition finditer (p : pattern) (s : text) : list mobj :=
  finditer_from (S (length s)) p (start_cursor s).

(** [m.group(i)], [m.group(0)], [m.groups()], [m.start(i)]. *)
Definition group (s : text) (m : mobj) (i : nat) : option text :=
  match cap_lookup i (m_caps m) with
  | Some (a, b) => Some (Py.slice a b s)
  | None => None
  end.
Definition group0 (s : text) (m : mobj) : text := Py.slice (m_start m) (m_end m) s.
Definition groups (p : pattern) (s : text) (m : mobj) : list (option text) :=
  map (fun i => group s m i) (seq 1 (p_groups p)).
Definition start (m : mobj) (i : nat) : option nat :=
  match cap_lookup i (m_caps m) with Some (a, _) => Some a | None => None end.

(** [p.sub(repl, s)], the replacement given as a function of the match. *)
Fixpoint sub_pieces (s : text) (ms : list mobj) (repl : mobj -> text) (from : nat)
  : text :=
  match ms with
  | [] => drop from s
  | m :: r =>
      Py.slice from (m_start m) s ++ repl m ++ sub_pieces s r repl (m_end m)
  end.
Definition sub (p : pattern) (repl : text -> mobj -> text) (s : text) : text :=
  sub_pieces s (finditer p s) (repl s) 0.

(** Replacement templates: a constant, and [\1]. *)
Definition repl_const (t : text) : text -> mobj -> text := fun _ _ => t.
Definition repl_group1 : text -> mobj -> text :=
  fun s m => default [] (group s m 1).

End Re.

(** ** Exceptions and results *)

Inductive exn :=
| ValueError
| TypeError
| OverflowError
| NameError
| AttributeError
| ReError
| RequestException.

Inductive result (A : Type) :=
| Return (a : A)
| Raise (e : exn).
Arguments Return {A} a.
Arguments Raise {A} e.

Definition bind {A B : Type} (m : result A) (f : A -> result B) : result B :=
  match m with
  | Return a => f a
  | Raise e => Raise e
  end.

Notation "'let*' x ':=' e 'in' k" := (bind e (fun x => k))
  (at level 10, x name, e at level 100, k at level 200, only parsing).
Notation "'let*' ' pat ':=' e 'in' k" := (bind e (fun pat => k))
  (at level 10, pat pattern, e at level 100, k at level 200, only parsing).

(** [try: ... except Exception: handler] *)
Definition catch_all {A : Type} (m : result A) (handler : A) : A :=
  match m with
  | Return a => a
  | Raise _ => handler
  end.

(** Python values that the amount field takes: [None], an [int], a [str]. *)
Inductive pyval :=
| VNone
| VInt (z : Z)
| VStr (s : text).

(** Truthiness of an optional string, and [a or b]. *)
Definition truthy (o : option text) : bool :=
  match o with
  | Some (_ :: _) => true
  | _ => false
  end.
Definition py_or (a b : option text) : option text := if truthy a then a else b.

(** ** binary64 arithmetic *)

Module Flt.

Definition prec : Z := 53.
Definition emax : Z := 1024.

(** The double nearest to [n / d]. *)
Definition of_ratio (n : N) (d : positive) : spec_float :=
  match n with
  | N0 => S754_zero false
  | Npos p => SFdiv prec emax (S754_finite false p 0) (S754_finite false d 0)
  end.

Definition pow10 (k : nat) : positive := Nat.iter k (Pos.mul 10) 1%positive.

(** [float(z)] for an [int]. *)
Definition of_Z (z : Z) : spec_float := binary_normalize prec emax z 0 false.

Definition mul (x y : spec_float) : spec_float := SFmul prec emax x y.

(** [float(s)] on the literals the scraper passes: ASCII digits with at
    most one decimal point and at least one digit.  Any other string is a
    [ValueError] ([None]). *)
Definition py_float (s : text) : option spec_float :=
  match Py.split 46 s with
  | [ip] =>
      if Py.isdigit ip then Some (of_ratio (Py.N_of_digits ip) 1) else None
  | [ip; fp] =>
      if forallb Py.is_digit ip && forallb Py.is_digit fp
         && negb ((length ip + length fp =? 0)%nat)
      then Some (of_ratio (Py.N_of_digits (ip ++ fp))
                          (pow10 (length fp)))
      else None
  | _ => None
  end.

(** [int(f)]: truncation; an infinity raises [OverflowError]. *)
Definition to_int (f : spec_float) : result Z :=
  match f with
  | S754_zero _ => Return 0%Z
  | S754_infinity _ => Raise OverflowError
  | S754_nan => Raise ValueError
  | S754_finite s m e =>
      let mag := Z.shiftl (Zpos m) e in
      Return (if s then (- mag)%Z else mag)
  end.

(** The integer nearest to a non-negative finite [f], ties to even: the
    digits that the format [.0f] prints. *)
Definition round_half_even (m : positive) (e : Z) : Z :=
  match e with
  | Zneg p =>
      let d := Z.pow 2 (Zpos p) in
      let q := (Zpos m / d)%Z in
      let r := (Zpos m mod d)%Z in
      match (2 * r ?= d)%Z with
      | Gt => (q + 1)%Z
      | Lt => q
      | Eq => if Z.even q then q else (q + 1)%Z
      end
  | _ => Z.shiftl (Zpos m) e
  end.

(** [f"{value:,.0f}"] *)
Definition fmt_comma_0f (f : spec_float) : text :=
  match f with
  | S754_zero s => if s then txt "-0" else txt "0"
  | S754_infinity s => if s then txt "-inf" else txt "inf"
  | S754_nan => txt "nan"
  | S754_finite s m e =>
      (if s then [45] else []) ++ Py.fmt_comma_Z (round_half_even m e)
  end.

End Flt.

(** ** extract_amount *)

Module Amount.

Local Open Scope string_scope.

(** The pattern sources, as the script builds them (f-string
    interpolation is concatenation). *)
Definition currency_symbols_nc : string := "(?:[$€£])".
Definition currency_codes_nc : string := "(?:USD|EUR|GBP)".
Definition number_pattern_nc : string := "(?:\d{1,3}(?:,\d{3})*(?:\.\d{1,2})?)".
Definition currency_capture : string :=
  "(" ++ currency_symbols_nc ++ "|" ++ currency_codes_nc ++ ")".
Definition number_capture : string := "(" ++ number_pattern_nc ++ ")".
Definition multiplier_capture : string := "(\s*(?:k|thousand|million)\b)".

Definition symbols_or_comma_src : string := currency_symbols_nc ++ "|,".
Definition mangled_range_src : string := "\b(0?\d{1,3})\s*-\s*(\d{1,3})\b".
Definition standard_range_src : string :=
  "(?:" ++ currency_capture ++ ")?\s*" ++ number_capture
  ++ "(?:\s*" ++ multiplier_capture ++ ")?\s*(?:-|to)\s*(?:"
  ++ currency_capture ++ ")?\s*" ++ number_capture
  ++ "(?:\s*" ++ multiplier_capture ++ ")?".
Definition upto_src : string :=
  "(?:up to|maximum of|upto)\s+(?:" ++ currency_capture ++ ")?\s*"
  ++ number_capture ++ "(?:" ++ multiplier_capture ++ ")?\s*(?:"
  ++ currency_capture ++ ")?".
Definition strict_single_src : string :=
  "(?:grants? of|prize of|award of|funding of|amount:)\s*" ++ currency_capture
  ++ "?\s*" ++ number_capture ++ "\s*" ++ multiplier_capture ++ "?\s*"
  ++ currency_capture ++ "?".
Definition code_single_src : string :=
  "(" ++ currency_codes_nc ++ ")\s*" ++ number_capture ++ "\s*"
  ++ multiplier_capture ++ "?".
Definition symbol_single_src : string :=
  "(" ++ currency_symbols_nc ++ ")\s*" ++ number_capture ++ "\s*"
  ++ multiplier_capture ++ "?".

Local Close Scope string_scope.

(** The [re.compile] in use; the script's is [Re.compile]. *)
Definition compiler := text -> Re.flags -> option Re.pattern.

(** A [re.compile] outside any [try]: [re.error] propagates. *)
Definition compile_or_raise (compile : compiler) (src : string) (fl : Re.flags)
  : result Re.pattern :=
  match compile (txt src) fl with
  | Some p => Return p
  | None => Raise ReError
  end.

(** Tuple unpacking of [m.groups()]: a length mismatch is a [ValueError]. *)
Definition unpack2 {A} (l : list A) : result (A * A) :=
  match l with
  | [a; b] => Return (a, b)
  | _ => Raise ValueError
  end.
Definition unpack3 {A} (l : list A) : result (A * A * A) :=
  match l with
  | [a; b; c] => Return (a, b, c)
  | _ => Raise ValueError
  end.
Definition unpack4 {A} (l : list A) : result (A * A * A * A) :=
  match l with
  | [a; b; c; d] => Return (a, b, c, d)
  | _ => Raise ValueError
  end.
Definition unpack7 {A} (l : list A) : result (A * A * A * A * A * A * A) :=
  match l with
  | [a; b; c; d; e; f; g] => Return (a, b, c, d, e, f, g)
  | _ => Raise ValueError
  end.

(** The multiplier selected by lines 85-89. *)
Definition multiplier_of (multiplier_str : option text) : Z :=
  if truthy multiplier_str then
    let multi_lower := Py.lower (default [] multiplier_str) in
    if text_eqb multi_lower (txt "k") || text_eqb multi_lower (txt "thousand")
    then 1000
    else if text_eqb multi_lower (txt "million") then 1000000
    else 1
  else 1.

(** [clean_and_convert] (lines 79-93).  [Return None] is the [None] result,
    also after a caught [ValueError]; an [OverflowError] from [int] or a
    [re.error] from [re.sub] is not caught by the helper. *)
Definition clean_and_convert (compile : compiler)
    (num_str : option text) (multiplier_str : option text) : result (option Z) :=
  match num_str with
  | None => Return None
  | Some num =>
      let* p := compile_or_raise compile symbols_or_comma_src Re.no_flags in
      let cleaned_num := Py.strip (Re.sub p (Re.repl_const []) num) in
      match Flt.py_float cleaned_num with
      | None => Return None
      | Some value =>
          match Flt.to_int (Flt.mul value (Flt.of_Z (multiplier_of multiplier_str))) with
          | Return n => Return (Some n)
          | Raise ValueError | Raise TypeError => Return None
          | Raise e => Raise e
          end
      end
  end.

(** [f"{found_currency}{found_amount}"] *)
Definition render (currency : text) (amount : Z) : text :=
  currency ++ Py.str_of_Z amount.

(** [next((c for c in cs if c), "$")] *)
Fixpoint first_truthy (cs : list (option text)) (dflt : text) : text :=
  match cs with
  | [] => dflt
  | c :: r => if truthy c then default [] c else first_truthy r dflt
  end.

(** What a matcher of the cascade hands on: an answer, or "go on". *)
Definition stage := result (option (pyval * option text)).

(** 1. Mangled range (lines 145-156). *)
Definition mangled_stage (compile : compiler) (p : Re.pattern) (t : text) : stage :=
  match Re.search p t with
  | None => Return None
  | Some m =>
      let* '(num1_str, num2_str) := unpack2 (Re.groups p t m) in
      let* val1 := clean_and_convert compile num1_str (Some (txt "thousand")) in
      let* val2 := clean_and_convert compile num2_str (Some (txt "thousand")) in
      match val1, val2 with
      | Some v1, Some v2 =>
          Return (Some (VStr (render (txt "$") (Z.max v1 v2)), None))
      | _, _ => Return None
      end
  end.

(** 2. Standard range (lines 159-175). *)
Definition standard_stage (compile : compiler) (p : Re.pattern) (t : text) : stage :=
  match Re.search p t with
  | None => Return None
  | Some m =>
      let* '(cur1, num1_str, mult1, cur2, num2_str, mult2, cur3) := unpack7 (Re.groups p t m) in
      let mult2 := py_or mult2 mult1 in
      let* val1 := clean_and_convert compile num1_str mult1 in
      let* val2 := clean_and_convert compile num2_str mult2 in
      match val1, val2 with
      | Some v1, Some v2 =>
          let found_amount := Z.max v1 v2 in
          let max_val_cur := if (v2 >=? v1)%Z then cur2 else cur1 in
          let found_currency :=
            first_truthy [max_val_cur; cur3; cur1; cur2] (txt "$") in
          Return (Some (VStr (render found_currency found_amount), None))
      | _, _ => Return None
      end
  end.

(** 3. "Up to" / "maximum of" (lines 178-191); any exception of the
    conversion is caught there. *)
Definition upto_stage (compile : compiler) (p : Re.pattern) (t : text) : stage :=
  match Re.search p t with
  | None => Return None
  | Some m =>
      let* '(cur1, num_str, mult_str, cur2) := unpack4 (Re.groups p t m) in
      match catch_all (clean_and_convert compile num_str mult_str) None with
      | Some v =>
          let found_currency :=
            default (txt "$") (py_or (py_or cur1 cur2) (Some (txt "$"))) in
          Return (Some (VStr (render found_currency v), None))
      | None => Return None
      end
  end.

(** 4. Single amounts (lines 194-235). *)
Inductive single_kind := Strict | Code | Symbol.

Definition expected_groups (k : single_kind) : nat :=
  match k with Strict => 4 | Code => 3 | Symbol => 3 end%nat.

(** The groups of one match, read as (currency, num_str, mult_str). *)
Definition read_groups (k : single_kind) (groups : list (option text))
  : result (option text * option text * option text) :=
  match k with
  | Strict =>
      let* '(cur1, num_str, mult_str, cur2) := unpack4 groups in
      Return (py_or cur1 cur2, num_str, mult_str)
  | Code | Symbol =>
      let* '(currency, num_str, mult_str) := unpack3 groups in
      Return (currency, num_str, mult_str)
  end.

(** Line 225. *)
Definition is_year (val : Z) (mult_str : option text) (num_str : text) : bool :=
  (1990 <=? val)%Z && (val <=? 2050)%Z
  && match mult_str with None => true | Some _ => false end
  && negb (Py.contains [46] num_str).

(** A pooled candidate: (value, currency, matched text). *)
Definition candidate := (Z * option text * text)%type.

(** What one match adds to [potential_matches] (body of the inner loop). *)
Definition contribution (compile : compiler) (k : single_kind) (p : Re.pattern)
    (t : text) (m : Re.mobj) : result (list candidate) :=
  let groups := Re.groups p t m in
  if negb (length groups =? expected_groups k)%nat then Return []
  else
    match read_groups k groups with
    | Raise ValueError => Return []
    | Raise e => Raise e
    | Return (currency, num_str, mult_str) =>
        let* val := clean_and_convert compile num_str mult_str in
        match val with
        | Some v =>
            if is_year v mult_str (default [] num_str) then Return []
            else Return [(v, currency, Re.group0 t m)]
        | None => Return []
        end
    end.

Fixpoint pool_matches (compile : compiler) (k : single_kind) (p : Re.pattern)
    (t : text) (ms : list Re.mobj) : result (list candidate) :=
  match ms with
  | [] => Return []
  | m :: r =>
      let* c := contribution compile k p t m in
      let* cs := pool_matches compile k p t r in
      Return (c ++ cs)
  end.

Definition pool_pattern (compile : compiler) (k : single_kind) (p : Re.pattern)
    (t : text) : result (list candidate) :=
  pool_matches compile k p t (Re.finditer p t).

(** [potential_matches] after the loop over [patterns_to_check]. *)
Definition potential_matches (compile : compiler) (strict code symbol : Re.pattern)
    (t : text) : result (list candidate) :=
  let* a := pool_pattern compile Strict strict t in
  let* b := pool_pattern compile Code code t in
  let* c := pool_pattern compile Symbol symbol t in
  Return (a ++ b ++ c).

(** [list.sort(key=lambda x: x[0], reverse=True)]: stable, descending. *)
Fixpoint insert_desc (x : candidate) (l : list candidate) : list candidate :=
  match l with
  | [] => [x]
  | y :: r => if (fst (fst y) >? fst (fst x))%Z then y :: insert_desc x r
              else x :: l
  end.
Definition sort_desc (l : list candidate) : list candidate :=
  fold_right insert_desc [] l.

Definition single_stage (compile : compiler) (strict code symbol : Re.pattern)
    (t : text) : stage :=
  let* pm := potential_matches compile strict code symbol t in
  match sort_desc pm with
  | (found_amount, found_currency, _) :: _ =>
      Return (Some (VInt found_amount, found_currency))
  | [] => Return None
  end.

(** Run the stages in order, stopping at the first answer. *)
Definition or_else (s : stage) (next : result (pyval * option text))
  : result (pyval * option text) :=
  let* r := s in
  match r with
  | Some ans => Return ans
  | None => next
  end.

(** [extract_amount], with the [re.compile] in use as a parameter. *)
Definition extract_amount_with (compile : compiler) (t : text)
  : result (pyval * option text) :=
  let* mangled_range_pattern := compile_or_raise compile mangled_range_src Re.no_flags in
  match compile (txt standard_range_src) Re.IGNORECASE with
  | None => Return (VNone, None)               (* except re.error: lines 109-111 *)
  | Some standard_range_pattern =>
      let* upto_pattern := compile_or_raise compile upto_src Re.IGNORECASE in
      let* strict_single_pattern := compile_or_raise compile strict_single_src Re.IGNORECASE in
      let* code_single_pattern := compile_or_raise compile code_single_src Re.IGNORECASE in
      let* symbol_single_pattern := compile_or_raise compile symbol_single_src Re.IGNORECASE in
      or_else (mangled_stage compile mangled_range_pattern t)
        (or_else (standard_stage compile standard_range_pattern t)
           (or_else (upto_stage compile upto_pattern t)
              (or_else (single_stage compile strict_single_pattern
                          code_single_pattern symbol_single_pattern t)
                 (Return (VNone, None)))))
  end.

Definition extract_amount (t : text) : result (pyval * option text) :=
  extract_amount_with Re.compile t.

End Amount.

(** A pattern given as a constant of the script. *)
Definition re_const (src : string) (fl : Re.flags) : Re.pattern :=
  default {| Re.p_re := Re.CSet false []; Re.p_groups := 0; Re.p_flags := fl |}
          (Re.compile (txt src) fl).

(** ** parse_date *)

Module Dates.

Local Open Scope Z_scope.

(** A calendar date ([datetime.date], and [datetime] with its time of day
    dropped: every use in the script goes through [.date()] or a date
    format). *)
Record date := mkdate { year : Z; month : Z; day : Z }.

Definition is_leap (y : Z) : bool :=
  (y mod 4 =? 0) && (negb (y mod 100 =? 0) || (y mod 400 =? 0)).

Definition days_in_month (y m : Z) : Z :=
  if m =? 2 then (if is_leap y then 29 else 28)
  else if (m =? 4) || (m =? 6) || (m =? 9) || (m =? 11) then 30
  else 31.

(** The dates that [datetime.date(y, m, d)] accepts. *)
Definition valid_date (d : date) : bool :=
  (1 <=? year d) && (year d <=? 9999) && (1 <=? month d) && (month d <=? 12)
  && (1 <=? day d) && (day d <=? days_in_month (year d) (month d)).

(** [a < b] and [a <= b] on dates. *)
Definition date_ltb (a b : date) : bool :=
  (year a <? year b)
  || ((year a =? year b)
      && ((month a <? month b) || ((month a =? month b) && (day a <? day b)))).
Definition date_eqb (a b : date) : bool :=
  (year a =? year b) && (month a =? month b) && (day a =? day b).
Definition date_leb (a b : date) : bool := date_ltb a b || date_eqb a b.

Local Open Scope string_scope.

(** Month names of the C locale, as [_strptime.LocaleTime] holds them. *)
Definition a_month : list string :=
  ["jan"; "feb"; "mar"; "apr"; "may"; "jun"; "jul"; "aug"; "sep"; "oct"; "nov"; "dec"].
Definition f_month : list string :=
  ["january"; "february"; "march"; "april"; "may"; "june"; "july"; "august";
   "september"; "october"; "november"; "december"].

(** [TimeRE.__seqToRE]: alternatives sorted by length, longest first
    (stable), in one capturing group. *)
Fixpoint insert_by_len (x : string) (l : list string) : list string :=
  match l with
  | [] => [x]
  | y :: r => if (String.length x <=? String.length y)%nat
              then y :: insert_by_len x r else x :: l
  end.
Definition sort_by_len (l : list string) : list string :=
  fold_left (fun acc x => insert_by_len x acc) l [].
Definition seq_to_re (names : list string) : string :=
  "(" ++ String.concat "|" (sort_by_len names) ++ ")".

(** The regular expression of a directive ([TimeRE]); named groups are
    numbered in their order of appearance. *)
Definition directive_regex (c : cp) : option string :=
  if (c =? 100)%N then Some "(3[0-1]|[1-2]\d|0[1-9]|[1-9]| [1-9])"
  else if (c =? 109)%N then Some "(1[0-2]|0[1-9]|[1-9])"
  else if (c =? 121)%N then Some "(\d\d)"
  else if (c =? 89)%N then Some "(\d\d\d\d)"
  else if (c =? 98)%N then Some (seq_to_re a_month)
  else if (c =? 66)%N then Some (seq_to_re f_month)
  else None.

Definition regex_chars : text := txt "\.^$*+?(){}[]|".

(** [TimeRE.pattern(format)]: the regular expression of a format and the
    directive letters in order. *)
Fixpoint format_pattern (f : text) (in_space : bool) : option (text * list cp) :=
  match f with
  | [] => Some ([], [])
  | 37%N :: c :: r =>
      match directive_regex c, format_pattern r false with
      | Some re, Some (src, keys) => Some ((txt re ++ src)%list, c :: keys)
      | _, _ => None
      end
  | c :: r =>
      match format_pattern r (Py.is_space c) with
      | Some (src, keys) =>
          if Py.is_space c
          then Some (((if in_space then [] else txt "\s+") ++ src)%list, keys)
          else if Py.mem_cp regex_chars c then Some (92%N :: c :: src, keys)
          else Some (c :: src, keys)
      | None => None
      end
  end.

Fixpoint index_of (x : text) (l : list string) (i : Z) : option Z :=
  match l with
  | [] => None
  | y :: r => if text_eqb x (txt y) then Some i else index_of x r (i + 1)%Z
  end.

(** [int(s)] on a group of digits, possibly after a space. *)
Definition int_of_group (s : text) : Z :=
  Z.of_N (Py.N_of_digits (Py.strip s)).

(** The fields a directive sets (year, month, day). *)
Definition set_field (key : cp) (g : text) (ymd : Z * Z * Z) : option (Z * Z * Z) :=
  let '(y, m, d) := ymd in
  if (key =? 121)%N then
    let yy := int_of_group g in
    Some ((if yy <=? 68 then yy + 2000 else yy + 1900)%Z, m, d)
  else if (key =? 89)%N then Some (int_of_group g, m, d)
  else if (key =? 109)%N then Some (y, int_of_group g, d)
  else if (key =? 66)%N then
    match index_of (Py.lower g) f_month 1 with Some i => Some (y, i, d) | None => None end
  else if (key =? 98)%N then
    match index_of (Py.lower g) a_month 1 with Some i => Some (y, i, d) | None => None end
  else if (key =? 100)%N then Some (y, m, int_of_group g)
  else None.

Fixpoint set_fields (keys : list cp) (gs : list (option text)) (ymd : Z * Z * Z)
  : option (Z * Z * Z) :=
  match keys, gs with
  | [], _ => Some ymd
  | k :: ks, Some g :: gr =>
      match set_field k g ymd with
      | Some ymd' => set_fields ks gr ymd'
      | None => None
      end
  | _, _ => None
  end.

(** [datetime.strptime(s, fmt)]; [None] is its [ValueError]. *)
Definition strptime (s : text) (fmt : string) : option date :=
  match format_pattern (txt fmt) false with
  | None => None
  | Some (src, keys) =>
      match Re.compile src Re.IGNORECASE with
      | None => None
      | Some p =>
          match Re.match_ p s with
          | None => None
          | Some m =>
              if negb (Re.m_end m =? length s)%nat then None
              else
                match set_fields keys (Re.groups p s m) (1900, 1, 1)%Z with
                | Some (y, mo, d) =>
                    let dt := mkdate y mo d in
                    if valid_date dt then Some dt else None
                | None => None
                end
          end
      end
  end.

(** Two digits, zero-padded. *)
Definition two_digits (z : Z) : text :=
  [(48 + Z.to_N (z / 10 mod 10))%N; (48 + Z.to_N (z mod 10))%N].

Definition month_abbr_cap (m : Z) : text :=
  Py.title (txt (nth (Z.to_nat (m - 1)) a_month "")).

(** [d.strftime("%d-%b-%y")] *)
Definition strftime_dby (d : date) : text :=
  (two_digits (day d) ++ [45%N] ++ month_abbr_cap (month d) ++ [45%N]
   ++ two_digits (year d mod 100))%list.

(** Lines 15-19. *)
Definition formats : list string :=
  ["%d-%b-%y"; "%d-%b-%Y"; "%d %b %Y"; "%d %B %Y";
   "%d/%m/%y"; "%d/%m/%Y"; "%m/%d/%y"; "%m/%d/%Y";
   "%Y-%m-%d"; "%d %B %Y"; "%d %b %Y"].

Definition ordinal_pattern := re_const "(\d+)(th|st|nd|rd)\b" Re.no_flags.
Definition zero_width_pattern := re_const "[\u200B-\u200D\uFEFF]" Re.no_flags.
Definition whitespace_pattern := re_const "\s+" Re.no_flags.

(** Lines 22-24. *)
Definition normalize (date_str : text) : text :=
  let cleaned := Re.sub ordinal_pattern Re.repl_group1 (Py.strip date_str) in
  let cleaned := Re.sub zero_width_pattern (Re.repl_const []) cleaned in
  Re.sub whitespace_pattern (Re.repl_const (txt " ")) cleaned.

(** The first format that parses (lines 27-31). *)
Fixpoint try_formats (cleaned : text) (fmts : list string) : option date :=
  match fmts with
  | [] => None
  | fmt :: r =>
      match strptime cleaned fmt with
      | Some d => Some d
      | None => try_formats cleaned r
      end
  end.

(** The two parsers outside the script: [strptime] under the locales
    en_US, fr_FR, es_ES (lines 34-45) and [dateutil.parser.parse]
    (lines 48-52); [None] when they raise. *)
Record fallbacks := {
  locale_strptime : text -> option date;
  dateutil_parse : text -> option date
}.
Definition no_fallbacks : fallbacks :=
  {| locale_strptime := fun _ => None; dateutil_parse := fun _ => None |}.

(** [parse_date] *)
Definition parse_date (fb : fallbacks) (date_str : text) : option date :=
  let cleaned := normalize date_str in
  match try_formats cleaned formats with
  | Some d => Some d
  | None =>
      match locale_strptime fb cleaned with
      | Some d => Some d
      | None => dateutil_parse fb cleaned
      end
  end.

End Dates.

(** ** clean_text (lines 321-338) *)

Definition clean_text (t : text) : text :=
  match t with
  | [] => t
  | _ =>
      let t := Py.replace 8217 (txt "'") t in
      let t := Py.replace 8216 (txt "'") t in
      let t := Py.replace 8220 [34] t in
      let t := Py.replace 8221 [34] t in
      let t := Py.replace 8211 (txt "-") t in
      let t := Py.replace 8212 (txt "-") t in
      let t := Py.replace 160 (txt " ") t in
      Py.strip (Re.sub (re_const "\s+" Re.no_flags) (Re.repl_const (txt " ")) t)
  end.

(** ** Eligibility summary (lines 531-592) *)

Module Eligibility.

Local Open Scope string_scope.

Definition sentinel : text := txt "See official guidelines".

Definition eligibility_keywords : list string :=
  ["Eligibility Criteria"; "Who can apply?"; "Eligible Applicants"; "Eligibility"].

Definition end_markers : list string :=
  ["Funding Information"; "How to Apply"; "Application Process";
   "Award Information"; "Prize Information"; "Focus Areas"; "Thematic Areas";
   "Objectives"; "Benefits"].

Local Close Scope string_scope.
Local Open Scope nat_scope.

(** [rf'(?:^|[\s.:;])\s*({re.escape(word)})\b'] *)
Definition heading_src (word : string) : text :=
  txt "(?:^|[\s.:;])\s*(" ++ Re.escape (txt word) ++ txt ")\b".

(** The keyword loop (lines 538-550): start index and matched text of the
    first keyword of the list that occurs as a heading.  A pattern that
    does not compile is skipped. *)
Fixpoint find_keyword (keywords : list string) (full : text) : option (nat * text) :=
  match keywords with
  | [] => None
  | keyword :: r =>
      match Re.compile (heading_src keyword) Re.IGNORECASE_MULTILINE with
      | None => find_keyword r full
      | Some p =>
          match Re.search p full with
          | Some m =>
              match Re.start m 1, Re.group full m 1 with
              | Some i, Some found_keyword => Some (i, found_keyword)
              | _, _ => find_keyword r full
              end
          | None => find_keyword r full
          end
      end
  end.

(** The end-marker loop (lines 559-568). *)
Fixpoint find_end (markers : list string) (eligibility_text : text) (end_pos : nat)
  : nat :=
  match markers with
  | [] => end_pos
  | marker :: r =>
      match Re.compile (heading_src marker) Re.IGNORECASE_MULTILINE with
      | None => find_end r eligibility_text end_pos
      | Some p =>
          match Re.search p eligibility_text with
          | Some m => find_end r eligibility_text (Nat.min end_pos (Re.m_start m))
          | None => find_end r eligibility_text end_pos
          end
      end
  end.

(** [eligibility_text_segment] (lines 553-570), when a keyword is found. *)
Definition segment_after (start_index : nat) (found_keyword : text) (full : text)
  : text :=
  let start_pos := start_index + length found_keyword in
  let eligibility_text := Py.strip (drop start_pos full) in
  let eligibility_text :=
    Re.sub (re_const "^[:\s]+" Re.no_flags) (Re.repl_const []) eligibility_text in
  let end_pos := find_end end_markers eligibility_text (length eligibility_text) in
  Py.strip (take end_pos eligibility_text).

Definition eligibility_segment (full : text) : option text :=
  match find_keyword eligibility_keywords full with
  | None => None
  | Some (i, kw) => Some (segment_after i kw full)
  end.

Definition max_len : nat := 300.

(** Lines 571-583: the summary drawn from the bounded segment. *)
Definition summarize_segment (seg : text) : text :=
  if max_len <? length seg then
    match Py.rfind 46%N seg max_len with
    | Some cutoff_point =>
        (* cutoff_point > max_len * 0.5 *)
        if max_len <? 2 * cutoff_point
        then take (cutoff_point + 1) seg
        else Py.strip (take max_len seg) ++ txt "..."
    | None => Py.strip (take max_len seg) ++ txt "..."
    end
  else if 5 <? length seg then seg
  else sentinel.

(** [eligibility_summary] at the end of the block. *)
Definition eligibility_summary (full : text) : text :=
  match eligibility_segment full with
  | None => sentinel
  | Some seg => summarize_segment seg
  end.

End Eligibility.

(** ** Records *)

(** A grant dictionary: the nine keys of line 309.  A key holding [None]
    is [None]; [amount] holds [None], an [int] or a [str]. *)
Record grant := mkgrant {
  deadline : option text;
  title : option text;
  applicationUrl : option text;
  organization : option text;
  description : option text;
  amount : pyval;
  status : option text;
  eligibility : option text;
  category : option text
}.

(** Lines 309-311. *)
Definition default_grant : grant :=
  {| deadline := None; title := None; applicationUrl := None;
     organization := None; description := None; amount := VNone;
     status := Some (txt "active");
     eligibility := Some (txt "See official guidelines");
     category := Some (txt "General") |}.

Definition unknown_organization : text := txt "Unknown Organization".
Definition organization_not_found : text := txt "Organization Not Found".

(** What the HTML collaborator yields for one listing (BeautifulSoup
    lookups on the [article] tag). *)
Record article := {
  (** [article.find('h2', class_='entry-title')] is found *)
  a_title_tag : bool;
  (** its [a] tag exists and has an [href] *)
  a_link_href : bool;
  (** [.text] of the first author / organization / org-name tag *)
  a_org_tag : option text;
  (** the paragraph text around a [<strong>Deadline</strong>] tag: no such
      tag, a tag without a parent paragraph, or the paragraph's text *)
  a_deadline_tag : option (option text)
}.

(** ** Organisation resolver *)

Module Organization.

Local Open Scope string_scope.

Definition stoplist : list string :=
  ["com"; "org"; "net"; "gov"; "edu"; "co"; "ac"; "uk"; "www"].

Definition in_stoplist (l : list string) (p : text) : bool :=
  existsb (fun w => text_eqb (Py.lower p) (txt w)) l.

Definition title_patterns : list string :=
  ["(?:by|from|at|for)\s+([A-Z][A-Za-z\s&'-]+?(?=\s+(Grant|Award|Program|Prize|Fellowship)))";
   "(?:by|from|at|for)\s+([A-Z][A-Za-z\s&'-]+?(?=\.|$))";
   "(?:presented by|sponsored by|supported by)\s+([A-Z][A-Za-z\s&'-]+)"].

Definition description_patterns : list string :=
  ["(?:The|A|An)\s+([A-Z][A-Za-z\s&'-]+?(?=\s+(is|has|announces|offers)))";
   "([A-Z][A-Za-z\s&'-]+?(?=\s+(Grant|Award|Program|Initiative)))";
   "(?:funded by|sponsored by)\s+([A-Z][A-Za-z\s&'-]+)"].

Definition url_org_patterns : list string :=
  ["https?://(?:www\.)?([a-zA-Z0-9-]+)\.";
   "https?://(?:www\.)?[a-zA-Z0-9-]+\.([a-zA-Z0-9-]+)\."].

Local Close Scope string_scope.

(** [next((g for g in match.groups() if g), None)] *)
Fixpoint first_group (gs : list (option text)) : option text :=
  match gs with
  | [] => None
  | g :: r => if truthy g then g else first_group r
  end.

(** The loop over name patterns (lines 380-385 and 409-414):
    [org.strip("'s").strip()], cleaned, of the first pattern that yields a
    non-empty group. *)
Fixpoint by_patterns (pats : list string) (subject : text) : option text :=
  match pats with
  | [] => None
  | src :: r =>
      let p := re_const src Re.IGNORECASE in
      match Re.search p subject with
      | Some m =>
          match first_group (Re.groups p subject m) with
          | Some org => Some (clean_text (Py.strip (Py.strip_chars (txt "'s") org)))
          | None => by_patterns r subject
          end
      | None => by_patterns r subject
      end
  end.

(** [max(parts, key=len)]: the first longest element. *)
Fixpoint longest (best : text) (parts : list text) : text :=
  match parts with
  | [] => best
  | p :: r => if (length best <? length p)%nat then longest p r else longest best r
  end.

(** Priority 2 (lines 388-398). *)
Definition from_domain (url : text) : option text :=
  let pieces := Py.split 47 url in
  let domain := if (2 <? length pieces)%nat then nth 2 pieces [] else [] in
  match filter (fun p => negb (in_stoplist stoplist p)) (Py.split 46 domain) with
  | [] => None
  | p :: r => Some (clean_text (Py.title (Py.replace 45 (txt " ") (longest p r))))
  end.

(** Priority 5 (lines 425-433). *)
Fixpoint from_url_patterns (pats : list string) (url : text) : option text :=
  match pats with
  | [] => None
  | src :: r =>
      let p := re_const src Re.no_flags in
      match Re.search p url with
      | Some m =>
          match Re.group url m 1 with
          | Some g =>
              if truthy (Some g) && negb (in_stoplist stoplist g)
              then Some (clean_text (Py.title (Py.replace 45 (txt " ") g)))
              else from_url_patterns r url
          | None => from_url_patterns r url
          end
      | None => from_url_patterns r url
      end
  end.

(** Hostname fallback (lines 436-447), given [urlparse(url).netloc]
    ([None] when it raises). *)
Definition from_hostname (netloc : text -> option text) (url : text) : option text :=
  match netloc url with
  | Some ((_ :: _) as hostname) =>
      let org_name := Re.sub (re_const "^www\." Re.no_flags) (Re.repl_const []) hostname in
      let org_name :=
        Re.sub (re_const "\.(com|org|net|gov|edu|co|ac|uk)$" Re.no_flags)
               (Re.repl_const []) org_name in
      match org_name with
      | [] => None
      | _ => Some (clean_text (Py.title (Py.replace 45 (txt " ")
                                  (nth 0 (Py.split 46 org_name) []))))
      end
  | _ => None
  end.

Definition or_try (a : option text) (b : option text) : option text :=
  match a with Some x => Some x | None => b end.

Definition when_truthy (o : option text) (f : text -> option text) : option text :=
  if truthy o then f (default [] o) else None.

(** [extract_organization(article, grant)] (lines 370-450).  [re.search]
    on a title that is [None] raises [TypeError]. *)
Definition extract_organization (netloc : text -> option text)
    (art : option article) (g : grant) : result text :=
  match title g with
  | None => Raise TypeError
  | Some title =>
      let url := applicationUrl g in
      Return
        (default unknown_organization
           (or_try (by_patterns title_patterns title)
           (or_try (when_truthy url from_domain)
           (or_try (when_truthy (description g)
                      (fun desc => by_patterns description_patterns
                                     (nth 0 (Py.split 46 desc) [])))
           (or_try (match art with
                    | Some a =>
                        match a_org_tag a with
                        | Some t =>
                            match Py.strip t with
                            | [] => None
                            | s => Some (clean_text s)
                            end
                        | None => None
                        end
                    | None => None
                    end)
           (or_try (when_truthy url (from_url_patterns url_org_patterns))
                   (when_truthy url (from_hostname netloc))))))))
  end.

(** Lines 458-460: the three cleaning steps. *)
Definition clean_name (o : text) : text :=
  let o := Re.sub (re_const "(https?://|www\.)" Re.IGNORECASE) (Re.repl_const []) o in
  let o :=
    Re.sub (re_const "\b(Trust|Foundation|Fund|Org(a?nization)?|Programme?)\b"
                      Re.IGNORECASE) (Re.repl_const []) o in
  Py.strip_chars (txt " -_./") o.

(** Lines 457-462: cleaning of the resolved name. *)
Definition post_process (org : option text) : option text :=
  match org with
  | Some ((_ :: _) as o) =>
      if text_eqb o unknown_organization || text_eqb o organization_not_found
      then org
      else if (length (clean_name o) <? 3)%nat then Some unknown_organization
           else Some (clean_name o)
  | _ => org
  end.

(** [extract_org_from_url] (lines 753-776); [None] is Python's [None]. *)
Definition extract_org_from_url (url : text) : option text :=
  let url_parts := Py.split 47 url in
  if (2 <? length url_parts)%nat then
    let domain := nth 2 url_parts [] in
    let domain_parts := Py.split 46 domain in
    let n := length domain_parts in
    if (2 <=? n)%nat then
      let org_name := nth (n - 2) domain_parts [] in
      if negb (in_stoplist ["com"; "org"; "net"; "gov"; "edu"; "co"; "ac"]%string org_name)
      then Some (Py.title (Py.replace 45 (txt " ") org_name))
      else if (2 <? n)%nat
           then Some (Py.title (Py.replace 45 (txt " ") (nth (n - 3) domain_parts [])))
           else Some domain
    else Some domain
  else None.

Local Open Scope string_scope.

Definition batch_title_patterns : list string :=
  ["([\w\s&\-',.]+?)(?:'s|s'|s) (?:Grant|Award|Prize|Program|Programme|Initiative|Fund)";
   "(?:by|from|sponsored by|offered by|from the|by the) ([\w\s&\-',.]+)"].

Local Close Scope string_scope.

(** Lines 793-800: the first pattern that matches decides; its group is
    kept only when [3 < len < 50]. *)
Fixpoint batch_from_title (pats : list string) (t : text) : option text :=
  match pats with
  | [] => None
  | src :: r =>
      let p := re_const src Re.no_flags in
      match Re.search p t with
      | Some m =>
          let potential_org := Py.strip (default [] (Re.group t m 1)) in
          if (3 <? length potential_org)%nat && (length potential_org <? 50)%nat
          then Some potential_org
          else batch_from_title r t
      | None => batch_from_title r t
      end
  end.

(** Lines 803-831: a generic label from keywords of the title, the raw
    domain as last resort. *)
Definition generic_label (t : text) (url : text) (current : text) : text :=
  let has w := Py.contains (txt w) t in
  if has "UN"%string || has "United Nations"%string then txt "United Nations"
  else if has "UNESCO"%string then txt "UNESCO"
  else if has "WHO"%string then txt "World Health Organization"
  else if has "EU"%string || has "European Union"%string then txt "European Union"
  else if has "Foundation"%string then
    let p := re_const "([\w\s&\-',.]+Foundation)" Re.no_flags in
    match Re.search p t with
    | Some m => default [] (Re.group t m 1)
    | None => txt "Foundation Grant"
    end
  else if has "Award"%string then txt "Award Program"
  else if has "Prize"%string then txt "Prize Program"
  else if has "Scholarship"%string then txt "Scholarship Program"
  else if has "Fellowship"%string then txt "Fellowship Program"
  else
    let url_parts := Py.split 47 url in
    if (2 <? length url_parts)%nat then nth 2 url_parts [] else current.

(** [grant['organization'] == "Organization Not Found"] *)
Definition is_not_found (o : option text) : bool :=
  match o with
  | Some t => text_eqb t organization_not_found
  | None => false
  end.

(** The body of the reconciliation loop (lines 779-831) on one grant. *)
Definition reconcile (g : grant) : result grant :=
  let set_org o :=
    {| deadline := deadline g; title := title g; applicationUrl := applicationUrl g;
       organization := Some o; description := description g; amount := amount g;
       status := status g; eligibility := eligibility g; category := category g |} in
  if is_not_found (organization g) then
    match applicationUrl g with
    | None => Raise AttributeError
    | Some url =>
        if truthy (extract_org_from_url url)
        then Return (set_org (default [] (extract_org_from_url url)))
        else
          let from_title :=
            default organization_not_found
                    (when_truthy (title g) (batch_from_title batch_title_patterns)) in
          if text_eqb from_title organization_not_found then
            match title g with
            | None => Raise TypeError
            | Some t => Return (set_org (generic_label t url organization_not_found))
            end
          else Return (set_org from_title)
    end
  else Return g.

End Organization.

(** ** The scraping loop (lines 242-693) and the save pass (lines 714-746) *)

Module Pipeline.

(** Line 246. *)
Definition deadline_cutoff : Dates.date := Dates.mkdate 2025 4 2.

(** The [entry-content] block of a detail page. *)
Record content := {
  (** [' '.join(content_div.stripped_strings)] *)
  c_text : text;
  (** [urljoin(url, href)] of the link in the "For more information"
      paragraph, when there is one *)
  c_external_url : option text
}.

(** One listing page as the fetch collaborator returns it. *)
Inductive page :=
| PageRequestError (status_429 : bool)
| PageOtherError
| PageArticles (articles : list article).

(** Everything outside the script. *)
Record world := {
  date_fallbacks : Dates.fallbacks;
  netloc : text -> option text;
  (** [requests.get(url)] and the lookup of the [entry-content] block;
      [Raise RequestException] for a failed request *)
  fetch_detail : text -> article -> result (option content);
  (** the listing page number [n] *)
  fetch_page : nat -> page
}.

(** Locals of one iteration and the state of the run. *)
Record state := mkstate {
  cur : grant;
  full_description_text : text;
  cleaned_description : text;
  deadline_str_extracted : option text;
  external_application_url : option text;
  grants : list grant;
  existing_grant_urls : gset (option text);
  processed_urls : gset (option text);
  page_has_valid_grants : bool;
  (** [clean_text] and [clean_amount_value] are bound (lines 321, 341) *)
  helpers_defined : bool
}.

Definition set_cur (f : grant -> grant) (st : state) : state :=
  mkstate (f (cur st)) (full_description_text st) (cleaned_description st)
          (deadline_str_extracted st) (external_application_url st) (grants st)
          (existing_grant_urls st) (processed_urls st) (page_has_valid_grants st)
          (helpers_defined st).

Definition with_deadline (v : option text) (g : grant) : grant :=
  mkgrant v (title g) (applicationUrl g) (organization g) (description g)
          (amount g) (status g) (eligibility g) (category g).
Definition with_title (v : option text) (g : grant) : grant :=
  mkgrant (deadline g) v (applicationUrl g) (organization g) (description g)
          (amount g) (status g) (eligibility g) (category g).
Definition with_url (v : option text) (g : grant) : grant :=
  mkgrant (deadline g) (title g) v (organization g) (description g)
          (amount g) (status g) (eligibility g) (category g).
Definition with_organization (v : option text) (g : grant) : grant :=
  mkgrant (deadline g) (title g) (applicationUrl g) v (description g)
          (amount g) (status g) (eligibility g) (category g).
Definition with_description (v : option text) (g : grant) : grant :=
  mkgrant (deadline g) (title g) (applicationUrl g) (organization g) v
          (amount g) (status g) (eligibility g) (category g).
Definition with_amount (v : pyval) (g : grant) : grant :=
  mkgrant (deadline g) (title g) (applicationUrl g) (organization g) (description g)
          v (status g) (eligibility g) (category g).
Definition with_eligibility (v : option text) (g : grant) : grant :=
  mkgrant (deadline g) (title g) (applicationUrl g) (organization g) (description g)
          (amount g) (status g) v (category g).

Definition mark_processed (st : state) : state :=
  mkstate (cur st) (full_description_text st) (cleaned_description st)
          (deadline_str_extracted st) (external_application_url st) (grants st)
          (existing_grant_urls st)
          ({[ applicationUrl (cur st) ]} ∪ processed_urls st)
          (page_has_valid_grants st) (helpers_defined st).

(** How a stretch of the loop body ends: it falls through, executes
    [continue], or raises. *)
Inductive flow :=
| Next
| Continue
| Exc (e : exn).

Definition stage := state -> flow * state.

Definition then_ (s1 s2 : stage) : stage :=
  fun st => match s1 st with
            | (Next, st') => s2 st'
            | other => other
            end.
Infix ">>" := then_ (at level 61, left associativity).

(** Lines 313-318. *)
Definition guard_title (a : article) : stage :=
  fun st => if a_title_tag a && a_link_href a then (Next, st) else (Continue, st).

(** Lines 321, 341, 370: the nested functions get bound. *)
Definition define_helpers : stage :=
  fun st =>
    (Next, mkstate (cur st) (full_description_text st) (cleaned_description st)
                   (deadline_str_extracted st) (external_application_url st)
                   (grants st) (existing_grant_urls st) (processed_urls st)
                   (page_has_valid_grants st) true).

(** Lines 454-462. *)
Definition stage_organization (w : world) (a : article) : stage :=
  fun st =>
    match Organization.extract_organization (netloc w) (Some a) (cur st) with
    | Raise e => (Exc e, st)
    | Return org =>
        (Next, set_cur (with_organization (Organization.post_process (Some org))) st)
    end.

(** Lines 465-468: [extract_amount_from_text] is bound nowhere. *)
Definition stage_amount_from_text : stage :=
  fun st =>
    match amount (cur st) with
    | VStr ((_ :: _) as s) =>
        if text_eqb s (txt "null") then (Exc NameError, st) else (Next, st)
    | VInt z => if (z =? 0)%Z then (Exc NameError, st) else (Next, st)
    | _ => (Exc NameError, st)
    end.

Definition clean_field (o : option text) : option text :=
  if truthy o then option_map clean_text o else o.

(** Lines 492-494. *)
Definition stage_clean_fields : stage :=
  fun st =>
    (Next, set_cur (fun g =>
                      with_eligibility (clean_field (eligibility g))
                        (with_description (clean_field (description g))
                           (with_title (clean_field (title g)) g))) st).

(** The decision of lines 599-609 and 616-627 on one deadline text. *)
Inductive verdict :=
| After (d : Dates.date)
| NotAfter (d : Dates.date)
| Unparsed.

Definition judge (w : world) (deadline_str : text) : verdict :=
  match Dates.parse_date (date_fallbacks w) deadline_str with
  | Some d => if Dates.date_ltb deadline_cutoff d then After d else NotAfter d
  | None => Unparsed
  end.

Definition deadline_pattern : Re.pattern :=
  re_const "Deadline\s*:\s*([\w\s,-]+?\d{4}|\d{1,2}[-/][A-Za-z]{3,}[-/]\d{2,4})"
           Re.IGNORECASE.

(** [re.sub(r'Deadline\s*:\s*' + re.escape(s), '', description,
    flags=re.IGNORECASE).strip()] *)
Definition remove_deadline (s : text) (descr : text) : result text :=
  match Re.compile (txt "Deadline\s*:\s*" ++ Re.escape s) Re.IGNORECASE with
  | Some p => Return (Py.strip (Re.sub p (Re.repl_const []) descr))
  | None => Raise ReError
  end.

(** Lines 596-598: the deadline text of the detail page. *)
Definition detail_deadline_text (full : text) : option text :=
  match Re.search deadline_pattern full with
  | Some m => Some (Py.strip (default [] (Re.group full m 1)))
  | None => None
  end.

(** Lines 613-615: the deadline text of the listing; [Raise] when the
    tag has no parent paragraph. *)
Definition listing_deadline_text (a : article) : result (option text) :=
  match a_deadline_tag a with
  | None => Return None
  | Some None => Raise AttributeError
  | Some (Some paragraph) =>
      Return (Some (Py.strip (List.last (Py.split 58 paragraph) [])))
  end.

(** Lines 600-609 and 617-627: a deadline text found, judged and, when
    after the cutoff, stored. *)
Definition take_deadline (w : world) (deadline_str : text) : stage :=
  fun st =>
    match judge w deadline_str with
    | After d =>
        let st1 :=
          mkstate (with_deadline (Some (Dates.strftime_dby d)) (cur st))
                  (full_description_text st) (cleaned_description st)
                  (Some deadline_str) (external_application_url st) (grants st)
                  (existing_grant_urls st) (processed_urls st) true
                  (helpers_defined st) in
        match remove_deadline deadline_str (cleaned_description st1) with
        | Return descr =>
            (Next, mkstate (cur st1) (full_description_text st1) descr
                           (deadline_str_extracted st1) (external_application_url st1)
                           (grants st1) (existing_grant_urls st1) (processed_urls st1)
                           (page_has_valid_grants st1) (helpers_defined st1))
        | Raise e => (Exc e, st1)
        end
    | NotAfter _ => (Continue, mark_processed st)
    | Unparsed => (Next, st)
    end.

Definition apply_eligibility (full : text) (g : grant) : grant :=
  let summary := Eligibility.eligibility_summary full in
  if text_eqb summary Eligibility.sentinel then g
  else with_eligibility (Some summary) g.

(** Lines 496-609. *)
Definition stage_detail (w : world) (a : article) : stage :=
  fun st =>
    match title (cur st), applicationUrl (cur st) with
    | None, _ => (Exc TypeError, st)
    | Some _, None => (Exc RequestException, st)
    | Some _, Some url =>
        match fetch_detail w url a with
        | Raise e => (Exc e, st)
        | Return content_div =>
            let st0 :=
              mkstate (cur st) [] (txt "Description not found.") None (Some url)
                      (grants st) (existing_grant_urls st) (processed_urls st)
                      (page_has_valid_grants st) (helpers_defined st) in
            match content_div with
            | None => (Next, st0)
            | Some c =>
                let full := c_text c in
                let st1 :=
                  mkstate (apply_eligibility full (cur st0)) full full
                          (detail_deadline_text full)
                          (match c_external_url c with
                           | Some u => Some u
                           | None => Some url
                           end)
                          (grants st0) (existing_grant_urls st0) (processed_urls st0)
                          (page_has_valid_grants st0) (helpers_defined st0) in
                match detail_deadline_text full with
                | Some deadline_str => take_deadline w deadline_str st1
                | None => (Next, st1)
                end
            end
        end
    end.

(** Lines 612-627. *)
Definition stage_listing_deadline (w : world) (a : article) : stage :=
  fun st =>
    match deadline (cur st) with
    | Some _ => (Next, st)
    | None =>
        match listing_deadline_text a with
        | Return None => (Next, st)
        | Return (Some deadline_str) => take_deadline w deadline_str st
        | Raise e => (Exc e, st)
        end
    end.

(** Lines 630-647. *)
Definition stage_checks : stage :=
  fun st =>
    match deadline (cur st) with
    | None => (Continue, mark_processed st)
    | Some dl =>
        if negb (truthy (title (cur st)) && truthy (applicationUrl (cur st))
                 && truthy (Some dl))
        then (Continue, st)
        else
          match Dates.strptime dl "%d-%b-%y" with
          | Some d =>
              if Dates.date_leb d deadline_cutoff then (Continue, st) else (Next, st)
          | None => (Continue, st)
          end
    end.

(** Line 650. *)
Definition final_description (cleaned : text) : text :=
  Py.strip (take 500 cleaned) ++ (if (500 <? length cleaned)%nat then txt "..." else []).

(** Lines 650-658. *)
Definition stage_finalize : stage :=
  fun st =>
    match Amount.extract_amount (full_description_text st) with
    | Raise e =>
        (Exc e, set_cur (with_description
                           (Some (final_description (cleaned_description st)))) st)
    | Return (amount_with_currency, _) =>
        (Next, set_cur (fun g =>
                          with_url (external_application_url st)
                            (with_amount amount_with_currency
                               (with_description
                                  (Some (final_description (cleaned_description st)))
                                  g))) st)
    end.

(** Lines 662-670: the deduplication gate. *)
Definition stage_dedup : stage :=
  fun st =>
    let url := applicationUrl (cur st) in
    let st' :=
      if bool_decide (url ∈ existing_grant_urls st) then st
      else mkstate (cur st) (full_description_text st) (cleaned_description st)
                   (deadline_str_extracted st) (external_application_url st)
                   (grants st ++ [cur st])
                   ({[ url ]} ∪ existing_grant_urls st)
                   (processed_urls st) (page_has_valid_grants st)
                   (helpers_defined st) in
    (Next, mark_processed st').

(** The body of the [try] of one article (lines 313-670). *)
Definition article_body (w : world) (a : article) : stage :=
  guard_title a >> define_helpers >> stage_organization w a
  >> stage_amount_from_text >> stage_clean_fields >> stage_detail w a
  >> stage_listing_deadline w a >> stage_checks >> stage_finalize >> stage_dedup.

(** One iteration of the article loop: fresh dictionary (line 309), body,
    and the two handlers (lines 672-678), which both go on to the next
    article. *)
Definition process_article (w : world) (st : state) (a : article) : state :=
  snd (article_body w a (set_cur (fun _ => default_grant) st)).

Definition set_page_flag (b : bool) (st : state) : state :=
  mkstate (cur st) (full_description_text st) (cleaned_description st)
          (deadline_str_extracted st) (external_application_url st) (grants st)
          (existing_grant_urls st) (processed_urls st) b (helpers_defined st).

(** The page loop (lines 290-693) over the page numbers [ns]; the second
    component lists the pages whose articles were scanned. *)
Fixpoint scrape (w : world) (ns : list nat) (st : state) : state * list nat :=
  match ns with
  | [] => (st, [])
  | n :: rest =>
      match fetch_page w n with
      | PageRequestError true => (st, [])
      | PageRequestError false => scrape w rest st
      | PageOtherError => scrape w rest st
      | PageArticles [] => (st, [])
      | PageArticles articles =>
          let st' := fold_left (process_article w) articles (set_page_flag false st) in
          if page_has_valid_grants st'
          then let '(st'', scanned) := scrape w rest st' in (st'', n :: scanned)
          else (st', [n])
      end
  end.

(** Lines 253-264 and 283-284: the state at the start of the loop, for a
    store that holds the list [loaded]. *)
Definition initial_state (loaded : list grant) : state :=
  mkstate default_grant [] [] None None loaded
          (list_to_set (map applicationUrl loaded)) ∅ false false.

(** [for page in range(1, 11)] *)
Definition run (w : world) (loaded : list grant) : state * list nat :=
  scrape w (seq 1 10) (initial_state loaded).

(** [clean_amount_value] (lines 341-367). *)
Definition clean_amount_value (amount_str : pyval) : pyval :=
  match amount_str with
  | VNone => VNone
  | VInt z => if (z =? 0)%Z then VNone else VStr (txt "$" ++ Py.fmt_comma_Z z)
  | VStr [] => VNone
  | VStr ((c :: _) as s) =>
      if Py.isdigit s then VStr (txt "$" ++ Py.fmt_comma_Z (Z.of_N (Py.N_of_digits s)))
      else if Py.mem_cp (txt "$£€") c then
        match Flt.py_float (Re.sub (re_const "[^\d.]" Re.no_flags) (Re.repl_const []) s) with
        | Some value => VStr (c :: Flt.fmt_comma_0f value)
        | None => VStr s
        end
      else VStr s
  end.

Definition is_falsy (v : pyval) : bool :=
  match v with
  | VNone => true
  | VInt z => (z =? 0)%Z
  | VStr s => match s with [] => true | _ => false end
  end.

Definition or_empty (o : option text) : option text :=
  match o with None => Some [] | Some _ => o end.

(** The clean-up of one grant before saving (lines 719-737). *)
Definition cleanup (g : grant) : grant :=
  let g1 :=
    mkgrant (or_empty (deadline g)) (or_empty (title g)) (or_empty (applicationUrl g))
            (or_empty (organization g)) (or_empty (description g)) (amount g)
            (or_empty (status g)) (or_empty (eligibility g)) (or_empty (category g)) in
  let g2 :=
    with_eligibility (clean_field (eligibility g1))
      (with_description (clean_field (description g1))
         (with_title (clean_field (title g1)) g1)) in
  if is_falsy (amount g2) then g2
  else with_amount (clean_amount_value (amount g2)) g2.

(** Whether the clean-up of [g] calls one of the nested helpers. *)
Definition needs_helpers (g : grant) : bool :=
  truthy (title g) || truthy (description g) || truthy (eligibility g)
  || negb (is_falsy (amount g)).

(** The save block (lines 714-746): the list written to the file, or
    [None] when the block fails ([NameError] for an unbound helper) and
    the file is left as it was. *)
Definition save (st : state) : option (list grant) :=
  if helpers_defined st || negb (existsb needs_helpers (grants st))
  then Some (map cleanup (grants st))
  else None.

End Pipeline.

(** * Notions used in the statements *)

(** A [re.compile] that fails on one source and is the script's elsewhere. *)
Definition failing_on (src : string) : Amount.compiler :=
  fun s fl => if text_eqb s (txt src) then None else Re.compile s fl.

(** A text with the amount "$1,000,...,000" of 310 digits. *)
Definition huge_amount_text : text :=
  txt "grant of $1" ++ concat (repeat (txt ",000") 103).

(** The value of a pooled candidate. *)
Definition cand_value (c : Amount.candidate) : Z := fst (fst c).

(** No element of the list has a larger value than the first. *)
Definition head_is_max (l : list Amount.candidate) : Prop :=
  match l with
  | [] => True
  | x :: r => Forall (fun y => (cand_value y <= cand_value x)%Z) r
  end.

(** All spellings of a word in upper and lower case letters. *)
Fixpoint case_variants (s : text) : list text :=
  match s with
  | [] => [[]]
  | c :: r =>
      if Py.is_alpha c
      then map (cons (Py.to_lower c)) (case_variants r)
           ++ map (cons (Py.to_upper c)) (case_variants r)
      else map (cons c) (case_variants r)
  end.

(** The day 2 with and without leading zero and ordinal suffix. *)
Definition day_forms : list text :=
  map txt ["2"; "2nd"; "2st"; "2rd"; "2th"; "02"; "02nd"; "02st"; "02rd"; "02th"]%string.

(** The same day forms with the ordinal suffix in another letter case
    ("2ND", "02Th", ...). *)
Definition shouted_day_forms : list text :=
  filter (fun d => negb (existsb (text_eqb d) day_forms))
         (flat_map case_variants day_forms).

(** Spellings of 2 April 2025 for the given day forms: month name or
    abbreviation in any letter case, and the layouts "d-Mon-yy",
    "d-Mon-yyyy", "d Mon yyyy", "d Month yyyy". *)
Definition spellings (days : list text) : list text :=
  flat_map (fun d =>
    flat_map (fun m => [d ++ txt "-" ++ m ++ txt "-25";
                        d ++ txt "-" ++ m ++ txt "-2025";
                        d ++ txt " " ++ m ++ txt " 2025"])
             (case_variants (txt "apr"))
    ++ map (fun m => d ++ txt " " ++ m ++ txt " 2025") (case_variants (txt "april")))
  days.

Definition april_2_2025_variants : list text := spellings day_forms.

(** Equality of dates is decidable. *)
#[global] Instance date_eq_dec : EqDecision Dates.date.
Proof. solve_decision. Defined.

(** Normalisation is idempotent on [s] and an explicit format reads it as
    2 April 2025. *)
Definition variant_ok (s : text) : bool :=
  text_eqb (Dates.normalize (Dates.normalize s)) (Dates.normalize s)
  && bool_decide (Dates.try_formats (Dates.normalize s) Dates.formats
                  = Some (Dates.mkdate 2025 4 2)).

(** Normalisation leaves [s] as it is and no explicit format reads it. *)
Definition shouted_ok (s : text) : bool :=
  text_eqb (Dates.normalize s) s
  && bool_decide (Dates.try_formats (Dates.normalize s) Dates.formats = None).

(** A page whose eligibility section has 431 characters, in sentences. *)
Definition long_eligibility_text : text :=
  txt "Overview. Eligibility Criteria: "
  ++ concat (repeat (txt "Applicants must be registered NGOs. ") 12).

(** A page whose eligibility section has 400 characters and no period. *)
Definition unbroken_eligibility_text : text :=
  txt "Eligibility: " ++ repeat 97%N 400.

(** The bounded segment of [long_eligibility_text]. *)
Definition long_segment : text :=
  Py.strip (concat (repeat (txt "Applicants must be registered NGOs. ") 12)).

(** A persisted record still marked "Organization Not Found". *)
Definition un_record : grant :=
  mkgrant (Some (txt "30-Jun-25")) (Some (txt "Call for proposals"))
          (Some (txt "https://un.org/grants")) (Some organization_not_found)
          (Some (txt "Support for local projects.")) VNone (Some (txt "active"))
          (Some (txt "See official guidelines")) (Some (txt "General")).

(** A candidate that reaches the gate (lines 662-670). *)
Definition ingest (st : Pipeline.state) (c : grant) : Pipeline.state :=
  snd (Pipeline.stage_dedup (Pipeline.set_cur (fun _ => c) st)).

(** A sequence of candidates, in order of arrival. *)
Definition ingest_all (st : Pipeline.state) (cs : list grant) : Pipeline.state :=
  fold_left ingest cs st.

(** Number of records of a collection under a given URL. *)
Fixpoint count_url (u : option text) (gs : list grant) : nat :=
  match gs with
  | [] => 0
  | g :: r => (if decide (applicationUrl g = u) then 1 else 0) + count_url u r
  end.

(** The URLs of a collection. *)
Definition urls (gs : list grant) : list (option text) := map applicationUrl gs.

(** The known-identity set holds the URLs of the collection. *)
Definition seeded (st : Pipeline.state) : Prop :=
  forall u, u ∈ Pipeline.existing_grant_urls st <-> u ∈ urls (Pipeline.grants st).

(** Two candidates discovered under the same application URL. *)
Definition first_candidate : grant :=
  mkgrant (Some (txt "30-Jun-25")) (Some (txt "Water grants"))
          (Some (txt "https://example.org/apply")) (Some (txt "Example"))
          (Some (txt "First listing.")) VNone (Some (txt "active"))
          (Some (txt "See official guidelines")) (Some (txt "General")).

Definition second_candidate : grant :=
  mkgrant (Some (txt "31-Jul-25")) (Some (txt "Water grants, second listing"))
          (Some (txt "https://example.org/apply")) (Some (txt "Example"))
          (Some (txt "Second listing.")) VNone (Some (txt "active"))
          (Some (txt "See official guidelines")) (Some (txt "General")).

(** The stored text, read back with the format it was written in, is a
    date after the cutoff. *)
Definition denotes_after_cutoff (s : text) : Prop :=
  exists d, Dates.strptime s "%d-%b-%y" = Some d
            /\ Dates.date_ltb Pipeline.deadline_cutoff d = true.

(** The record has a deadline, and it denotes a date after the cutoff. *)
Definition deadline_after_cutoff (g : grant) : Prop :=
  exists s, deadline g = Some s /\ denotes_after_cutoff s.

(** The body of the loop from the detail page on (lines 496-670). *)
Definition enrichment_tail (w : Pipeline.world) (a : article) : Pipeline.stage :=
  Pipeline.then_ (Pipeline.stage_detail w a)
    (Pipeline.then_ (Pipeline.stage_listing_deadline w a)
       (Pipeline.then_ Pipeline.stage_checks
          (Pipeline.then_ Pipeline.stage_finalize Pipeline.stage_dedup))).

(** The deadline texts of a candidate: the one matched in the detail page
    and the one of the listing. *)
Definition deadline_text_of (w : Pipeline.world) (a : article) (st : Pipeline.state)
    (s : text) : Prop :=
  (exists url c,
      applicationUrl (Pipeline.cur st) = Some url
      /\ Pipeline.fetch_detail w url a = Return (Some c)
      /\ Pipeline.detail_deadline_text (Pipeline.c_text c) = Some s)
  \/ Pipeline.listing_deadline_text a = Return (Some s).

(** A deadline that came from a text of the candidate parsed to a date
    after the cutoff, or no deadline yet. *)
Definition sourced (w : Pipeline.world) (a : article) (st0 st : Pipeline.state) : Prop :=
  deadline (Pipeline.cur st) = None
  \/ exists s d,
       deadline_text_of w a st0 s
       /\ Dates.parse_date (Pipeline.date_fallbacks w) s = Some d
       /\ Dates.date_ltb Pipeline.deadline_cutoff d = true
       /\ deadline (Pipeline.cur st) = Some (Dates.strftime_dby d).

(** A candidate whose detail page says "Deadline: <dl>". *)
Definition page_with_deadline (dl : string) : Pipeline.world :=
  {| Pipeline.date_fallbacks := Dates.no_fallbacks;
     Pipeline.netloc := fun _ => None;
     Pipeline.fetch_detail := fun _ _ =>
       Return (Some {| Pipeline.c_text :=
                         txt ("Call for proposals. Deadline: " ++ dl ++ ". Apply now.");
                       Pipeline.c_external_url := None |});
     Pipeline.fetch_page := fun _ => Pipeline.PageArticles [] |}.

(** A listing with title and link, and no deadline of its own. *)
Definition plain_article : article :=
  {| a_title_tag := true; a_link_href := true; a_org_tag := None;
     a_deadline_tag := None |}.

(** A run with an empty store, at a candidate that has a title and a URL. *)
Definition titled_candidate : Pipeline.state :=
  Pipeline.set_cur
    (fun _ => mkgrant None (Some (txt "Water grants"))
                      (Some (txt "https://www2.fundsforngos.org/water"))
                      (Some (txt "Example")) None VNone (Some (txt "active"))
                      (Some (txt "See official guidelines")) (Some (txt "General")))
    (Pipeline.initial_state []).

(** ** Notions used in the further properties *)

(** The repetition loop of the matcher, on its own: [mtr] matches the
    repeated expression once, [k] is the rest of the pattern. *)
Section RepLoop.

Variables (greedy : bool) (lo : nat) (hi : option nat).
Variable mtr : Re.cursor -> Re.caps -> Re.K -> option (Re.cursor * Re.caps).
Variable k : Re.K.

Fixpoint rep_loop (fuel count : nat) (cur : Re.cursor) (cs : Re.caps) {struct fuel}
  : option (Re.cursor * Re.caps) :=
  match fuel with
  | O => None
  | S fuel' =>
      if greedy then
        match
          (if Re.below hi count
           then mtr cur cs
                  (fun cur' cs' =>
                     if (count <? lo)%nat || (Re.c_pos cur <? Re.c_pos cur')%nat
                     then rep_loop fuel' (S count) cur' cs' else None)
           else None)
        with
        | Some res => Some res
        | None => if (lo <=? count)%nat then k cur cs else None
        end
      else
        match (if (lo <=? count)%nat then k cur cs else None) with
        | Some res => Some res
        | None =>
            if Re.below hi count
            then mtr cur cs
                   (fun cur' cs' =>
                      if (count <? lo)%nat || (Re.c_pos cur <? Re.c_pos cur')%nat
                      then rep_loop fuel' (S count) cur' cs' else None)
            else None
        end
  end.

End RepLoop.

(** Every maximal run of whitespace replaced by one space. *)
Fixpoint squeeze (in_run : bool) (s : text) : text :=
  match s with
  | [] => []
  | c :: r =>
      if Py.is_space c
      then (if in_run then squeeze true r else 32 :: squeeze true r)
      else c :: squeeze false r
  end.

(** The pattern [\s+], compiled. *)
Definition ws_pat : Re.pattern :=
  {| Re.p_re := Re.Rep true 1 None (Re.CSet false [Re.CSpace]);
     Re.p_groups := 0; Re.p_flags := Re.no_flags |}.

(** The number of whitespace characters a text starts with. *)
Fixpoint run_len (s : text) : nat :=
  match s with
  | c :: r => if Py.is_space c then S (run_len r) else O
  | [] => O
  end.

(** The characters that [clean_text] replaces (lines 327-333). *)
Definition typographic : text := [8217; 8216; 8220; 8221; 8211; 8212; 160].

(** Whitespace occurs only as U+0020, one at a time. *)
Fixpoint single_spaced (after_space : bool) (s : text) : bool :=
  match s with
  | [] => true
  | c :: r =>
      if Py.is_space c then negb after_space && (c =? 32) && single_spaced true r
      else single_spaced false r
  end.

Definition opt_space (o : option cp) : bool :=
  match o with Some c => Py.is_space c | None => false end.

(** A text in the form [clean_text] produces: none of the replaced
    characters, whitespace only as single spaces between other characters. *)
Definition tidy (s : text) : bool :=
  forallb (fun c => negb (Py.mem_cp typographic c)) s
  && single_spaced false s
  && negb (opt_space (head s)) && negb (opt_space (last s)).

(** The cursor just after the whitespace that [rest] starts with. *)
Fixpoint after_run (prev : option cp) (rest : text) (pos : nat) : Re.cursor :=
  match rest with
  | x :: r =>
      if Py.is_space x then after_run (Some x) r (S pos)
      else {| Re.c_prev := prev; Re.c_rest := rest; Re.c_pos := pos |}
  | [] => {| Re.c_prev := prev; Re.c_rest := []; Re.c_pos := pos |}
  end.

(** What the seven replacements of lines 327-333 make of one character. *)
Definition plain_of (c : cp) : cp :=
  if c =? 8217 then 39 else if c =? 8216 then 39
  else if c =? 8220 then 34 else if c =? 8221 then 34
  else if c =? 8211 then 45 else if c =? 8212 then 45
  else if c =? 160 then 32 else c.

(** The year that the directive [%y] reads from the last two digits of
    [y]: 69-99 are 1969-1999, 00-68 are 2000-2068. *)
Definition read_back_year (y : Z) : Z :=
  let yy := (y mod 100)%Z in
  if (yy <=? 68)%Z then (2000 + yy)%Z else (1900 + yy)%Z.

(** The date with the same day and month in the year read back. *)
Definition read_back (d : Dates.date) : Dates.date :=
  Dates.mkdate (read_back_year (Dates.year d)) (Dates.month d) (Dates.day d).

(** [strptime] once the format has been turned into a pattern. *)
Definition strptime_with (p : Re.pattern) (keys : list cp) (s : text)
  : option Dates.date :=
  match Re.match_ p s with
  | None => None
  | Some m =>
      if negb (Re.m_end m =? length s)%nat then None
      else
        match Dates.set_fields keys (Re.groups p s m) (1900, 1, 1)%Z with
        | Some (y, mo, d) =>
            let dt := Dates.mkdate y mo d in
            if Dates.valid_date dt then Some dt else None
        | None => None
        end
  end.

(** The pattern and directives of a format. *)
Definition compile_format (fmt : string) : option (Re.pattern * list cp) :=
  match Dates.format_pattern (txt fmt) false with
  | Some (src, keys) =>
      match Re.compile src Re.IGNORECASE with
      | Some p => Some (p, keys)
      | None => None
      end
  | None => None
  end.

Definition dby_compiled : option (Re.pattern * list cp) :=
  Eval vm_compute in compile_format "%d-%b-%y".

(** The integers [lo], ..., [lo + n - 1]. *)
Definition zrange (lo : Z) (n : nat) : list Z :=
  map (fun i => (lo + Z.of_nat i)%Z) (seq 0 n).

(** Every day number 1-31 of every month of the years 1969-2068. *)
Definition window_dates : list Dates.date :=
  flat_map (fun y =>
    flat_map (fun m => map (fun d => Dates.mkdate y m d) (zrange 1 31)) (zrange 1 12))
    (zrange 1969 100).

(** A calendar date is read back from its stored form as itself. *)
Definition reads_back (d : Dates.date) : bool :=
  negb (Dates.valid_date d)
  || match dby_compiled with
     | Some (p, keys) =>
         bool_decide (strptime_with p keys (Dates.strftime_dby d) = Some d)
     | None => false
     end.

(** A candidate whose parsed deadline is 30 June 2070. *)
Definition candidate_2070 : Pipeline.state :=
  Pipeline.set_cur
    (fun _ => mkgrant (Some (Dates.strftime_dby (Dates.mkdate 2070 6 30)))
                      (Some (txt "Water grants"))
                      (Some (txt "https://www2.fundsforngos.org/water"))
                      (Some (txt "Example")) None VNone (Some (txt "active"))
                      (Some (txt "See official guidelines")) (Some (txt "General")))
    (Pipeline.initial_state []).

(** [x] is the first element of [l] that has the largest value. *)
Definition first_largest (x : Amount.candidate) (l : list Amount.candidate) : Prop :=
  exists l1 l2,
    l = l1 ++ x :: l2
    /\ Forall (fun y => (cand_value y < cand_value x)%Z) l1
    /\ Forall (fun y => (cand_value y <= cand_value x)%Z) l2.

(** The currency of a pooled candidate. *)
Definition cand_currency (c : Amount.candidate) : option text := snd (fst c).

(** A finite float that is not negative. *)
Definition sign_ok (f : spec_float) : Prop :=
  match f with
  | S754_finite s _ _ => s = false
  | _ => True
  end.

(** A non-empty run of ASCII digits. *)
Definition is_number (s : text) : bool := Py.isdigit s.





(** *** What a successful match says about the text

    [sem fl r cur cs cur' cs'] reads: the expression [r] matches from the
    cursor [cur] to the cursor [cur'] and turns the captures [cs] into
    [cs'].  It is the declarative counterpart of [Re.mt]. *)

(** One character that satisfies [p] is consumed. *)
Definition consumes_one (p : cp -> bool)
    (cur : Re.cursor) (cs : Re.caps) (cur' : Re.cursor) (cs' : Re.caps) : Prop :=
  exists x rest,
    Re.c_rest cur = x :: rest /\ p x = true
    /\ cur' = Re.advance x rest cur /\ cs' = cs.

(** [n] matches in a row. *)
Fixpoint iter_sem (R : Re.cursor -> Re.caps -> Re.cursor -> Re.caps -> Prop) (n : nat)
    (cur : Re.cursor) (cs : Re.caps) (cur' : Re.cursor) (cs' : Re.caps) : Prop :=
  match n with
  | O => cur' = cur /\ cs' = cs
  | S n' => exists mid csm, R cur cs mid csm /\ iter_sem R n' mid csm cur' cs'
  end.

Definition within (hi : option nat) (n : nat) : Prop :=
  match hi with Some h => (n <= h)%nat | None => True end.

Fixpoint sem (fl : Re.flags) (r : Re.regex)
    (cur : Re.cursor) (cs : Re.caps) (cur' : Re.cursor) (cs' : Re.caps) : Prop :=
  match r with
  | Re.Eps => cur' = cur /\ cs' = cs
  | Re.Chr c => consumes_one (Re.chr_match fl c) cur cs cur' cs'
  | Re.Any => consumes_one (fun x => negb (x =? 10)) cur cs cur' cs'
  | Re.CSet neg items =>
      consumes_one (fun x => xorb neg (Re.set_match fl items x)) cur cs cur' cs'
  | Re.Cat r1 r2 =>
      exists mid csm, sem fl r1 cur cs mid csm /\ sem fl r2 mid csm cur' cs'
  | Re.Alt r1 r2 => sem fl r1 cur cs cur' cs' \/ sem fl r2 cur cs cur' cs'
  | Re.Rep _ lo hi r' =>
      exists n, (lo <= n)%nat /\ within hi n /\ iter_sem (sem fl r') n cur cs cur' cs'
  | Re.Grp i r' =>
      exists cs'', sem fl r' cur cs cur' cs''
                   /\ cs' = (i, (Re.c_pos cur, Re.c_pos cur')) :: cs''
  | Re.Look r' => exists cur'', sem fl r' cur cs cur'' cs' /\ cur' = cur
  | Re.Bol => Re.at_bol fl cur = true /\ cur' = cur /\ cs' = cs
  | Re.Eol => Re.at_eol fl cur = true /\ cur' = cur /\ cs' = cs
  | Re.WordB => Re.at_word_boundary cur = true /\ cur' = cur /\ cs' = cs
  end.

(** The cursor stands in the text [t], after [c_pos] characters. *)
Definition stands_in (t : text) (cur : Re.cursor) : Prop :=
  exists pre, t = pre ++ Re.c_rest cur /\ Re.c_pos cur = length pre.

(** Every match of [r] consumes a character that satisfies [p]; [chr_ok]
    and [set_ok] tell which single-character expressions do. *)
Fixpoint requires (chr_ok : cp -> bool) (set_ok : bool -> list Re.cset_item -> bool)
    (r : Re.regex) : bool :=
  match r with
  | Re.Chr c => chr_ok c
  | Re.CSet neg items => set_ok neg items
  | Re.Cat r1 r2 => requires chr_ok set_ok r1 || requires chr_ok set_ok r2
  | Re.Alt r1 r2 => requires chr_ok set_ok r1 && requires chr_ok set_ok r2
  | Re.Rep _ lo _ r' => (1 <=? lo)%nat && requires chr_ok set_ok r'
  | Re.Grp _ r' => requires chr_ok set_ok r'
  | _ => false
  end.



(** The pattern of [clean_and_convert] (line 83), compiled. *)
Definition sym_pat : Re.pattern :=
  Eval vm_compute in re_const Amount.symbols_or_comma_src Re.no_flags.


Definition ascii_digits : text := [48; 49; 50; 51; 52; 53; 54; 55; 56; 57].

(** All strings of [n] ASCII digits. *)
Fixpoint digit_strings (n : nat) : list text :=
  match n with
  | O => [[]]
  | S k => flat_map (fun d => map (cons d) (digit_strings k)) ascii_digits
  end.


(** The number read from a string of digits. *)
Definition number_of (s : text) : Z := Z.of_N (Py.N_of_digits s).



(** A [re.compile] that hands out the pattern of [clean_and_convert]
    ready made. *)
Definition fast_compile : Amount.compiler := fun _ _ => Some sym_pat.

(** The currency-symbol pattern (lines 135-138), compiled. *)
Definition symbol_pat : Re.pattern :=
  Eval vm_compute in re_const Amount.symbol_single_src Re.IGNORECASE.

(** An ASCII letter or a hyphen. *)
Definition letter_or_hyphen (c : cp) : bool := Py.is_alpha c || (c =? 45).

(** Every match of the pattern contains a letter or a hyphen. *)
Definition needs_letter_or_hyphen (p : Re.pattern) : bool :=
  requires letter_or_hyphen (fun _ _ => false) (Re.p_re p).

(** What the single-amount branch makes of a pool. *)
Definition pick (pool : result (list Amount.candidate)) : result (pyval * option text) :=
  match pool with
  | Raise e => Raise e
  | Return pm =>
      match Amount.sort_desc pm with
      | x :: _ => Return (VInt (cand_value x), cand_currency x)
      | [] => Return (VNone, None)
      end
  end.

(** The pool of "$" followed by the four digits [ds] holds one candidate:
    the number of the first three digits, in dollars. *)
Definition four_ok (ds : text) : bool :=
  let t := 36 :: ds in
  match Amount.pool_matches fast_compile Amount.Symbol symbol_pat t
          (Re.finditer symbol_pat t) with
  | Return [(v, Some c, _)] => (v =? number_of (take 3 ds))%Z && text_eqb c [36]
  | _ => false
  end.

(** Four digits, zero-padded. *)
Definition four_digits (z : Z) : text :=
  [(48 + Z.to_N (z / 1000 mod 10))%N; (48 + Z.to_N (z / 100 mod 10))%N;
   (48 + Z.to_N (z / 10 mod 10))%N; (48 + Z.to_N (z mod 10))%N].

(** The text "aa/bb/" followed by the year as written. *)
Definition slash_date (a b : Z) (year_text : text) : text :=
  (Dates.two_digits a ++ [47] ++ Dates.two_digits b ++ [47] ++ year_text)%list.

(** The day-first reading of a/b/y where it is a calendar date, otherwise
    the month-first reading where that is one. *)
Definition day_first (a b y : Z) : option Dates.date :=
  if Dates.valid_date (Dates.mkdate y b a) then Some (Dates.mkdate y b a)
  else if Dates.valid_date (Dates.mkdate y a b) then Some (Dates.mkdate y a b)
  else None.

(** The formats of [parse_date] (lines 15-19), compiled. *)
Definition compiled_formats : list (option (Re.pattern * list cp)) :=
  Eval vm_compute in map compile_format Dates.formats.

(** The loop of lines 27-31 over compiled formats. *)
Fixpoint try_compiled (cleaned : text) (l : list (option (Re.pattern * list cp)))
  : option Dates.date :=
  match l with
  | [] => None
  | Some (p, keys) :: r =>
      match strptime_with p keys cleaned with
      | Some d => Some d
      | None => try_compiled cleaned r
      end
  | None :: r => try_compiled cleaned r
  end.

(** The formats read a/b/y, written with four and with two year digits, as
    [day_first] says. *)
Definition slash_ok (y a b : Z) : bool :=
  bool_decide (try_compiled (slash_date a b (four_digits y)) compiled_formats
               = day_first a b y)
  && bool_decide (try_compiled (slash_date a b (Dates.two_digits (y mod 100)))
                    compiled_formats
                  = day_first a b y).

(** A digit or a slash. *)
Definition date_char (c : cp) : bool := Py.is_digit c || (c =? 47).

(** A class item that matches neither a digit nor a slash. *)
Definition other_item (it : Re.cset_item) : bool :=
  match it with
  | Re.CChar c => negb (date_char c)
  | Re.CRange lo _ => 57 <? lo
  | Re.CSpace => true
  | _ => false
  end.

Definition other_set (neg : bool) (items : list Re.cset_item) : bool :=
  negb neg && forallb other_item items.

(** Every match of the pattern contains a character that is neither a digit
    nor a slash. *)
Definition needs_other (p : Re.pattern) : bool :=
  requires (fun c => negb (date_char c)) other_set (Re.p_re p).

(** * Properties *)

(** Literals and matching are evaluated by [vm_compute] only. *)
Arguments txt : simpl never.
Arguments re_const : simpl never.
Arguments Re.compile : simpl never.
Arguments Re.search : simpl never.
Arguments Re.finditer : simpl never.
Arguments Re.sub : simpl never.
Arguments Re.groups : simpl never.
Arguments Organization.post_process : simpl never.
Arguments Organization.clean_name : simpl never.
Arguments Organization.extract_organization : simpl never.
Arguments Amount.extract_amount : simpl never.
Arguments Dates.parse_date : simpl never.
Arguments Dates.strptime : simpl never.
Arguments Dates.strftime_dby : simpl never.
Arguments Eligibility.eligibility_summary : simpl never.

Lemma text_eqb_eq (a b : text) : text_eqb a b = true <-> a = b.
Proof.
  revert b. induction a as [|x a IH]; intros [|y b]; cbn; split; try easy.
  - intros H. apply andb_prop in H as [H1 H2].
    apply N.eqb_eq in H1. apply IH in H2. congruence.
  - intros [= -> ->]. rewrite N.eqb_refl. cbn. apply IH. reflexivity.
Qed.

Lemma text_eqb_refl (a : text) : text_eqb a a = true.
Proof. apply text_eqb_eq. reflexivity. Qed.

(** ** The patterns of the script compile *)

Lemma compile_symbols_or_comma :
  Re.compile (txt Amount.symbols_or_comma_src) Re.no_flags
  = Some (re_const Amount.symbols_or_comma_src Re.no_flags).
Proof. vm_compute. reflexivity. Qed.

Lemma compile_mangled_range :
  Re.compile (txt Amount.mangled_range_src) Re.no_flags
  = Some (re_const Amount.mangled_range_src Re.no_flags).
Proof. vm_compute. reflexivity. Qed.

Lemma compile_standard_range :
  Re.compile (txt Amount.standard_range_src) Re.IGNORECASE
  = Some (re_const Amount.standard_range_src Re.IGNORECASE).
Proof. vm_compute. reflexivity. Qed.

Lemma compile_upto :
  Re.compile (txt Amount.upto_src) Re.IGNORECASE
  = Some (re_const Amount.upto_src Re.IGNORECASE).
Proof. vm_compute. reflexivity. Qed.

Lemma compile_strict_single :
  Re.compile (txt Amount.strict_single_src) Re.IGNORECASE
  = Some (re_const Amount.strict_single_src Re.IGNORECASE).
Proof. vm_compute. reflexivity. Qed.

Lemma compile_code_single :
  Re.compile (txt Amount.code_single_src) Re.IGNORECASE
  = Some (re_const Amount.code_single_src Re.IGNORECASE).
Proof. vm_compute. reflexivity. Qed.

Lemma compile_symbol_single :
  Re.compile (txt Amount.symbol_single_src) Re.IGNORECASE
  = Some (re_const Amount.symbol_single_src Re.IGNORECASE).
Proof. vm_compute. reflexivity. Qed.

(** Group counts of the compiled patterns. *)
Lemma groups_mangled_range :
  Re.p_groups (re_const Amount.mangled_range_src Re.no_flags) = 2%nat.
Proof. vm_compute. reflexivity. Qed.

Lemma groups_standard_range :
  Re.p_groups (re_const Amount.standard_range_src Re.IGNORECASE) = 6%nat.
Proof. vm_compute. reflexivity. Qed.

Lemma groups_upto :
  Re.p_groups (re_const Amount.upto_src Re.IGNORECASE) = 4%nat.
Proof. vm_compute. reflexivity. Qed.

Lemma groups_strict_single :
  Re.p_groups (re_const Amount.strict_single_src Re.IGNORECASE) = 4%nat.
Proof. vm_compute. reflexivity. Qed.

Lemma groups_code_single :
  Re.p_groups (re_const Amount.code_single_src Re.IGNORECASE) = 3%nat.
Proof. vm_compute. reflexivity. Qed.

Lemma groups_symbol_single :
  Re.p_groups (re_const Amount.symbol_single_src Re.IGNORECASE) = 3%nat.
Proof. vm_compute. reflexivity. Qed.

(** ** extract_amount on the range example *)

(** C1.  On the text "Grants of $10,000 - $50,000 are available" the
    mangled-range matcher finds nothing, the standard-range matcher matches
    "$10,000 - $50,000" with its six groups, and unpacking them into seven
    names raises [ValueError]: [extract_amount] does not return "$50000". *)
Theorem extract_amount_range_example_raises :
  let t := txt "Grants of $10,000 - $50,000 are available" in
  let p := re_const Amount.standard_range_src Re.IGNORECASE in
  Re.search (re_const Amount.mangled_range_src Re.no_flags) t = None
  /\ option_map (Re.groups p t) (Re.search p t)
     = Some [Some (txt "$"); Some (txt "10,000"); None;
             Some (txt "$"); Some (txt "50,000"); None]
  /\ Amount.extract_amount t = Raise ValueError
  /\ Amount.extract_amount t <> Return (VStr (txt "$50000"), None).
Proof.
  cbv zeta. repeat split; try (vm_compute; reflexivity).
  assert (E : Amount.extract_amount
                (txt "Grants of $10,000 - $50,000 are available") = Raise ValueError)
    by (vm_compute; reflexivity).
  rewrite E. discriminate.
Qed.

(** ** extract_amount: the single-amount branch returns a bare integer *)

(** C6.  On "grant of €5,000" the single-amount branch answers the integer
    5000 with the currency as a separate second component; the pipeline
    keeps only the first component, so the record's amount is the bare
    number 5000, which the save pass renders as "$5,000". *)
Theorem single_amount_is_bare_number :
  let t := txt "grant of €5,000" in
  Amount.extract_amount t = Return (VInt 5000, Some (txt "€"))
  /\ (forall st,
        Pipeline.full_description_text st = t ->
        fst (Pipeline.stage_finalize st) = Pipeline.Next
        /\ amount (Pipeline.cur (snd (Pipeline.stage_finalize st))) = VInt 5000)
  /\ Pipeline.clean_amount_value (VInt 5000) = VStr (txt "$5,000")
  /\ Amount.extract_amount (txt "grant of $0") = Return (VInt 0, Some (txt "$"))
  /\ amount (Pipeline.cleanup (Pipeline.with_amount (VInt 0) default_grant)) = VInt 0.
Proof.
  cbv zeta.
  assert (E : Amount.extract_amount (txt "grant of €5,000")
              = Return (VInt 5000, Some (txt "€"))) by (vm_compute; reflexivity).
  split; [exact E|]. split.
  - intros st Ht. unfold Pipeline.stage_finalize. rewrite Ht, E. cbn. split; reflexivity.
  - repeat split; vm_compute; reflexivity.
Qed.

Lemma single_amount_is_bare_number_witness :
  let st := Pipeline.mkstate default_grant (txt "grant of €5,000") [] None None [] ∅ ∅
                             false false in
  fst (Pipeline.stage_finalize st) = Pipeline.Next
  /\ amount (Pipeline.cur (snd (Pipeline.stage_finalize st))) = VInt 5000.
Proof.
  cbv zeta.
  apply (proj1 (proj2 single_amount_is_bare_number)). reflexivity.
Defined.

(** ** extract_amount: which exceptions escape *)

Lemma to_int_raises f e :
  Flt.to_int f = Raise e -> e = OverflowError \/ e = ValueError.
Proof.
  destruct f as [s|s| |s m x]; cbn; intros H; try discriminate;
    injection H as <-; auto.
Qed.

Lemma clean_and_convert_raises num mult e :
  Amount.clean_and_convert Re.compile num mult = Raise e -> e = OverflowError.
Proof.
  unfold Amount.clean_and_convert, Amount.compile_or_raise.
  destruct num as [num|]; [|discriminate].
  rewrite compile_symbols_or_comma. cbn [bind].
  destruct (Flt.py_float _) as [value|]; [|discriminate].
  destruct (Flt.to_int _) as [n|e'] eqn:E; [discriminate|].
  destruct (to_int_raises _ _ E) as [-> | ->]; [|discriminate].
  intros [= <-]. reflexivity.
Qed.

Lemma mangled_stage_raises t e :
  Amount.mangled_stage Re.compile (re_const Amount.mangled_range_src Re.no_flags) t
  = Raise e -> e = OverflowError.
Proof.
  unfold Amount.mangled_stage, Re.groups.
  destruct (Re.search _ t) as [m|]; [|discriminate].
  rewrite groups_mangled_range. cbn [seq map Amount.unpack2 bind].
  destruct (Amount.clean_and_convert _ (Re.group t m 1) _) as [v1|e1] eqn:E1; cbn [bind].
  - destruct (Amount.clean_and_convert _ (Re.group t m 2) _) as [v2|e2] eqn:E2; cbn [bind].
    + destruct v1, v2; discriminate.
    + intros [= <-]. eapply clean_and_convert_raises, E2.
  - intros [= <-]. eapply clean_and_convert_raises, E1.
Qed.

Lemma upto_stage_returns t :
  exists r, Amount.upto_stage Re.compile (re_const Amount.upto_src Re.IGNORECASE) t
            = Return r.
Proof.
  unfold Amount.upto_stage, Re.groups.
  destruct (Re.search _ t) as [m|]; [|eauto].
  rewrite groups_upto. cbn [seq map Amount.unpack4 bind].
  destruct (catch_all _ _); eauto.
Qed.

Lemma read_groups_raises k gs e :
  Amount.read_groups k gs = Raise e -> e = ValueError.
Proof.
  destruct k; cbn;
    repeat (destruct gs as [|? gs]; cbn; try (intros [= <-]; reflexivity));
    discriminate.
Qed.

Lemma contribution_raises k p t m e :
  Amount.contribution Re.compile k p t m = Raise e -> e = OverflowError.
Proof.
  unfold Amount.contribution.
  destruct (negb _); [discriminate|].
  destruct (Amount.read_groups k _) as [[[c n] ms]|e'] eqn:E.
  - destruct (Amount.clean_and_convert _ n ms) as [v|e1] eqn:E1; cbn [bind].
    + destruct v; [destruct (Amount.is_year _ _ _)|]; discriminate.
    + intros [= <-]. eapply clean_and_convert_raises, E1.
  - rewrite (read_groups_raises _ _ _ E). discriminate.
Qed.

Lemma pool_matches_raises k p t ms e :
  Amount.pool_matches Re.compile k p t ms = Raise e -> e = OverflowError.
Proof.
  induction ms as [|m ms IH]; cbn [Amount.pool_matches]; [discriminate|].
  destruct (Amount.contribution _ k p t m) as [c|e1] eqn:E1; cbn [bind].
  - destruct (Amount.pool_matches _ k p t ms) as [cs|e2]; cbn [bind]; [discriminate|].
    intros [= <-]. apply IH. reflexivity.
  - intros [= <-]. eapply contribution_raises, E1.
Qed.

Lemma single_stage_raises s c sy t e :
  Amount.single_stage Re.compile s c sy t = Raise e -> e = OverflowError.
Proof.
  unfold Amount.single_stage, Amount.potential_matches, Amount.pool_pattern.
  destruct (Amount.pool_matches _ Amount.Strict s t _) as [a|e1] eqn:E1; cbn [bind];
    [|intros [= <-]; eapply pool_matches_raises, E1].
  destruct (Amount.pool_matches _ Amount.Code c t _) as [b|e2] eqn:E2; cbn [bind];
    [|intros [= <-]; eapply pool_matches_raises, E2].
  destruct (Amount.pool_matches _ Amount.Symbol sy t _) as [d|e3] eqn:E3; cbn [bind];
    [|intros [= <-]; eapply pool_matches_raises, E3].
  destruct (Amount.sort_desc _) as [|[[? ?] ?] ?]; discriminate.
Qed.

(** The function with the script's [re.compile], pattern by pattern. *)
Lemma extract_amount_unfold t :
  Amount.extract_amount t
  = Amount.or_else
      (Amount.mangled_stage Re.compile (re_const Amount.mangled_range_src Re.no_flags) t)
      (Amount.or_else
         (Amount.standard_stage Re.compile
            (re_const Amount.standard_range_src Re.IGNORECASE) t)
         (Amount.or_else
            (Amount.upto_stage Re.compile (re_const Amount.upto_src Re.IGNORECASE) t)
            (Amount.or_else
               (Amount.single_stage Re.compile
                  (re_const Amount.strict_single_src Re.IGNORECASE)
                  (re_const Amount.code_single_src Re.IGNORECASE)
                  (re_const Amount.symbol_single_src Re.IGNORECASE) t)
               (Return (VNone, None))))).
Proof.
  unfold Amount.extract_amount, Amount.extract_amount_with, Amount.compile_or_raise.
  rewrite compile_mangled_range, compile_standard_range, compile_upto,
    compile_strict_single, compile_code_single, compile_symbol_single.
  reflexivity.
Qed.

(** C3, as stated, fails: with a compilation error in the standard-range
    matcher the function answers (None, None) on "up to $500" although the
    up-to matcher, consulted on its own, finds "$500" there; with a
    compilation error in the up-to matcher the error escapes the function;
    and with the patterns as they are the function raises [ValueError] on
    the range example and [OverflowError] on an amount of 310 digits. *)
Lemma compile_error_stops_the_cascade :
  let t := txt "up to $500" in
  Amount.extract_amount t = Return (VStr (txt "$500"), None)
  /\ Amount.upto_stage Re.compile (re_const Amount.upto_src Re.IGNORECASE) t
     = Return (Some (VStr (txt "$500"), None))
  /\ Amount.extract_amount_with (failing_on Amount.standard_range_src) t
     = Return (VNone, None)
  /\ Amount.extract_amount_with (failing_on Amount.upto_src) t = Raise ReError
  /\ Amount.extract_amount (txt "Grants of $10,000 - $50,000 are available")
     = Raise ValueError
  /\ Amount.extract_amount huge_amount_text = Raise OverflowError.
Proof. cbv zeta. repeat split; vm_compute; reflexivity. Qed.

(** C3, amended.  A compilation error in the standard-range pattern makes
    [extract_amount] answer (None, None) for every text, before any matcher
    is consulted; a compilation error in the mangled-range pattern escapes.
    With the script's patterns, a text on which the standard-range pattern
    finds no match never makes the function raise anything but the
    [OverflowError] of an out-of-range magnitude; a candidate whose
    conversion yields no number contributes nothing; and when no matcher
    finds anything the answer is (None, None). *)
Theorem extract_amount_failure_modes :
  (forall compile t,
      compile (txt Amount.standard_range_src) Re.IGNORECASE = None ->
      (exists p, compile (txt Amount.mangled_range_src) Re.no_flags = Some p) ->
      Amount.extract_amount_with compile t = Return (VNone, None))
  /\ (forall compile t,
      compile (txt Amount.mangled_range_src) Re.no_flags = None ->
      Amount.extract_amount_with compile t = Raise ReError)
  /\ (forall t e,
      Re.search (re_const Amount.standard_range_src Re.IGNORECASE) t = None ->
      Amount.extract_amount t = Raise e -> e = OverflowError)
  /\ (forall compile k p t m currency num_str mult_str,
      Amount.read_groups k (Re.groups p t m) = Return (currency, num_str, mult_str) ->
      Amount.clean_and_convert compile num_str mult_str = Return None ->
      Amount.contribution compile k p t m = Return [])
  /\ (forall t,
      Re.search (re_const Amount.mangled_range_src Re.no_flags) t = None ->
      Re.search (re_const Amount.standard_range_src Re.IGNORECASE) t = None ->
      Re.search (re_const Amount.upto_src Re.IGNORECASE) t = None ->
      Re.finditer (re_const Amount.strict_single_src Re.IGNORECASE) t = [] ->
      Re.finditer (re_const Amount.code_single_src Re.IGNORECASE) t = [] ->
      Re.finditer (re_const Amount.symbol_single_src Re.IGNORECASE) t = [] ->
      Amount.extract_amount t = Return (VNone, None)).
Proof.
  repeat split.
  - intros compile t Hstd [p Hm].
    unfold Amount.extract_amount_with, Amount.compile_or_raise.
    rewrite Hm, Hstd. reflexivity.
  - intros compile t Hm.
    unfold Amount.extract_amount_with, Amount.compile_or_raise.
    rewrite Hm. reflexivity.
  - intros t e Hstd. rewrite extract_amount_unfold. unfold Amount.or_else.
    destruct (Amount.mangled_stage _ _ t) as [r1|e1] eqn:E1; cbn [bind];
      [|intros [= <-]; eapply mangled_stage_raises, E1].
    destruct r1 as [ans|]; [discriminate|].
    unfold Amount.standard_stage at 1. rewrite Hstd. cbn [bind].
    destruct (upto_stage_returns t) as [r3 ->]. cbn [bind].
    destruct r3 as [ans|]; [discriminate|].
    destruct (Amount.single_stage _ _ _ _ t) as [r4|e4] eqn:E4; cbn [bind];
      [|intros [= <-]; eapply single_stage_raises, E4].
    destruct r4; discriminate.
  - intros compile k p t m currency num_str mult_str Hg Hc.
    unfold Amount.contribution. destruct (negb _); [reflexivity|].
    rewrite Hg, Hc. reflexivity.
  - intros t H1 H2 H3 H4 H5 H6. rewrite extract_amount_unfold.
    unfold Amount.or_else, Amount.mangled_stage, Amount.standard_stage,
      Amount.upto_stage, Amount.single_stage, Amount.potential_matches,
      Amount.pool_pattern.
    rewrite H1, H2, H3, H4, H5, H6. reflexivity.
Qed.

Lemma extract_amount_failure_modes_witness :
  Amount.extract_amount_with (failing_on Amount.standard_range_src)
    (txt "Grants of $10,000 - $50,000 are available") = Return (VNone, None)
  /\ (forall e, Amount.extract_amount (txt "up to $500") = Raise e -> e = OverflowError)
  /\ Amount.extract_amount (txt "Deadline 2024") = Return (VNone, None).
Proof.
  split; [|split].
  - apply (proj1 extract_amount_failure_modes).
    + vm_compute. reflexivity.
    + eexists. vm_compute. reflexivity.
  - intros e. apply (proj1 (proj2 (proj2 extract_amount_failure_modes))).
    vm_compute. reflexivity.
  - apply (proj2 (proj2 (proj2 (proj2 extract_amount_failure_modes))));
      vm_compute; reflexivity.
Defined.

(** ** extract_amount: the year guard of the single-amount pool *)

Lemma insert_desc_In x l y :
  In y (Amount.insert_desc x l) <-> y = x \/ In y l.
Proof.
  induction l as [|z l IH]; cbn.
  - intuition.
  - destruct (_ >? _)%Z; cbn; rewrite ?IH; intuition.
Qed.

Lemma sort_desc_In l y : In y (Amount.sort_desc l) <-> In y l.
Proof.
  induction l as [|x l IH]; cbn; [tauto|].
  rewrite insert_desc_In, IH. intuition.
Qed.

Lemma insert_desc_head x l :
  head_is_max l -> head_is_max (Amount.insert_desc x l).
Proof.
  destruct l as [|z l]; cbn; [constructor|].
  intros H. fold (cand_value z) (cand_value x).
  destruct (cand_value z >? cand_value x)%Z eqn:E; cbn.
  - apply List.Forall_forall. intros y Hy. apply insert_desc_In in Hy as [-> | Hy].
    + lia.
    + rewrite List.Forall_forall in H. auto.
  - constructor; [lia|]. eapply List.Forall_impl; [|exact H]. cbn. intros; lia.
Qed.

Lemma sort_desc_head l : head_is_max (Amount.sort_desc l).
Proof.
  induction l as [|x l IH]; cbn; [exact I|]. apply insert_desc_head, IH.
Qed.

(** C7.  In the single-amount pool a match whose value lies in [1990, 2050]
    with no multiplier and no decimal point adds nothing to the pool, and
    whatever a match adds is not of that kind; the branch then answers the
    first largest value of the pool.  "Deadline 2024" gives (None, None), and
    so does "grant of $2,024", whose only candidates are such years. *)
Theorem year_candidates_are_discarded :
  (forall compile k p t m currency num_str v,
      length (Re.groups p t m) = Amount.expected_groups k ->
      Amount.read_groups k (Re.groups p t m) = Return (currency, Some num_str, None) ->
      Amount.clean_and_convert compile (Some num_str) None = Return (Some v) ->
      (1990 <= v <= 2050)%Z ->
      Py.contains [46] num_str = false ->
      Amount.contribution compile k p t m = Return [])
  /\ (forall compile k p t m c cs,
      Amount.contribution compile k p t m = Return (c :: cs) ->
      cs = []
      /\ exists currency num_str mult_str,
           Amount.read_groups k (Re.groups p t m) = Return (currency, num_str, mult_str)
           /\ Amount.clean_and_convert compile num_str mult_str
              = Return (Some (cand_value c))
           /\ ~ ((1990 <= cand_value c <= 2050)%Z /\ mult_str = None
                 /\ Py.contains [46] (default [] num_str) = false))
  /\ (forall compile s c sy t pm v cur,
      Amount.potential_matches compile s c sy t = Return pm ->
      Amount.single_stage compile s c sy t = Return (Some (VInt v, cur)) ->
      (exists matched, In (v, cur, matched) pm)
      /\ Forall (fun x => (cand_value x <= v)%Z) pm)
  /\ Amount.extract_amount (txt "Deadline 2024") = Return (VNone, None)
  /\ Amount.extract_amount (txt "grant of $2,024") = Return (VNone, None).
Proof.
  split; [|split; [|split; [|split]]].
  - intros compile k p t m currency num_str v Hlen Hg Hc Hv Hdot.
    unfold Amount.contribution. rewrite Hlen, Nat.eqb_refl. cbn [negb].
    rewrite Hg, Hc. cbn [bind]. unfold Amount.is_year.
    change (default [] (Some num_str)) with num_str.
    rewrite Hdot. destruct Hv as [H1 H2].
    apply Z.leb_le in H1, H2. rewrite H1, H2. reflexivity.
  - intros compile k p t m c cs. unfold Amount.contribution.
    destruct (negb _); [discriminate|].
    destruct (Amount.read_groups k _) as [[[cur n] ms]|e] eqn:Eg;
      [|destruct e; discriminate].
    destruct (Amount.clean_and_convert _ n ms) as [[v|]|e] eqn:Ec; cbn [bind];
      try discriminate.
    destruct (Amount.is_year v ms (default [] n)) eqn:Ey; [discriminate|].
    intros H. inversion H; subst c cs; clear H. split; [reflexivity|].
    exists cur, n, ms. cbn [cand_value fst]. split; [reflexivity|]. split; [exact Ec|].
    intros ([H1 H2] & -> & Hdot). unfold Amount.is_year in Ey.
    apply Z.leb_le in H1, H2. rewrite H1, H2, Hdot in Ey. discriminate.
  - intros compile s c sy t pm v cur Hpm. unfold Amount.single_stage.
    rewrite Hpm. cbn [bind].
    pose proof (sort_desc_head pm) as Hmax.
    destruct (Amount.sort_desc pm) as [|[[v' cur'] matched] rest] eqn:Es; [discriminate|].
    intros [= -> ->]. split.
    + exists matched. apply sort_desc_In. rewrite Es. left. reflexivity.
    + apply List.Forall_forall. intros x Hx. apply sort_desc_In in Hx.
      rewrite Es in Hx. destruct Hx as [<- | Hx]; [cbn; lia|].
      cbn in Hmax. rewrite List.Forall_forall in Hmax. apply (Hmax x Hx).
  - vm_compute. reflexivity.
  - vm_compute. reflexivity.
Qed.

Lemma year_candidates_are_discarded_witness :
  let p := re_const Amount.symbol_single_src Re.IGNORECASE in
  let t := txt "$2,024" in
  match Re.search p t with
  | Some m => Amount.contribution Re.compile Amount.Symbol p t m = Return []
  | None => False
  end.
Proof.
  cbv zeta.
  destruct (Re.search _ _) as [m|] eqn:E; [|vm_compute in E; discriminate].
  vm_compute in E. injection E as <-.
  apply (proj1 year_candidates_are_discarded Re.compile Amount.Symbol _ _ _
           (Some (txt "$")) (txt "2,024") 2024%Z).
  - vm_compute. reflexivity.
  - vm_compute. reflexivity.
  - vm_compute. reflexivity.
  - lia.
  - vm_compute. reflexivity.
Defined.

(** ** parse_date *)

(** When one of the explicit formats parses the normalised text, the
    locale and dateutil fallbacks are not consulted. *)
Lemma parse_date_by_format fb s d :
  Dates.try_formats (Dates.normalize s) Dates.formats = Some d ->
  Dates.parse_date fb s = Some d.
Proof. unfold Dates.parse_date. intros ->. reflexivity. Qed.

Lemma In_by_compute (s : text) (l : list text) :
  existsb (text_eqb s) l = true -> In s l.
Proof.
  rewrite existsb_exists. intros (x & Hx & E).
  apply text_eqb_eq in E. subst x. exact Hx.
Qed.

Lemma variants_ok : forallb variant_ok april_2_2025_variants = true.
Proof. vm_compute. reflexivity. Qed.

Lemma shouted_variants_ok :
  forallb shouted_ok (spellings shouted_day_forms) = true.
Proof. vm_compute. reflexivity. Qed.

(** C8.  [parse_date] maps "02-Apr-25" and "2nd April 2025" to the same
    date, 2 April 2025, whatever the fallback parsers are; normalisation
    strips the ordinal suffix and collapses whitespace; on every spelling
    of that date with a lowercase ordinal suffix and the month in any
    letter case normalisation is idempotent and the parsed date is the
    same; and on the spellings whose suffix is in another letter case
    normalisation changes nothing (so it is idempotent there too) and the
    date is the one the fallback parsers give. *)
Theorem parse_date_variants_agree :
  (forall fb,
      Dates.parse_date fb (txt "02-Apr-25") = Some (Dates.mkdate 2025 4 2)
      /\ Dates.parse_date fb (txt "2nd April 2025") = Some (Dates.mkdate 2025 4 2))
  /\ Dates.normalize (txt "2nd April 2025") = txt "2 April 2025"
  /\ Dates.normalize (txt "  2nd   April
	 2025 ") = txt "2 April 2025"
  /\ In (txt "02-Apr-25") april_2_2025_variants
  /\ In (txt "2nd April 2025") april_2_2025_variants
  /\ length april_2_2025_variants = 560%nat
  /\ (forall s, In s april_2_2025_variants ->
        Dates.normalize (Dates.normalize s) = Dates.normalize s
        /\ forall fb, Dates.parse_date fb s = Some (Dates.mkdate 2025 4 2))
  /\ length (spellings shouted_day_forms) = 1344%nat
  /\ (forall s, In s (spellings shouted_day_forms) ->
        Dates.normalize s = s
        /\ Dates.normalize (Dates.normalize s) = Dates.normalize s
        /\ forall fb, Dates.parse_date fb s
                      = match Dates.locale_strptime fb s with
                        | Some d => Some d
                        | None => Dates.dateutil_parse fb s
                        end).
Proof.
  assert (Hall : forall s, In s april_2_2025_variants ->
            Dates.normalize (Dates.normalize s) = Dates.normalize s
            /\ forall fb, Dates.parse_date fb s = Some (Dates.mkdate 2025 4 2)).
  { intros s Hs. pose proof variants_ok as H.
    rewrite forallb_forall in H. specialize (H s Hs).
    unfold variant_ok in H. apply andb_prop in H as [H1 H2].
    apply text_eqb_eq in H1. apply bool_decide_eq_true in H2. split; [exact H1|].
    intros fb. apply parse_date_by_format, H2. }
  assert (H1 : In (txt "02-Apr-25") april_2_2025_variants).
  { apply In_by_compute. vm_compute. reflexivity. }
  assert (H2 : In (txt "2nd April 2025") april_2_2025_variants).
  { apply In_by_compute. vm_compute. reflexivity. }
  split; [|split; [|split; [|split; [|split; [|split; [|split; [|split]]]]]]].
  - intros fb. split; [apply (Hall _ H1)|apply (Hall _ H2)].
  - vm_compute. reflexivity.
  - vm_compute. reflexivity.
  - exact H1.
  - exact H2.
  - vm_compute. reflexivity.
  - exact Hall.
  - vm_compute. reflexivity.
  - intros s Hs. pose proof shouted_variants_ok as H.
    rewrite forallb_forall in H. specialize (H s Hs).
    unfold shouted_ok in H. apply andb_prop in H as [E N].
    apply text_eqb_eq in E. apply bool_decide_eq_true in N.
    split; [exact E|]. split; [rewrite E; exact E|].
    intros fb. unfold Dates.parse_date. rewrite N, E. reflexivity.
Qed.

Lemma parse_date_variants_agree_witness :
  let s := txt "2nd APRIL 2025" in
  Dates.normalize (Dates.normalize s) = Dates.normalize s
  /\ forall fb, Dates.parse_date fb s = Some (Dates.mkdate 2025 4 2).
Proof.
  cbv zeta.
  apply (proj1 (proj2 (proj2 (proj2 (proj2 (proj2 (proj2 parse_date_variants_agree))))))).
  apply In_by_compute. vm_compute. reflexivity.
Defined.

(** ** Eligibility summary *)

Lemma rfind_from_spec c s i e best k :
  Py.rfind_from c s i e best = Some k ->
  (best = Some k /\ forall j, (i + j < e)%nat -> nth_error s j <> Some c)
  \/ ((i <= k < e)%nat /\ nth_error s (k - i) = Some c
      /\ forall j, (k < i + j < e)%nat -> nth_error s j <> Some c).
Proof.
  revert i best. induction s as [|x s IH]; intros i best; cbn [Py.rfind_from].
  - intros ->. left. split; [reflexivity|]. intros j _. destruct j; discriminate.
  - destruct (i <? e)%nat eqn:Ei.
    + apply Nat.ltb_lt in Ei. intros H. apply IH in H.
      destruct (N.eqb_spec x c) as [->|Hx].
      * destruct H as [[[= <-] Hno] | (Hk & Hn & Hno)].
        -- right. split; [lia|]. rewrite Nat.sub_diag. split; [reflexivity|].
           intros [|j] Hj; [lia|]. cbn. apply Hno. lia.
        -- right. split; [lia|]. split.
           ++ replace (k - i)%nat with (S (k - S i)) by lia. exact Hn.
           ++ intros [|j] Hj; [lia|]. cbn. apply Hno. lia.
      * destruct H as [[-> Hno] | (Hk & Hn & Hno)].
        -- left. split; [reflexivity|]. intros [|j] Hj; cbn.
           ++ intros [= E]. congruence.
           ++ apply Hno. lia.
        -- right. split; [lia|]. split.
           ++ replace (k - i)%nat with (S (k - S i)) by lia. exact Hn.
           ++ intros [|j] Hj; [lia|]. cbn. apply Hno. lia.
    + apply Nat.ltb_ge in Ei. intros ->. left. split; [reflexivity|]. intros j Hj. lia.
Qed.

Lemma nth_error_lookup {A} (l : list A) (i : nat) : nth_error l i = l !! i.
Proof. revert i. induction l as [|x l IH]; intros [|i]; cbn; auto. Qed.

(** [rfind] finds the last occurrence before the limit. *)
Lemma rfind_spec c s e k :
  Py.rfind c s e = Some k ->
  (k < e)%nat /\ nth_error s k = Some c
  /\ forall j, (k < j < e)%nat -> nth_error s j <> Some c.
Proof.
  unfold Py.rfind. intros H. apply rfind_from_spec in H.
  destruct H as [[[=] _] | (Hk & Hn & Hno)].
  rewrite Nat.sub_0_r in Hn. split; [lia|]. split; [exact Hn|].
  intros j Hj. apply Hno. lia.
Qed.

(** C9.  The summary is the sentinel when no keyword is recognised as a
    heading, and when the bounded segment has 5 characters or fewer.  A
    segment longer than 300 characters is cut just after its last period
    among the first 300 characters when that period lies beyond index 150,
    and otherwise cut to 300 characters, stripped, with "..." appended.
    The eligibility field of a fresh record is that summary. *)
Theorem eligibility_summary_cases (full : text) :
  (Eligibility.find_keyword Eligibility.eligibility_keywords full = None ->
   Eligibility.eligibility_summary full = Eligibility.sentinel)
  /\ (forall seg,
        Eligibility.eligibility_segment full = Some seg ->
        ((length seg <= 5)%nat ->
         Eligibility.eligibility_summary full = Eligibility.sentinel)
        /\ ((300 < length seg)%nat ->
            (forall c, Py.rfind 46 seg 300 = Some c -> (150 < c)%nat ->
               Eligibility.eligibility_summary full = take (c + 1) seg
               /\ (c < 300)%nat /\ nth_error seg c = Some 46
               /\ (forall j, (c < j < 300)%nat -> nth_error seg j <> Some 46)
               /\ last (Eligibility.eligibility_summary full) = Some 46)
            /\ ((Py.rfind 46 seg 300 = None
                 \/ exists c, Py.rfind 46 seg 300 = Some c /\ (c <= 150)%nat) ->
                Eligibility.eligibility_summary full
                = Py.strip (take 300 seg) ++ txt "...")))
  /\ eligibility (Pipeline.apply_eligibility full default_grant)
     = Some (Eligibility.eligibility_summary full).
Proof.
  split; [|split].
  - unfold Eligibility.eligibility_summary, Eligibility.eligibility_segment.
    intros ->. reflexivity.
  - intros seg Hseg. unfold Eligibility.eligibility_summary. rewrite Hseg.
    unfold Eligibility.summarize_segment, Eligibility.max_len. split.
    + intros Hlen.
      destruct (300 <? length seg)%nat eqn:E1; [apply Nat.ltb_lt in E1; lia|].
      destruct (5 <? length seg)%nat eqn:E2; [apply Nat.ltb_lt in E2; lia|].
      reflexivity.
    + intros Hlen. apply Nat.ltb_lt in Hlen. rewrite Hlen. split.
      * intros c Hc Hhalf. rewrite Hc.
        destruct (300 <? 2 * c)%nat eqn:E; [|apply Nat.ltb_ge in E; lia].
        destruct (rfind_spec _ _ _ _ Hc) as (Hlt & Hn & Hno).
        repeat split; auto.
        rewrite last_lookup, length_take.
        apply Nat.ltb_lt in Hlen.
        replace (Init.Nat.pred (Nat.min (c + 1) (length seg))) with c by lia.
        rewrite lookup_take_lt by lia.
        rewrite <- nth_error_lookup. exact Hn.
      * intros [-> | (c & -> & Hc)]; [reflexivity|].
        destruct (300 <? 2 * c)%nat eqn:E; [apply Nat.ltb_lt in E; lia|].
        reflexivity.
  - unfold Pipeline.apply_eligibility.
    destruct (text_eqb _ _) eqn:E; [|reflexivity].
    apply text_eqb_eq in E. rewrite E. vm_compute. reflexivity.
Qed.

Lemma eligibility_summary_cases_witness :
  Eligibility.eligibility_summary (txt "No heading here") = Eligibility.sentinel
  /\ Eligibility.eligibility_summary (txt "Intro. Eligibility: NGOs. Benefits: x")
     = Eligibility.sentinel
  /\ Eligibility.eligibility_summary long_eligibility_text
     = take (286 + 1) long_segment
  /\ Eligibility.eligibility_summary unbroken_eligibility_text
     = Py.strip (take 300 (repeat 97%N 400)) ++ txt "...".
Proof.
  split; [|split; [|split]].
  - refine (proj1 (eligibility_summary_cases (txt "No heading here")) _).
    vm_compute. reflexivity.
  - refine (proj1 (proj1 (proj2 (eligibility_summary_cases
              (txt "Intro. Eligibility: NGOs. Benefits: x"))) (txt "NGOs") _) _).
    + vm_compute. reflexivity.
    + apply Nat.leb_le. vm_compute. reflexivity.
  - refine (proj1 (proj1 (proj2 (proj1 (proj2 (eligibility_summary_cases
              long_eligibility_text)) long_segment _) _) 286%nat _ _)).
    + vm_compute. reflexivity.
    + apply Nat.ltb_lt. vm_compute. reflexivity.
    + vm_compute. reflexivity.
    + apply Nat.ltb_lt. vm_compute. reflexivity.
  - refine (proj2 (proj2 (proj1 (proj2 (eligibility_summary_cases
              unbroken_eligibility_text)) (repeat 97%N 400) _) _) _).
    + vm_compute. reflexivity.
    + apply Nat.ltb_lt. vm_compute. reflexivity.
    + left. vm_compute. reflexivity.
Defined.

(** ** Organisation names *)

(** C10, as stated, fails: the reconciliation pass of lines 779-831 turns a
    persisted record marked "Organization Not Found" whose URL is
    https://un.org/grants into one whose organisation is "Un", two
    characters long and not the sentinel. *)
Lemma batch_reconciliation_short_name :
  Organization.extract_org_from_url (txt "https://un.org/grants") = Some (txt "Un")
  /\ Organization.reconcile un_record
     = Return (Pipeline.with_organization (Some (txt "Un")) un_record)
  /\ length (txt "Un") = 2%nat
  /\ txt "Un" <> unknown_organization.
Proof.
  repeat split; try (vm_compute; reflexivity).
  vm_compute. discriminate.
Qed.

Lemma post_process_length org :
  org <> [] ->
  exists o, Organization.post_process (Some org) = Some o
            /\ (o = unknown_organization \/ (3 <= length o)%nat).
Proof.
  intros Hne. unfold Organization.post_process.
  destruct org as [|c org]; [contradiction|].
  destruct (text_eqb (c :: org) unknown_organization) eqn:E1; cbn [orb].
  - apply text_eqb_eq in E1. eexists. split; [reflexivity|]. left. exact E1.
  - destruct (text_eqb (c :: org) organization_not_found) eqn:E2.
    + apply text_eqb_eq in E2. eexists. split; [reflexivity|]. right.
      rewrite E2. apply Nat.leb_le. vm_compute. reflexivity.
    + cbn [orb].
      destruct (length (Organization.clean_name (c :: org)) <? 3)%nat eqn:E3.
      * eexists. split; [reflexivity|]. left. reflexivity.
      * eexists. split; [reflexivity|]. right. apply Nat.ltb_ge in E3. exact E3.
Qed.

Lemma batch_from_title_length pats t o :
  Organization.batch_from_title pats t = Some o -> (3 < length o < 50)%nat.
Proof.
  induction pats as [|src pats IH]; cbn [Organization.batch_from_title]; [discriminate|].
  destruct (Re.search _ t) as [m|]; [|exact IH].
  destruct ((3 <? _)%nat && (_ <? 50)%nat) eqn:E; [|exact IH].
  intros [= <-]. apply andb_prop in E as [E1 E2].
  apply Nat.ltb_lt in E1, E2. lia.
Qed.

(** C10, amended.  After the per-listing post-processing a non-empty
    resolved name is the sentinel or has at least 3 characters, and so has
    every non-empty organisation that [stage_organization] leaves in the
    record.  The reconciliation pass touches only records marked
    "Organization Not Found" and checks a length (more than 3, fewer than 50
    characters) for names drawn from the title only: a name drawn from the
    URL is taken as it is. *)
Theorem post_processed_organization_length :
  (forall org, org <> [] ->
     exists o, Organization.post_process (Some org) = Some o
               /\ (o = unknown_organization \/ (3 <= length o)%nat))
  /\ (forall w a st st' o,
        Pipeline.stage_organization w a st = (Pipeline.Next, st') ->
        organization (Pipeline.cur st') = Some o -> o <> [] ->
        o = unknown_organization \/ (3 <= length o)%nat)
  /\ (forall pats t o,
        Organization.batch_from_title pats t = Some o -> (3 < length o < 50)%nat)
  /\ (forall g url o,
        organization g = Some organization_not_found ->
        applicationUrl g = Some url ->
        Organization.extract_org_from_url url = Some o -> o <> [] ->
        Organization.reconcile g = Return (Pipeline.with_organization (Some o) g))
  /\ (forall g,
        organization g <> Some organization_not_found ->
        Organization.reconcile g = Return g).
Proof.
  split; [exact post_process_length|]. split; [|split; [exact batch_from_title_length|split]].
  - intros w a st st' o. unfold Pipeline.stage_organization.
    destruct (Organization.extract_organization _ _ _) as [org|e]; [|discriminate].
    intros [= <-]. cbn [Pipeline.cur Pipeline.set_cur Pipeline.with_organization organization].
    destruct org as [|c org].
    + unfold Organization.post_process. intros [= <-] H. contradiction.
    + destruct (post_process_length (c :: org)) as (o' & E & Ho'); [discriminate|].
      intros H _. assert (Some o' = Some o) as [= <-] by exact (eq_trans (eq_sym E) H).
      exact Ho'.
  - intros g url o Horg Hurl Hfrom Hne. unfold Organization.reconcile.
    rewrite Horg, Hurl, Hfrom. unfold Organization.is_not_found.
    rewrite text_eqb_refl.
    destruct o as [|c o]; [contradiction|].
    unfold Pipeline.with_organization. rewrite Hurl. reflexivity.
  - intros g Hne. unfold Organization.reconcile, Organization.is_not_found.
    destruct (organization g) as [o|]; [|reflexivity].
    destruct (text_eqb o organization_not_found) eqn:E; [|reflexivity].
    apply text_eqb_eq in E. subst o. contradiction.
Qed.

Lemma post_processed_organization_length_witness :
  (exists o, Organization.post_process (Some (txt "Ford Foundation")) = Some o
             /\ (o = unknown_organization \/ (3 <= length o)%nat))
  /\ Organization.reconcile un_record
     = Return (Pipeline.with_organization (Some (txt "Un")) un_record).
Proof.
  split.
  - apply (proj1 post_processed_organization_length). vm_compute. discriminate.
  - apply (proj1 (proj2 (proj2 (proj2 post_processed_organization_length)))
             un_record (txt "https://un.org/grants") (txt "Un")).
    + reflexivity.
    + reflexivity.
    + vm_compute. reflexivity.
    + vm_compute. discriminate.
Defined.

(** ** The article loop never appends *)

Lemma then_assoc (s1 s2 s3 : Pipeline.stage) st :
  Pipeline.then_ (Pipeline.then_ s1 s2) s3 st
  = Pipeline.then_ s1 (Pipeline.then_ s2 s3) st.
Proof. unfold Pipeline.then_. destruct (s1 st) as [[| |e] st1]; reflexivity. Qed.

Lemma extract_organization_without_title netloc art g :
  title g = None ->
  Organization.extract_organization netloc art g = Raise TypeError.
Proof. unfold Organization.extract_organization. intros ->. reflexivity. Qed.

(** What one article does to the run: nothing but binding the helpers. *)
Lemma article_body_fresh w a st :
  Pipeline.article_body w a (Pipeline.set_cur (fun _ => default_grant) st)
  = if a_title_tag a && a_link_href a
    then (Pipeline.Exc TypeError,
          Pipeline.mkstate default_grant (Pipeline.full_description_text st)
            (Pipeline.cleaned_description st) (Pipeline.deadline_str_extracted st)
            (Pipeline.external_application_url st) (Pipeline.grants st)
            (Pipeline.existing_grant_urls st) (Pipeline.processed_urls st)
            (Pipeline.page_has_valid_grants st) true)
    else (Pipeline.Continue, Pipeline.set_cur (fun _ => default_grant) st).
Proof.
  unfold Pipeline.article_body, Pipeline.then_, Pipeline.guard_title,
    Pipeline.define_helpers, Pipeline.stage_organization.
  destruct (a_title_tag a && a_link_href a); [|reflexivity].
  cbn [Pipeline.cur Pipeline.set_cur].
  rewrite extract_organization_without_title by reflexivity. reflexivity.
Qed.

Lemma process_article_store w st a :
  Pipeline.grants (Pipeline.process_article w st a) = Pipeline.grants st
  /\ Pipeline.existing_grant_urls (Pipeline.process_article w st a)
     = Pipeline.existing_grant_urls st
  /\ Pipeline.page_has_valid_grants (Pipeline.process_article w st a)
     = Pipeline.page_has_valid_grants st.
Proof.
  unfold Pipeline.process_article. rewrite article_body_fresh.
  destruct (a_title_tag a && a_link_href a); cbn; auto.
Qed.

Lemma process_articles_store w articles st :
  let st' := fold_left (Pipeline.process_article w) articles st in
  Pipeline.grants st' = Pipeline.grants st
  /\ Pipeline.existing_grant_urls st' = Pipeline.existing_grant_urls st
  /\ Pipeline.page_has_valid_grants st' = Pipeline.page_has_valid_grants st.
Proof.
  revert st. induction articles as [|a articles IH]; intros st; cbn; [auto|].
  destruct (IH (Pipeline.process_article w st a)) as (H1 & H2 & H3).
  destruct (process_article_store w st a) as (G1 & G2 & G3).
  cbv zeta in H1, H2, H3. rewrite H1, H2, H3. auto.
Qed.

Lemma scrape_store w ns st :
  Pipeline.grants (fst (Pipeline.scrape w ns st)) = Pipeline.grants st
  /\ Pipeline.existing_grant_urls (fst (Pipeline.scrape w ns st))
     = Pipeline.existing_grant_urls st
  /\ (length (snd (Pipeline.scrape w ns st)) <= 1)%nat.
Proof.
  revert st. induction ns as [|n ns IH]; intros st; cbn [Pipeline.scrape].
  - cbn. auto.
  - destruct (Pipeline.fetch_page w n) as [[|]| |[|a articles]]; cbn [fst snd length];
      auto.
    destruct (process_articles_store w (a :: articles) (Pipeline.set_page_flag false st))
      as (H1 & H2 & H3). cbv zeta in H1, H2, H3.
    cbn [Pipeline.set_page_flag Pipeline.page_has_valid_grants] in H3.
    rewrite H3. cbn [fst snd length]. rewrite H1, H2. cbn. auto.
Qed.

(** C2.  For every article the body of the loop either is left at the
    title guard or raises [TypeError] in [extract_organization], which gets
    a dictionary whose title is still [None]; the handlers turn that into
    a skip.  So an article leaves the collection, the known URLs and the
    page flag as they were; a run ends with the collection it loaded,
    scans the articles of at most one page, and stops right after the first
    page that has articles; what it saves is the cleaned-up loaded list, or
    nothing. *)
Theorem no_article_is_ever_appended :
  (forall netloc art g,
      title g = None ->
      Organization.extract_organization netloc art g = Raise TypeError)
  /\ (forall w a st,
      fst (Pipeline.article_body w a (Pipeline.set_cur (fun _ => default_grant) st))
      = if a_title_tag a && a_link_href a
        then Pipeline.Exc TypeError else Pipeline.Continue)
  /\ (forall w a st,
      Pipeline.grants (Pipeline.process_article w st a) = Pipeline.grants st
      /\ Pipeline.existing_grant_urls (Pipeline.process_article w st a)
         = Pipeline.existing_grant_urls st
      /\ Pipeline.page_has_valid_grants (Pipeline.process_article w st a)
         = Pipeline.page_has_valid_grants st)
  /\ (forall w n rest st,
      match Pipeline.fetch_page w n with
      | Pipeline.PageArticles (_ :: _) => snd (Pipeline.scrape w (n :: rest) st) = [n]
      | _ => True
      end)
  /\ (forall w loaded,
      Pipeline.grants (fst (Pipeline.run w loaded)) = loaded
      /\ Pipeline.existing_grant_urls (fst (Pipeline.run w loaded))
         = list_to_set (map applicationUrl loaded)
      /\ (length (snd (Pipeline.run w loaded)) <= 1)%nat
      /\ (Pipeline.save (fst (Pipeline.run w loaded))
          = Some (map Pipeline.cleanup loaded)
          \/ Pipeline.save (fst (Pipeline.run w loaded)) = None)).
Proof.
  split; [exact extract_organization_without_title|].
  split; [|split; [intros w a st; exact (process_article_store w st a)|split]].
  - intros w a st. rewrite article_body_fresh.
    destruct (a_title_tag a && a_link_href a); reflexivity.
  - intros w n rest st. cbn [Pipeline.scrape].
    destruct (Pipeline.fetch_page w n) as [[|]| |[|a articles]]; auto.
    destruct (process_articles_store w (a :: articles) (Pipeline.set_page_flag false st))
      as (_ & _ & H3). cbv zeta in H3.
    cbn [Pipeline.set_page_flag Pipeline.page_has_valid_grants] in H3.
    rewrite H3. reflexivity.
  - intros w loaded. unfold Pipeline.run.
    destruct (scrape_store w (seq 1 10) (Pipeline.initial_state loaded)) as (H1 & H2 & H3).
    repeat split; auto.
    unfold Pipeline.save. rewrite H1. cbn [Pipeline.initial_state Pipeline.grants].
    destruct (_ || _); auto.
Qed.

Lemma no_article_is_ever_appended_witness :
  Organization.extract_organization (fun _ => None) None default_grant = Raise TypeError.
Proof. apply (proj1 no_article_is_ever_appended). reflexivity. Defined.

(** ** The deduplication gate *)

Lemma count_url_app u gs hs :
  count_url u (gs ++ hs) = (count_url u gs + count_url u hs)%nat.
Proof. induction gs as [|g gs IH]; cbn; [reflexivity|]. rewrite IH. lia. Qed.

Lemma count_url_zero u gs : u ∉ urls gs -> count_url u gs = 0%nat.
Proof.
  induction gs as [|g gs IH]; cbn; [reflexivity|].
  intros H. apply not_elem_of_cons in H as [H1 H2].
  destruct (decide (applicationUrl g = u)); [congruence|]. auto.
Qed.

Lemma ingest_grants st c :
  Pipeline.grants (ingest st c)
  = if bool_decide (applicationUrl c ∈ Pipeline.existing_grant_urls st)
    then Pipeline.grants st else Pipeline.grants st ++ [c].
Proof.
  unfold ingest, Pipeline.stage_dedup. cbn.
  destruct (bool_decide _); reflexivity.
Qed.

Lemma ingest_seeded st c : seeded st -> seeded (ingest st c).
Proof.
  intros Hs u. unfold ingest, Pipeline.stage_dedup. cbn.
  destruct (bool_decide _) eqn:E; cbn.
  - apply Hs.
  - unfold urls. rewrite map_app, elem_of_union, elem_of_app, elem_of_singleton. cbn.
    rewrite list_elem_of_singleton. specialize (Hs u). unfold urls in Hs. tauto.
Qed.

Lemma initial_state_seeded loaded : seeded (Pipeline.initial_state loaded).
Proof. intros u. cbn. unfold urls. apply elem_of_list_to_set. Qed.

Lemma count_after_ingest cs : forall st u,
  seeded st ->
  count_url u (Pipeline.grants (ingest_all st cs))
  = if decide (u ∈ urls (Pipeline.grants st)) then count_url u (Pipeline.grants st)
    else if decide (u ∈ urls cs) then 1%nat else 0%nat.
Proof.
  induction cs as [|c cs IH]; intros st u Hs.
  - cbn. destruct (decide _) as [|Hn]; [reflexivity|].
    rewrite count_url_zero by exact Hn.
    destruct (decide (u ∈ urls [])) as [H|]; [|reflexivity].
    apply elem_of_nil in H. contradiction.
  - cbn [ingest_all fold_left]. fold (ingest_all (ingest st c) cs).
    rewrite IH by (apply ingest_seeded, Hs). rewrite ingest_grants.
    assert (Hin : applicationUrl c ∈ Pipeline.existing_grant_urls st
                  <-> applicationUrl c ∈ urls (Pipeline.grants st)) by apply Hs.
    assert (Hcons : u ∈ urls (c :: cs) <-> applicationUrl c = u \/ u ∈ urls cs).
    { unfold urls. cbn. rewrite elem_of_cons. intuition congruence. }
    destruct (bool_decide _) eqn:E.
    + apply bool_decide_eq_true in E. apply Hin in E.
      destruct (decide (u ∈ urls (Pipeline.grants st))) as [|Hn]; [reflexivity|].
      assert (Hne : applicationUrl c <> u) by (intros <-; contradiction).
      destruct (decide (u ∈ urls cs)), (decide (u ∈ urls (c :: cs)));
        try reflexivity; exfalso; tauto.
    + apply bool_decide_eq_false in E. rewrite Hin in E.
      assert (Happ : u ∈ urls (Pipeline.grants st ++ [c])
                     <-> u ∈ urls (Pipeline.grants st) \/ applicationUrl c = u).
      { unfold urls. rewrite map_app, elem_of_app. cbn.
        rewrite list_elem_of_singleton. intuition congruence. }
      rewrite count_url_app. cbn [count_url].
      destruct (decide (u ∈ urls (Pipeline.grants st))) as [Hu|Hu].
      * assert (Hne : applicationUrl c <> u) by (intros <-; contradiction).
        destruct (decide (u ∈ urls (Pipeline.grants st ++ [c]))); [|exfalso; tauto].
        destruct (decide (applicationUrl c = u)); [contradiction|]. lia.
      * destruct (decide (applicationUrl c = u)) as [Hc|Hc].
        -- destruct (decide (u ∈ urls (Pipeline.grants st ++ [c]))); [|exfalso; tauto].
           destruct (decide (u ∈ urls (c :: cs))); [|exfalso; tauto].
           rewrite count_url_zero by exact Hu. reflexivity.
        -- destruct (decide (u ∈ urls (Pipeline.grants st ++ [c]))); [exfalso; tauto|].
           destruct (decide (u ∈ urls cs)), (decide (u ∈ urls (c :: cs)));
             try reflexivity; exfalso; tauto.
Qed.

(** C4.  The gate never raises; it appends a candidate whose URL is not
    known and registers the URL at once, and leaves collection and known
    URLs alone otherwise.  After any sequence of candidates, a URL
    that the store already held keeps exactly the records it had, and a URL
    new to the store has exactly one record if some candidate carried it
    and none otherwise.  In particular two candidates with the same URL
    leave one record, the first to arrive, whichever comes first; and none
    when the URL was loaded from the store at start-up. *)
Theorem dedup_gate_at_most_once :
  (forall st c, fst (Pipeline.stage_dedup (Pipeline.set_cur (fun _ => c) st))
                = Pipeline.Next)
  /\ (forall st c,
        if bool_decide (applicationUrl c ∈ Pipeline.existing_grant_urls st)
        then Pipeline.grants (ingest st c) = Pipeline.grants st
             /\ Pipeline.existing_grant_urls (ingest st c)
                = Pipeline.existing_grant_urls st
        else Pipeline.grants (ingest st c) = Pipeline.grants st ++ [c]
             /\ Pipeline.existing_grant_urls (ingest st c)
                = {[ applicationUrl c ]} ∪ Pipeline.existing_grant_urls st)
  /\ (forall loaded cs u,
        count_url u (Pipeline.grants (ingest_all (Pipeline.initial_state loaded) cs))
        = if decide (u ∈ urls loaded) then count_url u loaded
          else if decide (u ∈ urls cs) then 1%nat else 0%nat)
  /\ (forall loaded c1 c2,
        applicationUrl c1 = applicationUrl c2 ->
        Pipeline.grants (ingest_all (Pipeline.initial_state loaded) [c1; c2])
        = (if decide (applicationUrl c1 ∈ urls loaded) then loaded else loaded ++ [c1])
        /\ Pipeline.grants (ingest_all (Pipeline.initial_state loaded) [c2; c1])
           = (if decide (applicationUrl c1 ∈ urls loaded) then loaded else loaded ++ [c2])
        /\ (applicationUrl c1 ∉ urls loaded ->
            count_url (applicationUrl c1)
              (Pipeline.grants (ingest_all (Pipeline.initial_state loaded) [c1; c2]))
            = 1%nat)).
Proof.
  split; [reflexivity|]. split; [|split].
  - intros st c. unfold ingest, Pipeline.stage_dedup. cbn.
    destruct (bool_decide _); cbn; split; reflexivity.
  - intros loaded cs u.
    rewrite count_after_ingest by apply initial_state_seeded. reflexivity.
  - assert (Hpair : forall loaded c1 c2,
              applicationUrl c1 = applicationUrl c2 ->
              Pipeline.grants (ingest_all (Pipeline.initial_state loaded) [c1; c2])
              = if decide (applicationUrl c1 ∈ urls loaded) then loaded
                else loaded ++ [c1]).
    { intros loaded c1 c2 Heq. cbn [ingest_all fold_left].
      pose proof (initial_state_seeded loaded) as Hs.
      pose proof (ingest_seeded _ c1 Hs) as Hs1.
      rewrite ingest_grants.
      assert (H2 : applicationUrl c2
                   ∈ Pipeline.existing_grant_urls (ingest (Pipeline.initial_state loaded) c1)).
      { apply Hs1. rewrite ingest_grants. rewrite <- Heq.
        destruct (bool_decide _) eqn:E.
        - apply bool_decide_eq_true in E. apply Hs in E. exact E.
        - unfold urls. rewrite map_app, elem_of_app. right. cbn.
          apply list_elem_of_singleton. reflexivity. }
      rewrite bool_decide_eq_true_2 by exact H2.
      rewrite ingest_grants. cbn [Pipeline.initial_state Pipeline.grants].
      destruct (decide (applicationUrl c1 ∈ urls loaded)) as [Hin|Hin].
      - rewrite bool_decide_eq_true_2; [reflexivity|]. apply Hs. exact Hin.
      - rewrite bool_decide_eq_false_2; [reflexivity|]. intros H. apply Hs in H.
        contradiction. }
    intros loaded c1 c2 Heq. split; [apply Hpair, Heq|]. split.
    + rewrite Hpair by (symmetry; exact Heq). rewrite <- Heq. reflexivity.
    + intros Hnew. rewrite count_after_ingest by apply initial_state_seeded.
      cbn [Pipeline.initial_state Pipeline.grants].
      destruct (decide (applicationUrl c1 ∈ urls loaded)); [contradiction|].
      destruct (decide (applicationUrl c1 ∈ urls [c1; c2])) as [|Hn]; [reflexivity|].
      exfalso. apply Hn. unfold urls. cbn. apply elem_of_cons. left. reflexivity.
Qed.

Lemma dedup_gate_at_most_once_witness :
  Pipeline.grants (ingest_all (Pipeline.initial_state [])
                     [first_candidate; second_candidate]) = [first_candidate]
  /\ Pipeline.grants (ingest_all (Pipeline.initial_state [])
                        [second_candidate; first_candidate]) = [second_candidate]
  /\ Pipeline.grants (ingest_all (Pipeline.initial_state [first_candidate])
                        [second_candidate; second_candidate]) = [first_candidate].
Proof.
  pose proof (proj2 (proj2 (proj2 dedup_gate_at_most_once))) as H.
  destruct (H [] first_candidate second_candidate eq_refl) as (H1 & H2 & _).
  destruct (H [first_candidate] second_candidate second_candidate eq_refl) as (H3 & _).
  rewrite H1, H2, H3. repeat split.
Defined.

(** ** The deadline gate *)

Lemma article_body_tail w a st :
  Pipeline.article_body w a st
  = Pipeline.then_
      (Pipeline.then_
         (Pipeline.then_
            (Pipeline.then_
               (Pipeline.then_ (Pipeline.guard_title a) Pipeline.define_helpers)
               (Pipeline.stage_organization w a))
            Pipeline.stage_amount_from_text)
         Pipeline.stage_clean_fields)
      (enrichment_tail w a) st.
Proof.
  unfold Pipeline.article_body, enrichment_tail.
  rewrite <- !then_assoc. reflexivity.
Qed.

Lemma judge_spec w s :
  match Pipeline.judge w s with
  | Pipeline.After d =>
      Dates.parse_date (Pipeline.date_fallbacks w) s = Some d
      /\ Dates.date_ltb Pipeline.deadline_cutoff d = true
  | Pipeline.NotAfter d =>
      Dates.parse_date (Pipeline.date_fallbacks w) s = Some d
      /\ Dates.date_ltb Pipeline.deadline_cutoff d = false
  | Pipeline.Unparsed => Dates.parse_date (Pipeline.date_fallbacks w) s = None
  end.
Proof.
  unfold Pipeline.judge.
  destruct (Dates.parse_date _ s) as [d|]; [|reflexivity].
  destruct (Dates.date_ltb _ d) eqn:E; auto.
Qed.

Lemma take_deadline_spec w s st fl st' :
  Pipeline.take_deadline w s st = (fl, st') ->
  Pipeline.grants st' = Pipeline.grants st
  /\ (fl = Pipeline.Next ->
      deadline (Pipeline.cur st') = deadline (Pipeline.cur st)
      \/ exists d, Dates.parse_date (Pipeline.date_fallbacks w) s = Some d
                   /\ Dates.date_ltb Pipeline.deadline_cutoff d = true
                   /\ deadline (Pipeline.cur st') = Some (Dates.strftime_dby d)).
Proof.
  unfold Pipeline.take_deadline. pose proof (judge_spec w s) as J.
  destruct (Pipeline.judge w s) as [d|d|].
  - destruct (Pipeline.remove_deadline _ _) as [descr|e]; intros [= <- <-];
      cbn; (split; [reflexivity|]); intros _; right; exists d; tauto.
  - intros [= <- <-]. cbn. split; [reflexivity|]. discriminate.
  - intros [= <- <-]. split; [reflexivity|]. auto.
Qed.

Lemma apply_eligibility_deadline full g :
  deadline (Pipeline.apply_eligibility full g) = deadline g.
Proof. unfold Pipeline.apply_eligibility. destruct (text_eqb _ _); reflexivity. Qed.

Lemma stage_detail_spec w a st fl st' :
  Pipeline.stage_detail w a st = (fl, st') ->
  deadline (Pipeline.cur st) = None ->
  Pipeline.grants st' = Pipeline.grants st
  /\ (fl = Pipeline.Next -> sourced w a st st').
Proof.
  unfold Pipeline.stage_detail. intros H Hnone.
  destruct (title (Pipeline.cur st)) as [t|]; [|injection H as <- <-; split; [reflexivity|discriminate]].
  destruct (applicationUrl (Pipeline.cur st)) as [url|] eqn:Hurl;
    [|injection H as <- <-; split; [reflexivity|discriminate]].
  destruct (Pipeline.fetch_detail w url a) as [[c|]|e] eqn:Hfetch.
  - cbv zeta in H.
    destruct (Pipeline.detail_deadline_text (Pipeline.c_text c)) as [s|] eqn:Hs.
    + apply take_deadline_spec in H as [Hg Hd]. cbn [Pipeline.grants Pipeline.cur] in Hg. split; [exact Hg|].
      intros Hfl. specialize (Hd Hfl). cbn [Pipeline.grants Pipeline.cur] in Hd.
      rewrite apply_eligibility_deadline in Hd.
      destruct Hd as [Hd | (d & Hp & Hlt & Hd)].
      * left. rewrite Hd. exact Hnone.
      * right. exists s, d. repeat split; auto.
        left. exists url, c. auto.
    + injection H as <- <-. split; [reflexivity|]. intros _. left.
      cbn [Pipeline.cur]. rewrite apply_eligibility_deadline. exact Hnone.
  - injection H as <- <-. split; [reflexivity|]. intros _. left. exact Hnone.
  - injection H as <- <-. split; [reflexivity|discriminate].
Qed.

Lemma stage_listing_spec w a st0 st fl st' :
  Pipeline.stage_listing_deadline w a st = (fl, st') ->
  sourced w a st0 st ->
  Pipeline.grants st' = Pipeline.grants st
  /\ (fl = Pipeline.Next -> sourced w a st0 st').
Proof.
  unfold Pipeline.stage_listing_deadline. intros H Hsrc.
  destruct (deadline (Pipeline.cur st)) as [dl|] eqn:Hdl.
  - injection H as <- <-. split; [reflexivity|]. intros _. exact Hsrc.
  - destruct (Pipeline.listing_deadline_text a) as [[s|]|e] eqn:Hs.
    + apply take_deadline_spec in H as [Hg Hd]. split; [exact Hg|].
      intros Hfl. destruct (Hd Hfl) as [Hsame | (d & Hp & Hlt & Hd')].
      * left. rewrite Hsame. exact Hdl.
      * right. exists s, d. repeat split; auto. right. exact Hs.
    + injection H as <- <-. split; [reflexivity|]. intros _. left. exact Hdl.
    + injection H as <- <-. split; [reflexivity|discriminate].
Qed.

Lemma date_leb_false a b : Dates.date_leb a b = false -> Dates.date_ltb b a = true.
Proof.
  unfold Dates.date_leb, Dates.date_ltb, Dates.date_eqb.
  destruct a as [y1 m1 d1], b as [y2 m2 d2]; cbn. intros H.
  apply orb_false_elim in H as [H1 H2].
  apply orb_false_elim in H1 as [H1 H3].
  repeat match goal with
         | |- context [(?x <? ?y)%Z] => destruct (Z.ltb_spec x y)
         | |- context [(?x =? ?y)%Z] => destruct (Z.eqb_spec x y)
         | H : context [(?x <? ?y)%Z] |- _ => destruct (Z.ltb_spec x y)
         | H : context [(?x =? ?y)%Z] |- _ => destruct (Z.eqb_spec x y)
         end; cbn in *; try reflexivity; try discriminate; try lia.
Qed.

Lemma stage_checks_spec st fl st' :
  Pipeline.stage_checks st = (fl, st') ->
  Pipeline.grants st' = Pipeline.grants st
  /\ (fl = Pipeline.Next -> st' = st /\ deadline_after_cutoff (Pipeline.cur st)).
Proof.
  unfold Pipeline.stage_checks.
  destruct (deadline (Pipeline.cur st)) as [dl|] eqn:Hdl.
  - destruct (negb _).
    + intros [= <- <-]. split; [reflexivity|discriminate].
    + destruct (Dates.strptime dl "%d-%b-%y") as [d|] eqn:Hd.
      * destruct (Dates.date_leb d Pipeline.deadline_cutoff) eqn:Hle.
        -- intros [= <- <-]. split; [reflexivity|discriminate].
        -- intros [= <- <-]. split; [reflexivity|]. intros _. split; [reflexivity|].
           exists dl. split; [exact Hdl|]. exists d. split; [exact Hd|].
           apply date_leb_false, Hle.
      * intros [= <- <-]. split; [reflexivity|discriminate].
  - intros [= <- <-]. split; [reflexivity|discriminate].
Qed.

Lemma stage_finalize_spec st fl st' :
  Pipeline.stage_finalize st = (fl, st') ->
  Pipeline.grants st' = Pipeline.grants st
  /\ deadline (Pipeline.cur st') = deadline (Pipeline.cur st).
Proof.
  unfold Pipeline.stage_finalize.
  destruct (Amount.extract_amount _) as [[v c]|e]; intros [= <- <-]; cbn; auto.
Qed.

Lemma stage_dedup_spec st fl st' :
  Pipeline.stage_dedup st = (fl, st') ->
  Pipeline.grants st' = Pipeline.grants st
  \/ Pipeline.grants st' = Pipeline.grants st ++ [Pipeline.cur st].
Proof.
  unfold Pipeline.stage_dedup. intros [= <- <-].
  destruct (bool_decide _); cbn; auto.
Qed.

(** Whatever the tail of the loop body does, it either leaves the
    collection alone or appends one record whose deadline comes from a
    deadline text of the candidate that parsed to a date after the cutoff. *)
Lemma enrichment_tail_spec w a st fl st' :
  enrichment_tail w a st = (fl, st') ->
  deadline (Pipeline.cur st) = None ->
  Pipeline.grants st' = Pipeline.grants st
  \/ exists g s d,
       Pipeline.grants st' = Pipeline.grants st ++ [g]
       /\ deadline_text_of w a st s
       /\ Dates.parse_date (Pipeline.date_fallbacks w) s = Some d
       /\ Dates.date_ltb Pipeline.deadline_cutoff d = true
       /\ deadline g = Some (Dates.strftime_dby d)
       /\ deadline_after_cutoff g.
Proof.
  unfold enrichment_tail, Pipeline.then_. intros H Hnone.
  destruct (Pipeline.stage_detail w a st) as [fl1 st1] eqn:E1.
  destruct (stage_detail_spec _ _ _ _ _ E1 Hnone) as [G1 S1].
  destruct fl1 as [| |e1]; [| injection H as <- <-; left; exact G1 ..].
  specialize (S1 eq_refl).
  destruct (Pipeline.stage_listing_deadline w a st1) as [fl2 st2] eqn:E2.
  destruct (stage_listing_spec _ _ st _ _ _ E2 S1) as [G2 S2].
  destruct fl2 as [| |e2]; [| injection H as <- <-; left; congruence ..].
  specialize (S2 eq_refl).
  destruct (Pipeline.stage_checks st2) as [fl3 st3] eqn:E3.
  destruct (stage_checks_spec _ _ _ E3) as [G3 S3].
  destruct fl3 as [| |e3]; [| injection H as <- <-; left; congruence ..].
  destruct (S3 eq_refl) as [-> Hafter].
  destruct (Pipeline.stage_finalize st2) as [fl4 st4] eqn:E4.
  destruct (stage_finalize_spec _ _ _ E4) as [G4 D4].
  destruct fl4 as [| |e4]; [| injection H as <- <-; left; congruence ..].
  destruct (stage_dedup_spec _ _ _ H) as [G5 | G5]; [left; congruence|].
  right. destruct S2 as [Hn | (s & d & Hs & Hp & Hlt & Hd)].
  - destruct Hafter as (dl & Hdl & _). congruence.
  - exists (Pipeline.cur st4), s, d. repeat split; auto.
    + congruence.
    + congruence.
    + destruct Hafter as (dl & Hdl & Hden). exists dl. split; [congruence|exact Hden].
Qed.

(** C5.  A deadline text that parses to the cutoff date itself, or to an
    earlier date, is judged "not after"; one that does not parse is
    "unparsed".  From the detail page on, the loop body leaves the
    collection alone or appends one record, and then the record's deadline
    was drawn from a deadline text of the candidate that parsed to a date
    strictly after the cutoff, and the stored text read back is strictly
    after the cutoff as well.  So a candidate none of whose deadline texts
    parses to a date after the cutoff is never appended, and a collection
    whose deadlines all lie after the cutoff stays so. *)
Theorem deadline_strictly_after_cutoff :
  (forall w s,
      match Pipeline.judge w s with
      | Pipeline.After d =>
          Dates.parse_date (Pipeline.date_fallbacks w) s = Some d
          /\ Dates.date_ltb Pipeline.deadline_cutoff d = true
      | Pipeline.NotAfter d =>
          Dates.parse_date (Pipeline.date_fallbacks w) s = Some d
          /\ Dates.date_ltb Pipeline.deadline_cutoff d = false
      | Pipeline.Unparsed => Dates.parse_date (Pipeline.date_fallbacks w) s = None
      end)
  /\ Dates.date_ltb Pipeline.deadline_cutoff Pipeline.deadline_cutoff = false
  /\ (forall w a st fl st',
        enrichment_tail w a st = (fl, st') ->
        deadline (Pipeline.cur st) = None ->
        Pipeline.grants st' = Pipeline.grants st
        \/ exists g s d,
             Pipeline.grants st' = Pipeline.grants st ++ [g]
             /\ deadline_text_of w a st s
             /\ Dates.parse_date (Pipeline.date_fallbacks w) s = Some d
             /\ Dates.date_ltb Pipeline.deadline_cutoff d = true
             /\ deadline g = Some (Dates.strftime_dby d)
             /\ deadline_after_cutoff g)
  /\ (forall w a st,
        deadline (Pipeline.cur st) = None ->
        (forall s d, deadline_text_of w a st s ->
                     Dates.parse_date (Pipeline.date_fallbacks w) s = Some d ->
                     Dates.date_ltb Pipeline.deadline_cutoff d = false) ->
        Pipeline.grants (snd (enrichment_tail w a st)) = Pipeline.grants st)
  /\ (forall w a st,
        deadline (Pipeline.cur st) = None ->
        Forall deadline_after_cutoff (Pipeline.grants st) ->
        Forall deadline_after_cutoff (Pipeline.grants (snd (enrichment_tail w a st)))).
Proof.
  split; [exact judge_spec|]. split; [reflexivity|].
  split; [exact enrichment_tail_spec|]. split.
  - intros w a st Hnone Hrej.
    destruct (enrichment_tail w a st) as [fl st'] eqn:E.
    destruct (enrichment_tail_spec _ _ _ _ _ E Hnone)
      as [H | (g & s & d & _ & Hs & Hp & Hlt & _)]; [exact H|].
    rewrite (Hrej s d Hs Hp) in Hlt. discriminate.
  - intros w a st Hnone Hall.
    destruct (enrichment_tail w a st) as [fl st'] eqn:E.
    destruct (enrichment_tail_spec _ _ _ _ _ E Hnone)
      as [H | (g & s & d & H & _ & _ & _ & _ & Hg)]; cbn [snd]; rewrite H.
    + exact Hall.
    + apply Forall_app. split; [exact Hall|]. constructor; [exact Hg|constructor].
Qed.

Lemma deadline_strictly_after_cutoff_witness :
  Pipeline.grants (snd (enrichment_tail (page_with_deadline "2 April 2025")
                          plain_article titled_candidate)) = []
  /\ map deadline (Pipeline.grants (snd (enrichment_tail (page_with_deadline "3 April 2025")
                                           plain_article titled_candidate)))
     = [Some (txt "03-Apr-25")].
Proof.
  split.
  - apply (proj1 (proj2 (proj2 (proj2 deadline_strictly_after_cutoff)))
             (page_with_deadline "2 April 2025") plain_article titled_candidate).
    + reflexivity.
    + intros s d [(url & c & _ & Hc & Hs) | Hl] Hp.
      * injection Hc as <-. vm_compute in Hs. injection Hs as <-.
        vm_compute in Hp. injection Hp as <-. reflexivity.
      * vm_compute in Hl. discriminate Hl.
  - vm_compute. reflexivity.
Defined.

(** * Further properties *)

(** ** Whitespace runs *)

Lemma mt_rep fl greedy lo hi r cur cs k :
  Re.mt fl (Re.Rep greedy lo hi r) cur cs k
  = rep_loop greedy lo hi (Re.mt fl r) k (lo + S (length (Re.c_rest cur))) 0 cur cs.
Proof. reflexivity. Qed.

Lemma whitespace_pattern_eq :
  re_const "\s+" Re.no_flags
  = {| Re.p_re := Re.Rep true 1 None (Re.CSet false [Re.CSpace]);
       Re.p_groups := 0; Re.p_flags := Re.no_flags |}.
Proof. vm_compute. reflexivity. Qed.

Lemma mt_space cur cs k :
  Re.mt Re.no_flags (Re.CSet false [Re.CSpace]) cur cs k
  = match Re.c_rest cur with
    | x :: rest => if Py.is_space x then k (Re.advance x rest cur) cs else None
    | [] => None
    end.
Proof.
  cbn [Re.mt]. destruct (Re.c_rest cur) as [|x rest]; [reflexivity|].
  unfold Re.set_match. cbn [existsb Re.item_match Re.ignorecase Re.no_flags andb].
  rewrite !orb_false_r. reflexivity.
Qed.

Lemma after_run_rest rest : forall prev pos,
  Re.c_rest (after_run prev rest pos) = drop (run_len rest) rest.
Proof.
  induction rest as [|x r IH]; intros prev pos; cbn; [reflexivity|].
  destruct (Py.is_space x); [apply IH|reflexivity].
Qed.

Lemma after_run_pos rest : forall prev pos,
  Re.c_pos (after_run prev rest pos) = (pos + run_len rest)%nat.
Proof.
  induction rest as [|x r IH]; intros prev pos; cbn; [lia|].
  destruct (Py.is_space x); [rewrite IH; lia|cbn; lia].
Qed.

Lemma rep_space rest : forall prev pos fuel count cs,
  (length rest < fuel)%nat ->
  rep_loop true 1 None (Re.mt Re.no_flags (Re.CSet false [Re.CSpace]))
           (fun c cs' => Some (c, cs')) fuel count
           {| Re.c_prev := prev; Re.c_rest := rest; Re.c_pos := pos |} cs
  = if (1 <=? count + run_len rest)%nat
    then Some (after_run prev rest pos, cs)
    else None.
Proof.
  induction rest as [|x r IH]; intros prev pos fuel count cs Hf;
    (destruct fuel as [|fuel]; [cbn in Hf; lia|]);
    cbn [rep_loop Re.below]; rewrite mt_space; cbn [Re.c_rest run_len after_run].
  - rewrite Nat.add_0_r. reflexivity.
  - destruct (Py.is_space x) eqn:Ex.
    + unfold Re.advance. cbn [Re.c_pos].
      replace (pos <? S pos)%nat with true by (symmetry; apply Nat.ltb_lt; lia).
      rewrite orb_true_r. rewrite IH by (cbn in Hf; lia).
      replace (1 <=? S count + run_len r)%nat with true
        by (symmetry; apply Nat.leb_le; lia).
      replace (1 <=? count + S (run_len r))%nat with true
        by (symmetry; apply Nat.leb_le; lia).
      reflexivity.
    + rewrite Nat.add_0_r. reflexivity.
Qed.

Lemma match_at_space prev rest pos :
  Re.match_at ws_pat {| Re.c_prev := prev; Re.c_rest := rest; Re.c_pos := pos |}
  = if (1 <=? run_len rest)%nat
    then Some {| Re.m_start := pos; Re.m_end := pos + run_len rest;
                 Re.m_caps := []; Re.m_after := after_run prev rest pos |}
    else None.
Proof.
  unfold Re.match_at, ws_pat. cbn [Re.p_re Re.p_flags]. rewrite mt_rep.
  cbn [Re.c_rest]. rewrite rep_space by lia. cbn [Nat.add].
  destruct (1 <=? run_len rest)%nat; [|reflexivity].
  cbn [Re.c_pos]. rewrite after_run_pos. reflexivity.
Qed.

Lemma squeeze_true_drop s : squeeze true s = squeeze false (drop (run_len s) s).
Proof.
  induction s as [|c r IH]; cbn; [reflexivity|].
  destruct (Py.is_space c) eqn:E; cbn; [exact IH|].
  rewrite E. reflexivity.
Qed.

Lemma squeeze_false_run s :
  (1 <= run_len s)%nat ->
  squeeze false s = 32 :: squeeze false (drop (run_len s) s).
Proof.
  destruct s as [|c r]; cbn; [lia|].
  destruct (Py.is_space c); [|lia]. intros _. cbn.
  rewrite squeeze_true_drop. reflexivity.
Qed.

Lemma run_len_le s : (run_len s <= length s)%nat.
Proof.
  induction s as [|c l IH]; cbn; [lia|]. destruct (Py.is_space c); lia.
Qed.

Lemma sub_space_gen n : forall rest, (length rest <= n)%nat ->
  forall s pre pending prev fuel pos from,
  s = pre ++ pending ++ rest ->
  from = length pre ->
  pos = (length pre + length pending)%nat ->
  (length rest < fuel)%nat ->
  Re.sub_pieces s
    (Re.finditer_from fuel ws_pat
       {| Re.c_prev := prev; Re.c_rest := rest; Re.c_pos := pos |})
    (fun _ => [32]) from
  = pending ++ squeeze false rest.
Proof.
  induction n as [|n IH]; intros rest Hn s pre pending prev fuel pos from Hs Hfrom Hpos Hf.
  - destruct rest; [|cbn in Hn; lia].
    destruct fuel as [|fuel]; [lia|].
    cbn [Re.finditer_from]. unfold Re.search_cur. cbn [Re.c_prev Re.c_rest Re.c_pos].
    cbn [Re.search_rest]. rewrite match_at_space. cbn [run_len Nat.leb].
    cbn [Re.sub_pieces squeeze]. subst s from. rewrite drop_app_length. reflexivity.
  - destruct rest as [|x r].
    { eapply IH; eauto. cbn; lia. }
    destruct fuel as [|fuel]; [lia|].
    destruct (Py.is_space x) eqn:Ex.
    + cbn [Re.finditer_from]. unfold Re.search_cur.
      cbn [Re.c_prev Re.c_rest Re.c_pos]. cbn [Re.search_rest].
      rewrite match_at_space.
      assert (Hrun : (1 <= run_len (x :: r))%nat) by (cbn; rewrite Ex; lia).
      replace (1 <=? run_len (x :: r))%nat with true
        by (symmetry; apply Nat.leb_le; exact Hrun).
      cbn [Re.m_start Re.m_end Re.m_after].
      replace (pos <? pos + run_len (x :: r))%nat with true
        by (symmetry; apply Nat.ltb_lt; lia).
      cbn [Re.sub_pieces Re.m_start Re.m_end].
      pose proof (after_run_rest (x :: r) prev pos) as Hr.
      pose proof (after_run_pos (x :: r) prev pos) as Hp.
      destruct (after_run prev (x :: r) pos) as [p' r' q'].
      cbn [Re.c_rest Re.c_pos] in Hr, Hp. subst r' q'.
      pose proof (run_len_le (x :: r)) as Hlen.
      rewrite (squeeze_false_run (x :: r) Hrun).
      set (k := run_len (x :: r)) in *.
      rewrite (IH (drop k (x :: r)) ltac:(rewrite length_drop; cbn [length] in *; lia)
                  s (pre ++ pending ++ take k (x :: r)) [] p' fuel (pos + k)%nat
                  (pos + k)%nat).
      * subst s from pos. unfold Py.slice. rewrite drop_app_length.
        replace (length pre + length pending - length pre)%nat
          with (length pending) by lia.
        rewrite take_app_length. reflexivity.
      * subst s. cbn [app]. rewrite <- !app_assoc, take_drop. reflexivity.
      * rewrite !length_app, length_take. cbn [length] in *. lia.
      * rewrite !length_app, length_take. cbn [length] in *. lia.
      * rewrite length_drop. cbn [length] in *. lia.
    + assert (E : Re.finditer_from (S fuel) ws_pat
                    {| Re.c_prev := prev; Re.c_rest := x :: r; Re.c_pos := pos |}
                  = Re.finditer_from (S fuel) ws_pat
                    {| Re.c_prev := Some x; Re.c_rest := r; Re.c_pos := S pos |}).
      { cbn [Re.finditer_from]. unfold Re.search_cur.
        cbn [Re.c_prev Re.c_rest Re.c_pos]. cbn [Re.search_rest].
        rewrite match_at_space. cbn [run_len]. rewrite Ex. cbn [Nat.leb].
        reflexivity. }
      rewrite E.
      rewrite (IH r ltac:(cbn [length] in *; lia) s pre (pending ++ [x]) (Some x)
                  (S fuel) (S pos) from).
      * cbn [squeeze]. rewrite Ex. rewrite <- app_assoc. reflexivity.
      * subst s. rewrite <- (app_assoc pending). reflexivity.
      * exact Hfrom.
      * rewrite length_app. cbn [length]. lia.
      * cbn [length] in *. lia.
Qed.

Lemma sub_whitespace s :
  Re.sub (re_const "\s+" Re.no_flags) (Re.repl_const (txt " ")) s = squeeze false s.
Proof.
  rewrite whitespace_pattern_eq. unfold Re.sub, Re.finditer, Re.start_cursor.
  change (Re.repl_const (txt " ") s) with (fun _ : Re.mobj => [32]).
  apply (sub_space_gen (length s) s (le_n _) s [] [] None (S (length s)) 0%nat 0%nat); auto.
Qed.

(** ** clean_text *)

Lemma replace_char a b s :
  Py.replace a [b] s = map (fun c => if c =? a then b else c) s.
Proof.
  unfold Py.replace. induction s as [|c s IH]; cbn; [reflexivity|].
  rewrite IH. destruct (c =? a); reflexivity.
Qed.

Lemma plain_of_steps c :
  (fun c => if c =? 160 then 32 else c)
    ((fun c => if c =? 8212 then 45 else c)
       ((fun c => if c =? 8211 then 45 else c)
          ((fun c => if c =? 8221 then 34 else c)
             ((fun c => if c =? 8220 then 34 else c)
                ((fun c => if c =? 8216 then 39 else c)
                   ((fun c => if c =? 8217 then 39 else c) c))))))
  = plain_of c.
Proof.
  unfold plain_of. cbv beta.
  repeat (match goal with
          | |- context [?x =? ?k] =>
              is_var x; destruct (N.eqb_spec x k) as [->|?]; cbn
          end); reflexivity.
Qed.

(** [clean_text] is a character map followed by whitespace squeezing and
    stripping. *)
Lemma clean_text_eq t :
  clean_text t
  = match t with
    | [] => []
    | _ => Py.strip (squeeze false (map plain_of t))
    end.
Proof.
  unfold clean_text. destruct t as [|c t]; [reflexivity|].
  rewrite sub_whitespace. f_equal. f_equal.
  change (txt "'") with [39]. change (txt "-") with [45]. change (txt " ") with [32].
  rewrite !replace_char, !map_map.
  apply map_ext. intros a. apply plain_of_steps.
Qed.

Lemma lstrip_by_split p s :
  exists w, s = w ++ Py.lstrip_by p s /\ forallb p w = true.
Proof.
  induction s as [|c s (w & E & Hw)]; cbn.
  - exists []. split; reflexivity.
  - destruct (p c) eqn:Ec.
    + exists (c :: w). cbn. rewrite Ec, Hw. split; [f_equal; exact E|reflexivity].
    + exists []. split; reflexivity.
Qed.

Lemma lstrip_by_head p s c : head (Py.lstrip_by p s) = Some c -> p c = false.
Proof.
  induction s as [|x s IH]; cbn; [discriminate|].
  destruct (p x) eqn:Ex; [exact IH|]. cbn. intros [= <-]. exact Ex.
Qed.

Lemma lstrip_by_fixed p s :
  match head s with Some c => p c = false | None => True end ->
  Py.lstrip_by p s = s.
Proof. destruct s as [|x s]; cbn; [reflexivity|]. intros ->. reflexivity. Qed.

Lemma rstrip_by_split p s :
  exists w, s = Py.rstrip_by p s ++ w /\ forallb p w = true.
Proof.
  unfold Py.rstrip_by. destruct (lstrip_by_split p (rev s)) as (w & E & Hw).
  exists (rev w). split.
  - rewrite <- rev_app_distr, <- E, rev_involutive. reflexivity.
  - rewrite forallb_forall in Hw |- *. intros x Hx. apply Hw, in_rev, Hx.
Qed.

Lemma last_rev_head {A} (l : list A) : last (rev l) = head l.
Proof.
  destruct l as [|x l]; [reflexivity|]. cbn. rewrite last_snoc. reflexivity.
Qed.

Lemma head_rev_last {A} (l : list A) : head (rev l) = last l.
Proof. rewrite <- (rev_involutive l) at 2. rewrite last_rev_head. reflexivity. Qed.

Lemma rstrip_by_last p s c : last (Py.rstrip_by p s) = Some c -> p c = false.
Proof. unfold Py.rstrip_by. rewrite last_rev_head. apply lstrip_by_head. Qed.

Lemma rstrip_by_fixed p s :
  match last s with Some c => p c = false | None => True end ->
  Py.rstrip_by p s = s.
Proof.
  intros H. unfold Py.rstrip_by. rewrite lstrip_by_fixed, rev_involutive; [reflexivity|].
  rewrite head_rev_last. exact H.
Qed.

Lemma strip_by_head p s c : head (Py.strip_by p s) = Some c -> p c = false.
Proof.
  unfold Py.strip_by. destruct (rstrip_by_split p (Py.lstrip_by p s)) as (w & E & _).
  intros H. apply (lstrip_by_head p s). rewrite E.
  destruct (Py.rstrip_by p (Py.lstrip_by p s)); [discriminate|exact H].
Qed.

Lemma strip_by_last p s c : last (Py.strip_by p s) = Some c -> p c = false.
Proof. apply rstrip_by_last. Qed.

(** Stripping keeps an infix of the text. *)
Lemma strip_by_split p s :
  exists w1 w2, s = w1 ++ Py.strip_by p s ++ w2
                /\ forallb p w1 = true /\ forallb p w2 = true.
Proof.
  unfold Py.strip_by. destruct (lstrip_by_split p s) as (w1 & E1 & H1).
  destruct (rstrip_by_split p (Py.lstrip_by p s)) as (w2 & E2 & H2).
  exists w1, w2. split; [|split; assumption].
  rewrite <- E2. exact E1.
Qed.

Lemma strip_by_length p s : (length (Py.strip_by p s) <= length s)%nat.
Proof.
  destruct (strip_by_split p s) as (w1 & w2 & E & _).
  rewrite E at 2. rewrite !length_app. lia.
Qed.

Lemma strip_by_fixed p s :
  match head s with Some c => p c = false | None => True end ->
  match last s with Some c => p c = false | None => True end ->
  Py.strip_by p s = s.
Proof.
  intros H1 H2. unfold Py.strip_by. rewrite lstrip_by_fixed by exact H1.
  apply rstrip_by_fixed, H2.
Qed.

Lemma single_spaced_squeeze s : forall b, single_spaced b (squeeze b s) = true.
Proof.
  induction s as [|c s IH]; intros b; cbn; [reflexivity|].
  destruct (Py.is_space c) eqn:Ec.
  - destruct b; [apply IH|]. cbn. rewrite IH. reflexivity.
  - cbn. rewrite Ec. apply IH.
Qed.

Lemma single_spaced_false s b : single_spaced b s = true -> single_spaced false s = true.
Proof.
  destruct s as [|c s]; cbn; [reflexivity|].
  destruct (Py.is_space c); [|auto]. destruct b; cbn; [discriminate|auto].
Qed.

Lemma single_spaced_suffix w s : forall b,
  single_spaced b (w ++ s) = true -> single_spaced false s = true.
Proof.
  induction w as [|c w IH]; intros b; cbn [app]; [apply single_spaced_false|].
  cbn. destruct (Py.is_space c).
  - intros H. apply andb_prop in H as [_ H]. exact (IH _ H).
  - apply IH.
Qed.

Lemma single_spaced_prefix s w : forall b,
  single_spaced b (s ++ w) = true -> single_spaced b s = true.
Proof.
  induction s as [|c s IH]; intros b; cbn; [reflexivity|].
  destruct (Py.is_space c).
  - intros H. apply andb_prop in H as [H1 H]. rewrite H1. exact (IH _ H).
  - apply IH.
Qed.

Lemma single_spaced_fixed s : forall b, single_spaced b s = true -> squeeze b s = s.
Proof.
  induction s as [|c s IH]; intros b; cbn; [reflexivity|].
  destruct (Py.is_space c).
  - intros H. apply andb_prop in H as [H H3]. apply andb_prop in H as [H1 H2].
    destruct b; [discriminate|]. apply N.eqb_eq in H2. subst c.
    rewrite (IH _ H3). reflexivity.
  - intros H. rewrite (IH _ H). reflexivity.
Qed.

Lemma forallb_squeeze (P : cp -> bool) s : forall b,
  P 32 = true -> forallb P s = true -> forallb P (squeeze b s) = true.
Proof.
  induction s as [|c s IH]; intros b H32; cbn; [reflexivity|].
  intros H. apply andb_prop in H as [Hc Hs].
  destruct (Py.is_space c); [destruct b|]; cbn; rewrite ?H32, ?Hc; cbn; apply IH; auto.
Qed.

Lemma plain_of_plain c : Py.mem_cp typographic (plain_of c) = false.
Proof.
  unfold plain_of.
  repeat (match goal with
          | |- context [if ?x =? ?k then _ else _] =>
              destruct (N.eqb_spec x k) as [->|?]; [reflexivity|]
          end).
  unfold Py.mem_cp, typographic. cbn [existsb].
  repeat (match goal with
          | H : ?x <> ?k |- context [?x =? ?k] =>
              rewrite (proj2 (N.eqb_neq x k) H)
          end).
  reflexivity.
Qed.

Lemma plain_of_fixed c : Py.mem_cp typographic c = false -> plain_of c = c.
Proof.
  unfold Py.mem_cp, typographic, plain_of. cbn [existsb].
  intros H. repeat (apply orb_false_elim in H as [? H]).
  repeat (match goal with
          | E : (?x =? ?k) = false |- context [?x =? ?k] => rewrite E
          end).
  reflexivity.
Qed.

Lemma tidy_clean_text t : tidy (clean_text t) = true.
Proof.
  rewrite clean_text_eq. destruct t as [|c t]; [reflexivity|].
  set (v := squeeze false (map plain_of (c :: t))).
  unfold Py.strip.
  destruct (strip_by_split Py.is_space v) as (w1 & w2 & E & _).
  assert (Hv1 : forallb (fun c => negb (Py.mem_cp typographic c)) v = true).
  { apply forallb_squeeze; [reflexivity|].
    apply forallb_forall. intros x Hx. apply in_map_iff in Hx as (y & <- & _).
    rewrite plain_of_plain. reflexivity. }
  assert (Hv2 : single_spaced false v = true) by apply single_spaced_squeeze.
  set (u := Py.strip_by Py.is_space v) in *.
  unfold tidy. rewrite !andb_true_iff. repeat split.
  - rewrite E, !forallb_app, !andb_true_iff in Hv1. tauto.
  - rewrite E in Hv2. apply single_spaced_suffix in Hv2.
    apply single_spaced_prefix in Hv2. exact Hv2.
  - destruct (head u) as [x|] eqn:Eh; [|reflexivity]. cbn.
    rewrite (strip_by_head _ _ _ Eh). reflexivity.
  - destruct (last u) as [x|] eqn:El; [|reflexivity]. cbn.
    rewrite (strip_by_last _ _ _ El). reflexivity.
Qed.

Lemma clean_text_tidy t : tidy t = true -> clean_text t = t.
Proof.
  intros H. rewrite clean_text_eq. destruct t as [|c t]; [reflexivity|].
  unfold tidy in H. rewrite !andb_true_iff in H. destruct H as [[[H1 H2] H3] H4].
  assert (E1 : map plain_of (c :: t) = c :: t).
  { rewrite <- (map_id (c :: t)) at 2. apply map_ext_in. intros x Hx.
    rewrite forallb_forall in H1. specialize (H1 x Hx).
    apply plain_of_fixed. destruct (Py.mem_cp typographic x); [discriminate|reflexivity]. }
  rewrite E1, (single_spaced_fixed _ _ H2).
  apply strip_by_fixed.
  - destruct (head (c :: t)) as [x|]; [|exact I]. cbn in H3.
    destruct (Py.is_space x); [discriminate|reflexivity].
  - destruct (last (c :: t)) as [x|]; [|exact I]. cbn in H4.
    destruct (Py.is_space x); [discriminate|reflexivity].
Qed.

Lemma plain_of_space c : Py.is_space c = true -> Py.is_space (plain_of c) = true.
Proof.
  intros H. unfold plain_of.
  repeat (match goal with
          | |- context [if ?x =? ?k then _ else _] =>
              destruct (N.eqb_spec x k) as [->|?]; [try discriminate H; reflexivity|]
          end).
  exact H.
Qed.

Lemma squeeze_spaces s : forall b,
  forallb Py.is_space s = true -> squeeze b s = if b then [] else match s with [] => [] | _ => [32] end.
Proof.
  induction s as [|c s IH]; intros b; cbn; [destruct b; reflexivity|].
  intros H. apply andb_prop in H as [Hc Hs]. rewrite Hc.
  rewrite (IH true Hs). destruct b; reflexivity.
Qed.

(** X1.  [clean_text] produces a tidy text (none of the typographic
    quotes, dashes and no-break spaces it replaces; whitespace only as
    single U+0020 between other characters, none at either end), leaves a
    tidy text as it is, and is therefore idempotent; a text of whitespace
    only becomes the empty text. *)
Theorem clean_text_normal_form (t : text) :
  tidy (clean_text t) = true
  /\ (tidy t = true -> clean_text t = t)
  /\ clean_text (clean_text t) = clean_text t
  /\ (forallb Py.is_space t = true -> clean_text t = []).
Proof.
  split; [apply tidy_clean_text|]. split; [apply clean_text_tidy|]. split.
  - apply clean_text_tidy, tidy_clean_text.
  - intros H. rewrite clean_text_eq. destruct t as [|c t]; [reflexivity|].
    rewrite squeeze_spaces.
    + reflexivity.
    + apply forallb_forall. intros x Hx. apply in_map_iff in Hx as (y & <- & Hy).
      rewrite forallb_forall in H. apply plain_of_space, H, Hy.
Qed.

Lemma clean_text_normal_form_witness :
  clean_text (txt "Grants for NGOs") = txt "Grants for NGOs"
  /\ clean_text (txt "   ") = [].
Proof.
  split.
  - apply (proj1 (proj2 (clean_text_normal_form (txt "Grants for NGOs")))).
    vm_compute. reflexivity.
  - apply (proj2 (proj2 (proj2 (clean_text_normal_form (txt "   "))))).
    vm_compute. reflexivity.
Defined.

(** ** Lengths of the description and of the eligibility summary *)

Lemma strip_length s : (length (Py.strip s) <= length s)%nat.
Proof. apply strip_by_length. Qed.

(** X2.  The final description (line 650) has at most 503 characters: it
    is the stripped text when the cleaned description has at most 500
    characters, and otherwise the stripped first 500 characters followed by
    "...".  Whatever [extract_amount] then does, that text is the record's
    description. *)
Theorem final_description_bounds (cleaned : text) :
  (length (Pipeline.final_description cleaned) <= 503)%nat
  /\ ((length cleaned <= 500)%nat ->
      Pipeline.final_description cleaned = Py.strip cleaned)
  /\ ((500 < length cleaned)%nat ->
      Pipeline.final_description cleaned = Py.strip (take 500 cleaned) ++ txt "...")
  /\ (forall st,
        Pipeline.cleaned_description st = cleaned ->
        description (Pipeline.cur (snd (Pipeline.stage_finalize st)))
        = Some (Pipeline.final_description cleaned)).
Proof.
  unfold Pipeline.final_description. repeat split.
  - rewrite length_app. pose proof (strip_length (take 500 cleaned)) as H.
    rewrite length_take in H.
    destruct (500 <? length cleaned)%nat; cbn [length]; change (length (txt "...")) with 3%nat; lia.
  - intros H. rewrite take_ge by exact H.
    destruct (500 <? length cleaned)%nat eqn:E; [apply Nat.ltb_lt in E; lia|].
    apply app_nil_r.
  - intros H. apply Nat.ltb_lt in H. rewrite H. reflexivity.
  - intros st <-. unfold Pipeline.stage_finalize, Pipeline.final_description.
    destruct (Amount.extract_amount _) as [[v c]|e]; reflexivity.
Qed.

Lemma final_description_bounds_witness :
  Pipeline.final_description (txt "  Support for local projects. ")
  = txt "Support for local projects.".
Proof.
  rewrite (proj1 (proj2 (final_description_bounds _))).
  - vm_compute. reflexivity.
  - vm_compute. lia.
Defined.

(** X3.  The eligibility summary is never empty and has at most 303
    characters; a bounded segment of 6 to 300 characters is the summary as
    it is. *)
Theorem eligibility_summary_length (full : text) :
  (3 <= length (Eligibility.eligibility_summary full) <= 303)%nat
  /\ (forall seg,
        Eligibility.eligibility_segment full = Some seg ->
        (5 < length seg <= 300)%nat ->
        Eligibility.eligibility_summary full = seg).
Proof.
  unfold Eligibility.eligibility_summary. split.
  - destruct (Eligibility.eligibility_segment full) as [seg|];
      [|change (length Eligibility.sentinel) with 23%nat; lia].
    unfold Eligibility.summarize_segment, Eligibility.max_len.
    assert (Hcut : (3 <= length (Py.strip (take 300 seg) ++ txt "...") <= 303)%nat).
    { rewrite length_app. change (length (txt "...")) with 3%nat.
      pose proof (strip_length (take 300 seg)) as H. rewrite length_take in H. lia. }
    destruct (300 <? length seg)%nat eqn:E1.
    + apply Nat.ltb_lt in E1.
      destruct (Py.rfind 46 seg 300) as [c|] eqn:Er; [|exact Hcut].
      destruct (300 <? 2 * c)%nat eqn:E2; [|exact Hcut].
      apply Nat.ltb_lt in E2. destruct (rfind_spec _ _ _ _ Er) as (Hlt & _).
      rewrite length_take. lia.
    + apply Nat.ltb_ge in E1.
      destruct (5 <? length seg)%nat eqn:E2.
      * apply Nat.ltb_lt in E2. lia.
      * change (length Eligibility.sentinel) with 23%nat. lia.
  - intros seg -> [H1 H2]. unfold Eligibility.summarize_segment, Eligibility.max_len.
    destruct (300 <? length seg)%nat eqn:E1; [apply Nat.ltb_lt in E1; lia|].
    destruct (5 <? length seg)%nat eqn:E2; [reflexivity|apply Nat.ltb_ge in E2; lia].
Qed.

Lemma eligibility_summary_length_witness :
  Eligibility.eligibility_summary
    (txt "Intro. Eligibility: Registered NGOs in Kenya. Benefits: x")
  = txt "Registered NGOs in Kenya".
Proof.
  apply (proj2 (eligibility_summary_length _)).
  - vm_compute. reflexivity.
  - vm_compute. lia.
Defined.

(** ** The stored deadline, read back *)

Lemma strptime_compiled s fmt :
  Dates.strptime s fmt
  = match compile_format fmt with
    | Some (p, keys) => strptime_with p keys s
    | None => None
    end.
Proof.
  unfold Dates.strptime, compile_format, strptime_with.
  destruct (Dates.format_pattern (txt fmt) false) as [[src keys]|]; [|reflexivity].
  destruct (Re.compile src Re.IGNORECASE) as [p|]; reflexivity.
Qed.

Lemma compile_format_dby : compile_format "%d-%b-%y" = dby_compiled.
Proof. vm_compute. reflexivity. Qed.

Lemma window_dates_read_back : forallb reads_back window_dates = true.
Proof. vm_compute. reflexivity. Qed.

Lemma in_zrange lo n z : (lo <= z < lo + Z.of_nat n)%Z -> In z (zrange lo n).
Proof.
  intros H. unfold zrange. apply in_map_iff. exists (Z.to_nat (z - lo)).
  split; [lia|]. apply in_seq. lia.
Qed.

Lemma in_window_dates d :
  Dates.valid_date d = true ->
  (1969 <= Dates.year d <= 2068)%Z ->
  In d window_dates.
Proof.
  destruct d as [y m dd]. unfold Dates.valid_date. cbn [Dates.year Dates.month Dates.day].
  rewrite !andb_true_iff, !Z.leb_le. intros (((((_ & _) & Hm1) & Hm2) & Hd1) & Hd2) Hy.
  assert (Hd3 : (dd <= 31)%Z).
  { unfold Dates.days_in_month in Hd2.
    destruct (m =? 2)%Z; [destruct (Dates.is_leap y)|destruct (_ || _)]; lia. }
  unfold window_dates. apply in_flat_map. exists y. split; [apply in_zrange; lia|].
  apply in_flat_map. exists m. split; [apply in_zrange; lia|].
  apply in_map_iff. exists dd. split; [reflexivity|apply in_zrange; lia].
Qed.

Lemma strptime_in_window d :
  Dates.valid_date d = true ->
  (1969 <= Dates.year d <= 2068)%Z ->
  Dates.strptime (Dates.strftime_dby d) "%d-%b-%y" = Some d.
Proof.
  intros Hv Hy. rewrite strptime_compiled, compile_format_dby.
  pose proof window_dates_read_back as H. rewrite forallb_forall in H.
  specialize (H d (in_window_dates d Hv Hy)). unfold reads_back in H.
  rewrite Hv in H. cbn [negb orb] in H.
  destruct dby_compiled as [[p keys]|]; [|discriminate].
  apply bool_decide_eq_true in H. exact H.
Qed.

Lemma read_back_year_mod y : (read_back_year y mod 100 = y mod 100)%Z.
Proof.
  unfold read_back_year. pose proof (Z.mod_pos_bound y 100 ltac:(lia)) as H.
  destruct (y mod 100 <=? 68)%Z.
  - replace (2000 + y mod 100)%Z with (y mod 100 + 20 * 100)%Z by lia.
    rewrite Z.mod_add by lia. apply Z.mod_small; lia.
  - replace (1900 + y mod 100)%Z with (y mod 100 + 19 * 100)%Z by lia.
    rewrite Z.mod_add by lia. apply Z.mod_small; lia.
Qed.

Lemma read_back_year_window y : (1969 <= read_back_year y <= 2068)%Z.
Proof.
  unfold read_back_year. pose proof (Z.mod_pos_bound y 100 ltac:(lia)) as H.
  destruct (y mod 100 <=? 68)%Z eqn:E; [apply Z.leb_le in E|apply Z.leb_gt in E]; lia.
Qed.

Lemma read_back_year_fixed y : (read_back_year y = y <-> 1969 <= y <= 2068)%Z.
Proof.
  split.
  - intros <-. apply read_back_year_window.
  - intros H. unfold read_back_year.
    destruct (y mod 100 <=? 68)%Z eqn:E; [apply Z.leb_le in E|apply Z.leb_gt in E];
      Z.div_mod_to_equations; lia.
Qed.

Lemma is_leap_read_back y :
  Dates.is_leap y = true -> Dates.is_leap (read_back_year y) = true.
Proof.
  unfold Dates.is_leap. rewrite !andb_true_iff, !orb_true_iff, !negb_true_iff,
    !Z.eqb_eq, !Z.eqb_neq.
  rewrite read_back_year_mod. unfold read_back_year.
  destruct (y mod 100 <=? 68)%Z eqn:E; [apply Z.leb_le in E|apply Z.leb_gt in E];
    intros [H4 H]; (split; [|destruct H as [H|H]; [left; exact H|]]);
    Z.div_mod_to_equations; lia.
Qed.

Lemma valid_read_back d :
  Dates.valid_date d = true -> Dates.valid_date (read_back d) = true.
Proof.
  destruct d as [y m dd]. unfold Dates.valid_date, read_back.
  cbn [Dates.year Dates.month Dates.day].
  rewrite !andb_true_iff, !Z.leb_le. intros (((((_ & _) & Hm1) & Hm2) & Hd1) & Hd2).
  pose proof (read_back_year_window y) as Hw.
  repeat split; try lia.
  unfold Dates.days_in_month in *.
  destruct (m =? 2)%Z; [|exact Hd2].
  destruct (Dates.is_leap y) eqn:El.
  - rewrite (is_leap_read_back y El). exact Hd2.
  - destruct (Dates.is_leap (read_back_year y)); lia.
Qed.

Lemma strftime_read_back d : Dates.strftime_dby (read_back d) = Dates.strftime_dby d.
Proof.
  unfold Dates.strftime_dby, read_back. cbn [Dates.year Dates.month Dates.day].
  rewrite read_back_year_mod. reflexivity.
Qed.

Lemma strptime_in_window_any d :
  Dates.valid_date d = true ->
  Dates.strptime (Dates.strftime_dby d) "%d-%b-%y" = Some (read_back d).
Proof.
  intros Hv. rewrite <- strftime_read_back.
  apply strptime_in_window; [apply valid_read_back, Hv|].
  apply read_back_year_window.
Qed.

(** X4.  A calendar date written with "%d-%b-%y" (line 601) and read with
    the same format (line 642) comes back with its day and month and with
    the year that has the same last two digits in 1969-2068; so it comes
    back as itself exactly when its year lies in 1969-2068. *)
Theorem stored_deadline_reads_back (d : Dates.date) :
  Dates.valid_date d = true ->
  Dates.strptime (Dates.strftime_dby d) "%d-%b-%y" = Some (read_back d)
  /\ (read_back d = d <-> (1969 <= Dates.year d <= 2068)%Z).
Proof.
  intros Hv. split.
  - apply strptime_in_window_any, Hv.
  - destruct d as [y m dd]. unfold read_back. cbn [Dates.year Dates.month Dates.day].
    rewrite <- read_back_year_fixed. split; [intros [= E]; exact E|intros ->; reflexivity].
Qed.

Lemma stored_deadline_reads_back_witness :
  Dates.strptime (Dates.strftime_dby (Dates.mkdate 2069 1 15)) "%d-%b-%y"
  = Some (Dates.mkdate 1969 1 15).
Proof.
  apply (proj1 (stored_deadline_reads_back (Dates.mkdate 2069 1 15) eq_refl)).
Defined.

Lemma read_back_year_far y : (2069 <= y <= 2124)%Z -> read_back_year y = (y - 100)%Z.
Proof.
  intros H. unfold read_back_year.
  destruct (y mod 100 <=? 68)%Z eqn:E; [apply Z.leb_le in E|apply Z.leb_gt in E];
    Z.div_mod_to_equations; lia.
Qed.

(** X5.  The format validation of lines 640-647 judges the date read back
    from the stored deadline, not the date that was parsed: a deadline in
    the years 2069-2124, which is after the cutoff, is read back a century
    earlier and the candidate is skipped there. *)
Theorem far_deadline_fails_validation (st : Pipeline.state) (d : Dates.date) :
  Dates.valid_date d = true ->
  deadline (Pipeline.cur st) = Some (Dates.strftime_dby d) ->
  truthy (title (Pipeline.cur st)) = true ->
  truthy (applicationUrl (Pipeline.cur st)) = true ->
  Pipeline.stage_checks st
  = (if Dates.date_leb (read_back d) Pipeline.deadline_cutoff
     then Pipeline.Continue else Pipeline.Next, st)
  /\ ((2069 <= Dates.year d <= 2124)%Z ->
      Dates.date_ltb Pipeline.deadline_cutoff d = true
      /\ Pipeline.stage_checks st = (Pipeline.Continue, st)).
Proof.
  intros Hv Hd Ht Hu.
  assert (E : Pipeline.stage_checks st
              = (if Dates.date_leb (read_back d) Pipeline.deadline_cutoff
                 then Pipeline.Continue else Pipeline.Next, st)).
  { unfold Pipeline.stage_checks. rewrite Hd, Ht, Hu.
    assert (Hne : truthy (Some (Dates.strftime_dby d)) = true) by reflexivity.
    rewrite Hne. cbn [andb negb].
    rewrite strptime_in_window_any by exact Hv.
    destruct (Dates.date_leb _ _); reflexivity. }
  split; [exact E|]. intros Hy. rewrite E.
  destruct d as [y m dd]. unfold read_back, Dates.date_leb, Dates.date_ltb,
    Pipeline.deadline_cutoff. cbn [Dates.year Dates.month Dates.day] in *.
  rewrite (read_back_year_far y Hy).
  replace (2025 <? y)%Z with true by (symmetry; apply Z.ltb_lt; lia).
  replace (y - 100 <? 2025)%Z with true by (symmetry; apply Z.ltb_lt; lia).
  split; reflexivity.
Qed.

Lemma far_deadline_fails_validation_witness :
  Dates.date_ltb Pipeline.deadline_cutoff (Dates.mkdate 2070 6 30) = true
  /\ Pipeline.stage_checks candidate_2070 = (Pipeline.Continue, candidate_2070).
Proof.
  apply (proj2 (far_deadline_fails_validation candidate_2070 (Dates.mkdate 2070 6 30)
                  eq_refl eq_refl eq_refl eq_refl)).
  cbn. lia.
Defined.

(** ** extract_amount: the range matcher, multipliers, the choice among
    single amounts *)

Lemma standard_stage_eq t :
  Amount.standard_stage Re.compile (re_const Amount.standard_range_src Re.IGNORECASE) t
  = match Re.search (re_const Amount.standard_range_src Re.IGNORECASE) t with
    | Some _ => Raise ValueError
    | None => Return None
    end.
Proof.
  unfold Amount.standard_stage, Re.groups.
  destruct (Re.search _ t) as [m|]; [|reflexivity].
  rewrite groups_standard_range. reflexivity.
Qed.

(** X6.  The standard-range matcher never yields an amount: whenever its
    pattern matches, unpacking its six groups into seven names raises
    [ValueError].  So on every text where the mangled-range pattern finds
    nothing and the standard-range pattern finds something,
    [extract_amount] raises, and the candidate is skipped at line 653. *)
Theorem standard_range_never_answers (t : text) :
  Amount.standard_stage Re.compile (re_const Amount.standard_range_src Re.IGNORECASE) t
  = match Re.search (re_const Amount.standard_range_src Re.IGNORECASE) t with
    | Some _ => Raise ValueError
    | None => Return None
    end
  /\ (Re.search (re_const Amount.mangled_range_src Re.no_flags) t = None ->
      Re.search (re_const Amount.standard_range_src Re.IGNORECASE) t <> None ->
      Amount.extract_amount t = Raise ValueError
      /\ forall st, Pipeline.full_description_text st = t ->
           fst (Pipeline.stage_finalize st) = Pipeline.Exc ValueError
           /\ Pipeline.grants (snd (Pipeline.stage_finalize st)) = Pipeline.grants st).
Proof.
  split; [apply standard_stage_eq|]. intros Hm Hs.
  assert (E : Amount.extract_amount t = Raise ValueError).
  { rewrite extract_amount_unfold. unfold Amount.or_else at 1.
    unfold Amount.mangled_stage. rewrite Hm. cbn [bind].
    unfold Amount.or_else at 1. rewrite standard_stage_eq.
    destruct (Re.search (re_const Amount.standard_range_src Re.IGNORECASE) t);
      [reflexivity|contradiction]. }
  split; [exact E|]. intros st <-. unfold Pipeline.stage_finalize. rewrite E.
  split; reflexivity.
Qed.

Lemma standard_range_never_answers_witness :
  Amount.extract_amount (txt "5 to 10 organisations, grant of $500") = Raise ValueError.
Proof.
  apply (proj2 (standard_range_never_answers _)).
  - vm_compute. reflexivity.
  - vm_compute. discriminate.
Defined.

Lemma space_not_upper c : Py.is_space c = true -> Py.is_upper c = false.
Proof.
  unfold Py.is_space, Py.is_upper, Py.in_range.
  rewrite !orb_true_iff, !andb_true_iff, !N.leb_le, !N.eqb_eq. intros H.
  apply andb_false_iff. rewrite !N.leb_gt. lia.
Qed.

Lemma multiplier_of_spaced m :
  opt_space (head m) = true -> Amount.multiplier_of (Some m) = 1%Z.
Proof.
  destruct m as [|c r]; [discriminate|]. cbn [head opt_space]. intros Hc.
  unfold Amount.multiplier_of. cbn [truthy].
  change (Py.lower (default [] (Some (c :: r)))) with (Py.to_lower c :: Py.lower r).
  unfold Py.to_lower at 1 2 3. rewrite (space_not_upper c Hc).
  assert (H1 : forall k r0 r', Py.is_space k = false -> text_eqb (c :: r0) (k :: r') = false).
  { intros k r0 r' Hk. cbn [text_eqb]. destruct (N.eqb_spec c k) as [->|]; [congruence|reflexivity]. }
  change (txt "k") with [107]. change (txt "thousand") with (116 :: txt "housand").
  change (txt "million") with (109 :: txt "illion").
  rewrite !H1 by reflexivity. reflexivity.
Qed.

(** X7.  A multiplier that is captured together with the whitespace before
    it is none of "k", "thousand", "million" (lines 87-89) and does not
    scale the number.  The up-to pattern captures it that way, the
    single-amount patterns do not: "up to $5 million" gives "$5", "up to
    $5million" gives "$5000000", "grant of $5 million" gives 5000000. *)
Theorem spaced_multiplier_is_ignored :
  (forall m, opt_space (head m) = true -> Amount.multiplier_of (Some m) = 1%Z)
  /\ (forall compile num m,
        opt_space (head m) = true ->
        Amount.clean_and_convert compile num (Some m)
        = Amount.clean_and_convert compile num None)
  /\ Amount.extract_amount (txt "up to $5 million") = Return (VStr (txt "$5"), None)
  /\ Amount.extract_amount (txt "up to $5million") = Return (VStr (txt "$5000000"), None)
  /\ Amount.extract_amount (txt "maximum of 10 thousand USD")
     = Return (VStr (txt "USD10"), None)
  /\ Amount.extract_amount (txt "grant of $5 million")
     = Return (VInt 5000000, Some (txt "$")).
Proof.
  split; [exact multiplier_of_spaced|]. split.
  - intros compile num m Hm. unfold Amount.clean_and_convert.
    rewrite (multiplier_of_spaced m Hm). reflexivity.
  - repeat split; vm_compute; reflexivity.
Qed.

Lemma spaced_multiplier_is_ignored_witness :
  Amount.clean_and_convert Re.compile (Some (txt "5")) (Some (txt " million"))
  = Return (Some 5%Z).
Proof.
  eapply eq_trans.
  - apply (proj1 (proj2 spaced_multiplier_is_ignored)). reflexivity.
  - vm_compute. reflexivity.
Defined.

Lemma sort_desc_first_largest l :
  l <> [] -> exists x rest, Amount.sort_desc l = x :: rest /\ first_largest x l.
Proof.
  induction l as [|a l IH]; [congruence|]. intros _.
  destruct l as [|b l].
  - exists a, []. split; [reflexivity|]. exists [], []. repeat split; constructor.
  - destruct (IH ltac:(discriminate)) as (x & rest & Es & l1 & l2 & El & H1 & H2).
    change (Amount.sort_desc (a :: b :: l))
      with (Amount.insert_desc a (Amount.sort_desc (b :: l))).
    rewrite Es. cbn [Amount.insert_desc]. fold (cand_value x) (cand_value a).
    destruct (cand_value x >? cand_value a)%Z eqn:E.
    + exists x, (Amount.insert_desc a rest). split; [reflexivity|].
      exists (a :: l1), l2. rewrite El. repeat split; [|exact H2].
      constructor; [lia|exact H1].
    + exists a, (x :: rest). split; [reflexivity|].
      exists [], (b :: l). split; [reflexivity|]. split; [constructor|].
      rewrite El. apply Forall_app. split; [|constructor].
      * eapply List.Forall_impl; [|exact H1]. cbn. intros; lia.
      * lia.
      * eapply List.Forall_impl; [|exact H2]. cbn. intros; lia.
Qed.

Lemma insert_desc_perm x l : Permutation (Amount.insert_desc x l) (x :: l).
Proof.
  induction l as [|y l IH]; cbn; [reflexivity|].
  destruct (_ >? _)%Z; [|reflexivity].
  rewrite IH. apply perm_swap.
Qed.

Lemma sort_desc_perm l : Permutation (Amount.sort_desc l) l.
Proof.
  induction l as [|x l IH]; cbn; [reflexivity|].
  rewrite insert_desc_perm, IH. reflexivity.
Qed.

(** X8.  The single-amount branch answers the value and the currency of
    the first candidate of the pool that has the largest value: among equal
    values the order of the pool decides (matches of the keyword pattern,
    then of the currency-code pattern, then of the symbol pattern, each in
    text order).  The sort only permutes the pool. *)
Theorem single_amount_takes_first_largest :
  (forall l, Permutation (Amount.sort_desc l) l)
  /\ (forall l, l <> [] ->
        exists x rest, Amount.sort_desc l = x :: rest /\ first_largest x l)
  /\ (forall compile s c sy t pm,
        Amount.potential_matches compile s c sy t = Return pm ->
        pm <> [] ->
        exists x,
          first_largest x pm
          /\ Amount.single_stage compile s c sy t
             = Return (Some (VInt (cand_value x), cand_currency x)))
  /\ Amount.extract_amount (txt "grant of 5,000 EUR, or $5,000")
     = Return (VInt 5000, Some (txt "EUR")).
Proof.
  split; [exact sort_desc_perm|]. split; [exact sort_desc_first_largest|]. split.
  - intros compile s c sy t pm Hpm Hne. unfold Amount.single_stage. rewrite Hpm.
    cbn [bind]. destruct (sort_desc_first_largest pm Hne) as (x & rest & Es & Hx).
    exists x. split; [exact Hx|]. rewrite Es. destruct x as [[v cur] matched].
    reflexivity.
  - vm_compute. reflexivity.
Qed.

Lemma single_amount_takes_first_largest_witness :
  exists x rest,
    Amount.sort_desc [(5000%Z, Some (txt "EUR"), txt "grant of 5,000 EUR");
                      (5000%Z, Some (txt "$"), txt "$5,000")] = x :: rest
    /\ first_largest x [(5000%Z, Some (txt "EUR"), txt "grant of 5,000 EUR");
                        (5000%Z, Some (txt "$"), txt "$5,000")].
Proof.
  apply (proj1 (proj2 single_amount_takes_first_largest)). discriminate.
Defined.

(** ** extract_amount: the forms of its answers *)

Lemma binary_round_aux_sign mx ex lx :
  sign_ok (binary_round_aux Flt.prec Flt.emax false mx ex lx).
Proof.
  unfold binary_round_aux.
  destruct (shr_fexp _ _ mx ex lx) as [mrs' e'].
  destruct (shr_fexp _ _ _ e' loc_Exact) as [mrs'' e''].
  destruct (shr_m mrs''); cbn; auto. destruct (_ <=? _)%Z; cbn; auto.
Qed.

Lemma of_ratio_sign n d : sign_ok (Flt.of_ratio n d).
Proof.
  unfold Flt.of_ratio. destruct n as [|p]; [exact I|].
  unfold SFdiv. destruct (SFdiv_core_binary _ _ _ _ _ _) as [[mz ez] lz].
  apply binary_round_aux_sign.
Qed.

Lemma of_Z_sign z : (0 <= z)%Z -> sign_ok (Flt.of_Z z).
Proof.
  unfold Flt.of_Z, binary_normalize. destruct z as [|p|p]; [intros; exact I| |lia].
  intros _. unfold binary_round. destruct (shl_align _ _ _) as [mz ez].
  apply binary_round_aux_sign.
Qed.

Lemma mul_sign x y : sign_ok x -> sign_ok y -> sign_ok (Flt.mul x y).
Proof.
  unfold Flt.mul, SFmul.
  destruct x as [sx|sx| |sx mx ex], y as [sy|sy| |sy my ey]; cbn; auto.
  intros -> ->. apply binary_round_aux_sign.
Qed.

Lemma to_int_nonneg f z : sign_ok f -> Flt.to_int f = Return z -> (0 <= z)%Z.
Proof.
  destruct f as [s|s| |s m e]; cbn; try discriminate.
  - intros _ [= <-]. lia.
  - intros -> [= <-]. apply Z.shiftl_nonneg. lia.
Qed.

Lemma py_float_sign s f : Flt.py_float s = Some f -> sign_ok f.
Proof.
  unfold Flt.py_float. destruct (Py.split 46 s) as [|ip [|fp [|? ?]]]; try discriminate.
  - destruct (Py.isdigit ip); [|discriminate]. intros [= <-]. apply of_ratio_sign.
  - destruct (_ && _); [|discriminate]. intros [= <-]. apply of_ratio_sign.
Qed.

Lemma multiplier_of_nonneg m : (0 <= Amount.multiplier_of m)%Z.
Proof.
  unfold Amount.multiplier_of. destruct (truthy m); [|lia].
  destruct (_ || _); [lia|]. destruct (text_eqb _ _); lia.
Qed.

Lemma clean_and_convert_nonneg compile num mult v :
  Amount.clean_and_convert compile num mult = Return (Some v) -> (0 <= v)%Z.
Proof.
  unfold Amount.clean_and_convert, Amount.compile_or_raise.
  destruct num as [num|]; [|discriminate].
  destruct (compile _ _) as [p|]; [|discriminate]. cbn [bind].
  destruct (Flt.py_float _) as [value|] eqn:Ef; [|discriminate].
  destruct (Flt.to_int _) as [n|e] eqn:Ei.
  - intros [= <-]. eapply to_int_nonneg; [|exact Ei].
    apply mul_sign; [eapply py_float_sign, Ef|apply of_Z_sign, multiplier_of_nonneg].
  - destruct e; discriminate.
Qed.

Lemma digits_fuel_digits fuel : forall n acc,
  forallb Py.is_digit acc = true ->
  forallb Py.is_digit (Py.digits_fuel fuel n acc) = true.
Proof.
  induction fuel as [|f IH]; intros n acc H; cbn [Py.digits_fuel]; [exact H|].
  assert (Hd : forallb Py.is_digit ((48 + n mod 10) :: acc) = true).
  { cbn [forallb]. rewrite H, andb_true_r.
    unfold Py.is_digit, Py.in_range.
    pose proof (N.mod_upper_bound n 10 ltac:(discriminate)) as Hm.
    apply andb_true_iff. rewrite !N.leb_le.
    revert Hm. generalize (n mod 10). intros k Hk. lia. }
  destruct (n <? 10); [exact Hd|apply IH, Hd].
Qed.

Lemma digits_fuel_nonempty fuel n acc :
  (fuel <> 0)%nat \/ acc <> [] -> Py.digits_fuel fuel n acc <> [].
Proof.
  revert n acc. induction fuel as [|f IH]; intros n acc H; cbn [Py.digits_fuel].
  - destruct H; [contradiction|assumption].
  - destruct (n <? 10); [discriminate|]. apply IH. right. discriminate.
Qed.

Lemma str_of_Z_number z : (0 <= z)%Z -> Py.isdigit (Py.str_of_Z z) = true.
Proof.
  intros Hz. unfold Py.str_of_Z. destruct z as [|p|p]; [| |lia].
  - reflexivity.
  - unfold Py.str_of_N, Py.isdigit.
    pose proof (digits_fuel_nonempty (S (N.to_nat (N.log2 (Z.to_N (Z.pos p)))))
                  (Z.to_N (Z.pos p)) [] ltac:(left; discriminate)) as Hne.
    destruct (Py.digits_fuel _ _ _) eqn:E; [contradiction|].
    rewrite <- E. apply digits_fuel_digits. reflexivity.
Qed.

Lemma mangled_stage_shape compile p t v c :
  Amount.mangled_stage compile p t = Return (Some (v, c)) ->
  c = None /\ exists z, v = VStr (txt "$" ++ Py.str_of_Z z) /\ (0 <= z)%Z.
Proof.
  unfold Amount.mangled_stage. destruct (Re.search p t) as [m|]; [|discriminate].
  destruct (Amount.unpack2 _) as [[n1 n2]|e]; [|discriminate]. cbn [bind].
  destruct (Amount.clean_and_convert compile n1 _) as [[v1|]|e1] eqn:E1; cbn [bind];
    try discriminate;
    (destruct (Amount.clean_and_convert compile n2 _) as [[v2|]|e2] eqn:E2; cbn [bind];
     try discriminate).
  intros [= <- <-]. split; [reflexivity|]. exists (Z.max v1 v2). split; [reflexivity|].
  apply clean_and_convert_nonneg in E1. lia.
Qed.

Lemma upto_stage_shape compile p t v c :
  Amount.upto_stage compile p t = Return (Some (v, c)) ->
  c = None
  /\ exists cur z, v = VStr (cur ++ Py.str_of_Z z) /\ cur <> [] /\ (0 <= z)%Z.
Proof.
  unfold Amount.upto_stage. destruct (Re.search p t) as [m|]; [|discriminate].
  destruct (Amount.unpack4 _) as [[[[cur1 num] mult] cur2]|e]; [|discriminate].
  cbn [bind].
  destruct (Amount.clean_and_convert compile num mult) as [[z|]|e] eqn:E;
    cbn [catch_all]; try discriminate.
  intros [= <- <-]. split; [reflexivity|].
  eexists _, z. split; [reflexivity|]. split; [|eapply clean_and_convert_nonneg, E].
  unfold py_or. destruct (truthy (if truthy cur1 then cur1 else cur2)) eqn:Et.
  - destruct (if truthy cur1 then cur1 else cur2) as [[|x r]|]; discriminate.
  - cbn. discriminate.
Qed.

Lemma contribution_nonneg compile k p t m cs :
  Amount.contribution compile k p t m = Return cs ->
  Forall (fun x => (0 <= cand_value x)%Z) cs.
Proof.
  unfold Amount.contribution. destruct (negb _); [intros [= <-]; constructor|].
  destruct (Amount.read_groups k _) as [[[cur n] ms]|e];
    [|destruct e; try discriminate; intros [= <-]; constructor].
  destruct (Amount.clean_and_convert compile n ms) as [[v|]|e] eqn:E; cbn [bind];
    try discriminate; [|intros [= <-]; constructor].
  destruct (Amount.is_year _ _ _); intros [= <-]; constructor; [|constructor].
  cbn. eapply clean_and_convert_nonneg, E.
Qed.

Lemma pool_matches_nonneg compile k p t ms : forall cs,
  Amount.pool_matches compile k p t ms = Return cs ->
  Forall (fun x => (0 <= cand_value x)%Z) cs.
Proof.
  induction ms as [|m ms IH]; intros cs; cbn [Amount.pool_matches].
  - intros [= <-]. constructor.
  - destruct (Amount.contribution compile k p t m) as [c|e] eqn:Ec; [|discriminate].
    cbn [bind]. destruct (Amount.pool_matches compile k p t ms) as [cs'|e]; [|discriminate].
    cbn [bind]. intros [= <-]. apply Forall_app. split.
    + eapply contribution_nonneg, Ec.
    + apply IH. reflexivity.
Qed.

Lemma potential_matches_nonneg compile s c sy t pm :
  Amount.potential_matches compile s c sy t = Return pm ->
  Forall (fun x => (0 <= cand_value x)%Z) pm.
Proof.
  unfold Amount.potential_matches, Amount.pool_pattern.
  destruct (Amount.pool_matches compile Amount.Strict s t _) as [a|e] eqn:Ea; [|discriminate].
  cbn [bind].
  destruct (Amount.pool_matches compile Amount.Code c t _) as [b|e] eqn:Eb; [|discriminate].
  cbn [bind].
  destruct (Amount.pool_matches compile Amount.Symbol sy t _) as [d|e] eqn:Ed; [|discriminate].
  cbn [bind]. intros [= <-].
  rewrite !Forall_app. repeat split; eapply pool_matches_nonneg; eassumption.
Qed.

Lemma single_stage_shape compile s c sy t v cur :
  Amount.single_stage compile s c sy t = Return (Some (v, cur)) ->
  exists z, v = VInt z /\ (0 <= z)%Z.
Proof.
  unfold Amount.single_stage.
  destruct (Amount.potential_matches compile s c sy t) as [pm|e] eqn:Ep; [|discriminate].
  cbn [bind]. destruct (Amount.sort_desc pm) as [|[[z cur'] matched] rest] eqn:Es;
    [discriminate|].
  intros [= <- <-]. exists z. split; [reflexivity|].
  apply potential_matches_nonneg in Ep. rewrite List.Forall_forall in Ep.
  apply (Ep (z, cur', matched)). apply sort_desc_In. rewrite Es. left. reflexivity.
Qed.

(** X9.  What [extract_amount] returns, when it returns: (None, None); or
    a non-negative integer with a separate currency (the single-amount
    branch); or, with no second component, a string made of a non-empty
    currency and the decimal digits of a non-negative integer (the
    mangled-range branch, always with "$", and the up-to branch). *)
Theorem extract_amount_shape (t : text) (v : pyval) (c : option text) :
  Amount.extract_amount t = Return (v, c) ->
  match v with
  | VNone => c = None
  | VInt z => (0 <= z)%Z
  | VStr s =>
      c = None
      /\ exists cur z,
           s = cur ++ Py.str_of_Z z /\ cur <> [] /\ (0 <= z)%Z
           /\ Py.isdigit (Py.str_of_Z z) = true
  end.
Proof.
  rewrite extract_amount_unfold. unfold Amount.or_else at 1.
  destruct (Amount.mangled_stage _ _ t) as [[[v1 c1]|]|e] eqn:E1; cbn [bind];
    [| |discriminate].
  { intros [= <- <-]. apply mangled_stage_shape in E1 as (-> & z & -> & Hz).
    split; [reflexivity|]. exists (txt "$"), z.
    repeat split; [discriminate|exact Hz|apply str_of_Z_number, Hz]. }
  unfold Amount.or_else at 1. rewrite standard_stage_eq.
  destruct (Re.search _ t); [discriminate|]. cbn [bind].
  unfold Amount.or_else at 1.
  destruct (Amount.upto_stage _ _ t) as [[[v3 c3]|]|e] eqn:E3; cbn [bind];
    [| |discriminate].
  { intros [= <- <-]. apply upto_stage_shape in E3 as (-> & cur & z & -> & Hc & Hz).
    split; [reflexivity|]. exists cur, z.
    repeat split; [exact Hc|exact Hz|apply str_of_Z_number, Hz]. }
  unfold Amount.or_else.
  destruct (Amount.single_stage _ _ _ _ t) as [[[v4 c4]|]|e] eqn:E4; cbn [bind];
    [| |discriminate].
  { intros [= <- <-]. apply single_stage_shape in E4 as (z & -> & Hz). exact Hz. }
  intros [= <- <-]. reflexivity.
Qed.

Lemma extract_amount_shape_witness :
  exists cur z,
    txt "$35000" = cur ++ Py.str_of_Z z /\ cur <> [] /\ (0 <= z)%Z
    /\ Py.isdigit (Py.str_of_Z z) = true.
Proof.
  apply (extract_amount_shape (txt "Ages 18-35. Grant of $5,000") (VStr (txt "$35000")) None).
  vm_compute. reflexivity.
Defined.

(** ** The save block and the helpers it calls *)






(** X11.  The step of lines 465-468 calls [extract_amount_from_text],
    which is bound nowhere.  A dictionary gets there with its amount still
    [None], so even when it has a title and the organisation step succeeds,
    the body raises [NameError] before the detail page is fetched, and the
    collection stays as it was. *)
Theorem amount_from_text_is_unbound (w : Pipeline.world) (a : article)
    (st : Pipeline.state) (rest : Pipeline.stage) :
  title (Pipeline.cur st) <> None ->
  amount (Pipeline.cur st) = VNone ->
  let out :=
    Pipeline.then_ (Pipeline.stage_organization w a)
      (Pipeline.then_ Pipeline.stage_amount_from_text rest) st in
  fst out = Pipeline.Exc NameError
  /\ Pipeline.grants (snd out) = Pipeline.grants st
  /\ Pipeline.existing_grant_urls (snd out) = Pipeline.existing_grant_urls st.
Proof.
  intros Ht Ha. cbv zeta. unfold Pipeline.then_, Pipeline.stage_organization.
  destruct (Organization.extract_organization _ _ _) as [org|e] eqn:Eo.
  - unfold Pipeline.stage_amount_from_text.
    cbn [Pipeline.cur Pipeline.set_cur Pipeline.with_organization amount].
    rewrite Ha. cbn. repeat split.
  - unfold Organization.extract_organization in Eo.
    destruct (title (Pipeline.cur st)); [discriminate|contradiction].
Qed.

Lemma amount_from_text_is_unbound_witness :
  fst (Pipeline.then_ (Pipeline.stage_organization (page_with_deadline "30 June 2025")
                         plain_article)
         (Pipeline.then_ Pipeline.stage_amount_from_text Pipeline.stage_clean_fields)
         titled_candidate)
  = Pipeline.Exc NameError.
Proof.
  apply (amount_from_text_is_unbound (page_with_deadline "30 June 2025") plain_article
           titled_candidate Pipeline.stage_clean_fields).
  - discriminate.
  - reflexivity.
Defined.

(** ** Amounts written with thousands separators *)










(** ** The records that are saved *)

Lemma clean_field_or_empty o :
  exists t, Pipeline.clean_field (Pipeline.or_empty o) = Some t /\ tidy t = true.
Proof.
  destruct o as [[|c t]|].
  - exists []. split; reflexivity.
  - exists (clean_text (c :: t)). split; [reflexivity|]. apply tidy_clean_text.
  - exists []. split; reflexivity.
Qed.

Lemma clean_field_tidy t :
  tidy t = true ->
  Pipeline.clean_field (Pipeline.or_empty (Some t)) = Some t.
Proof.
  intros H. destruct t as [|c t]; [reflexivity|].
  change (Pipeline.clean_field (Pipeline.or_empty (Some (c :: t))))
    with (Some (clean_text (c :: t))).
  rewrite (clean_text_tidy _ H). reflexivity.
Qed.

(** X13.  In a record cleaned for saving every text key holds a string
    ([None] has become ""); title, description and eligibility are tidy
    texts; deadline, URL, organisation, status and category are otherwise
    untouched, so "Organization Not Found" stays; and cleaning the record
    again changes nothing but, possibly, the amount. *)
Theorem saved_records_are_clean (g : grant) :
  let g' := Pipeline.cleanup g in
  (deadline g' = Pipeline.or_empty (deadline g)
   /\ applicationUrl g' = Pipeline.or_empty (applicationUrl g)
   /\ organization g' = Pipeline.or_empty (organization g)
   /\ status g' = Pipeline.or_empty (status g)
   /\ category g' = Pipeline.or_empty (category g))
  /\ (exists t, title g' = Some t /\ tidy t = true)
  /\ (exists t, description g' = Some t /\ tidy t = true)
  /\ (exists t, eligibility g' = Some t /\ tidy t = true)
  /\ Pipeline.with_amount VNone (Pipeline.cleanup g') = Pipeline.with_amount VNone g'.
Proof.
  cbv zeta.
  assert (F : forall h,
            Pipeline.cleanup h
            = Pipeline.with_amount (amount (Pipeline.cleanup h))
                (mkgrant (Pipeline.or_empty (deadline h))
                   (Pipeline.clean_field (Pipeline.or_empty (title h)))
                   (Pipeline.or_empty (applicationUrl h))
                   (Pipeline.or_empty (organization h))
                   (Pipeline.clean_field (Pipeline.or_empty (description h)))
                   VNone (Pipeline.or_empty (status h))
                   (Pipeline.clean_field (Pipeline.or_empty (eligibility h)))
                   (Pipeline.or_empty (category h)))).
  { intros h. unfold Pipeline.cleanup. destruct (Pipeline.is_falsy _); reflexivity. }
  destruct (clean_field_or_empty (title g)) as (t1 & E1 & T1).
  destruct (clean_field_or_empty (description g)) as (t2 & E2 & T2).
  destruct (clean_field_or_empty (eligibility g)) as (t3 & E3 & T3).
  rewrite (F (Pipeline.cleanup g)). rewrite (F g).
  cbn [Pipeline.with_amount deadline title applicationUrl organization description
       amount status eligibility category].
  rewrite E1, E2, E3.
  split; [repeat split|]. split; [eauto|]. split; [eauto|]. split; [eauto|].
  rewrite !clean_field_tidy by assumption.
  destruct (deadline g), (applicationUrl g), (organization g), (status g), (category g);
    reflexivity.
Qed.

(** ** Soundness of the matcher *)

Section MatcherSoundness.

Variable fl : Re.flags.

Lemma rep_loop_sound greedy lo hi mtr k
    (R : Re.cursor -> Re.caps -> Re.cursor -> Re.caps -> Prop)
    (Hm : forall cur cs k' res,
        mtr cur cs k' = Some res ->
        exists cur' cs', R cur cs cur' cs' /\ k' cur' cs' = Some res) :
  forall fuel count cur cs res,
    within hi count ->
    rep_loop greedy lo hi mtr k fuel count cur cs = Some res ->
    exists n cur' cs',
      iter_sem R n cur cs cur' cs' /\ (lo <= count + n)%nat
      /\ within hi (count + n) /\ k cur' cs' = Some res.
Proof.
  induction fuel as [|fuel IH]; intros count cur cs res Hc; cbn [rep_loop];
    [discriminate|].
  assert (Hstop : (if (lo <=? count)%nat then k cur cs else None) = Some res ->
                  exists n cur' cs',
                    iter_sem R n cur cs cur' cs' /\ (lo <= count + n)%nat
                    /\ within hi (count + n) /\ k cur' cs' = Some res).
  { destruct (lo <=? count)%nat eqn:E; [|discriminate]. apply Nat.leb_le in E.
    intros H. exists 0%nat, cur, cs. rewrite Nat.add_0_r. cbn. auto. }
  assert (Hgo : (if Re.below hi count
                 then mtr cur cs
                        (fun cur' cs' =>
                           if (count <? lo)%nat || (Re.c_pos cur <? Re.c_pos cur')%nat
                           then rep_loop greedy lo hi mtr k fuel (S count) cur' cs'
                           else None)
                 else None) = Some res ->
                exists n cur' cs',
                  iter_sem R n cur cs cur' cs' /\ (lo <= count + n)%nat
                  /\ within hi (count + n) /\ k cur' cs' = Some res).
  { destruct (Re.below hi count) eqn:Eb; [|discriminate].
    intros H. apply Hm in H as (mid & csm & HR & H).
    destruct (_ || _); [|discriminate].
    apply IH in H as (n & cur' & cs' & Hi & Hlo & Hhi & Hk).
    - exists (S n), cur', cs'. replace (count + S n)%nat with (S count + n)%nat by lia.
      cbn [iter_sem]. eauto 10.
    - unfold within, Re.below in *. destruct hi as [h|]; [|exact I].
      apply Nat.ltb_lt in Eb. lia. }
  destruct greedy.
  - destruct (if Re.below hi count then _ else None) as [res'|] eqn:E.
    + intros [= <-]. apply Hgo. reflexivity.
    + exact Hstop.
  - destruct (if (lo <=? count)%nat then k cur cs else None) as [res'|] eqn:E.
    + intros [= <-]. apply Hstop. reflexivity.
    + exact Hgo.
Qed.

Lemma mt_sound r : forall cur cs k res,
  Re.mt fl r cur cs k = Some res ->
  exists cur' cs', sem fl r cur cs cur' cs' /\ k cur' cs' = Some res.
Proof.
  induction r as [|c| |neg items|r1 IH1 r2 IH2|r1 IH1 r2 IH2|greedy lo hi r IH|i r IH
                 |r IH| | |]; intros cur cs k res.
  - cbn. eauto.
  - cbn [Re.mt sem]. unfold consumes_one.
    destruct (Re.c_rest cur) as [|x rest]; [discriminate|].
    destruct (Re.chr_match fl c x) eqn:E; [|discriminate]. eauto 10.
  - cbn [Re.mt sem]. unfold consumes_one.
    destruct (Re.c_rest cur) as [|x rest]; [discriminate|].
    destruct (x =? 10) eqn:E; [discriminate|]. intros H.
    exists (Re.advance x rest cur), cs. split; [|exact H].
    exists x, rest. rewrite E. auto.
  - cbn [Re.mt sem]. unfold consumes_one.
    destruct (Re.c_rest cur) as [|x rest]; [discriminate|].
    destruct (xorb neg (Re.set_match fl items x)) eqn:E; [|discriminate]. eauto 10.
  - cbn [Re.mt sem]. intros H.
    apply IH1 in H as (mid & csm & H1 & H). apply IH2 in H as (cur' & cs' & H2 & H).
    eauto 10.
  - cbn [Re.mt sem]. destruct (Re.mt fl r1 cur cs k) as [res'|] eqn:E.
    + intros [= <-]. apply IH1 in E as (cur' & cs' & H1 & H). eauto.
    + intros H. apply IH2 in H as (cur' & cs' & H2 & H). eauto.
  - rewrite mt_rep. intros H.
    apply (rep_loop_sound greedy lo hi _ k (sem fl r) IH) in H
      as (n & cur' & cs' & Hi & Hlo & Hhi & Hk).
    + exists cur', cs'. split; [|exact Hk]. cbn [sem]. exists n. auto.
    + unfold within. destruct hi; [lia|exact I].
  - cbn [Re.mt sem]. intros H. apply IH in H as (cur' & cs' & H1 & H). eauto 10.
  - cbn [Re.mt sem].
    destruct (Re.mt fl r cur cs _) as [[cur'' cs']|] eqn:E; [|discriminate].
    intros H. apply IH in E as (c2 & cs2 & H1 & [= <- <-]). eauto 10.
  - cbn [Re.mt sem]. destruct (Re.at_bol fl cur) eqn:E; [|discriminate]. eauto 10.
  - cbn [Re.mt sem]. destruct (Re.at_eol fl cur) eqn:E; [|discriminate]. eauto 10.
  - cbn [Re.mt sem]. destruct (Re.at_word_boundary cur) eqn:E; [|discriminate]. eauto 10.
Qed.

End MatcherSoundness.

(** What a match consumes. *)
Lemma iter_sem_consumes (R : Re.cursor -> Re.caps -> Re.cursor -> Re.caps -> Prop)
    (HR : forall cur cs cur' cs',
        R cur cs cur' cs' ->
        exists l, Re.c_rest cur = l ++ Re.c_rest cur'
                  /\ Re.c_pos cur' = (Re.c_pos cur + length l)%nat) n :
  forall cur cs cur' cs',
    iter_sem R n cur cs cur' cs' ->
    exists l, Re.c_rest cur = l ++ Re.c_rest cur'
              /\ Re.c_pos cur' = (Re.c_pos cur + length l)%nat.
Proof.
  induction n as [|n IH]; intros cur cs cur' cs'; cbn [iter_sem].
  - intros [-> ->]. exists []. split; [reflexivity|cbn; lia].
  - intros (mid & csm & H1 & H2). apply HR in H1 as (l1 & E1 & P1).
    apply IH in H2 as (l2 & E2 & P2). exists (l1 ++ l2). split.
    + rewrite E1, E2, app_assoc. reflexivity.
    + rewrite length_app. lia.
Qed.

Lemma consumes_one_consumes p cur cs cur' cs' :
  consumes_one p cur cs cur' cs' ->
  exists l, Re.c_rest cur = l ++ Re.c_rest cur'
            /\ Re.c_pos cur' = (Re.c_pos cur + length l)%nat.
Proof.
  intros (x & rest & E & _ & -> & _). exists [x]. split; [exact E|cbn; lia].
Qed.

Lemma sem_consumes fl r : forall cur cs cur' cs',
  sem fl r cur cs cur' cs' ->
  exists l, Re.c_rest cur = l ++ Re.c_rest cur'
            /\ Re.c_pos cur' = (Re.c_pos cur + length l)%nat.
Proof.
  assert (Hnil : forall cur : Re.cursor,
            exists l, Re.c_rest cur = l ++ Re.c_rest cur
                      /\ Re.c_pos cur = (Re.c_pos cur + length l)%nat).
  { intros cur. exists []. split; [reflexivity|cbn; lia]. }
  induction r as [|c| |neg items|r1 IH1 r2 IH2|r1 IH1 r2 IH2|greedy lo hi r IH|i r IH
                 |r IH| | |]; intros cur cs cur' cs'; cbn [sem].
  - intros [-> ->]. apply Hnil.
  - apply consumes_one_consumes.
  - apply consumes_one_consumes.
  - apply consumes_one_consumes.
  - intros (mid & csm & H1 & H2). apply IH1 in H1 as (l1 & E1 & P1).
    apply IH2 in H2 as (l2 & E2 & P2). exists (l1 ++ l2). split.
    + rewrite E1, E2, app_assoc. reflexivity.
    + rewrite length_app. lia.
  - intros [H|H]; [eapply IH1|eapply IH2]; exact H.
  - intros (n & _ & _ & H). eapply iter_sem_consumes; [exact IH|exact H].
  - intros (cs'' & H & _). eapply IH, H.
  - intros (cur'' & _ & ->). apply Hnil.
  - intros (_ & -> & _). apply Hnil.
  - intros (_ & -> & _). apply Hnil.
  - intros (_ & -> & _). apply Hnil.
Qed.


(** A successful search is a match at some place in the text. *)
Lemma search_rest_sound p t rest : forall pre prev m,
  t = pre ++ rest ->
  Re.search_rest p prev rest (length pre) = Some m ->
  exists cur cur',
    stands_in t cur
    /\ sem (Re.p_flags p) (Re.p_re p) cur [] cur' (Re.m_caps m)
    /\ Re.m_start m = Re.c_pos cur /\ Re.m_end m = Re.c_pos cur'.
Proof.
  induction rest as [|x rest IH]; intros pre prev m Et; cbn [Re.search_rest];
    unfold Re.match_at.
  - destruct (Re.mt _ _ _ _ _) as [[c' cs]|] eqn:E; [|discriminate].
    intros [= <-]. apply mt_sound in E as (cur' & cs' & Hs & [= <- <-]).
    exists {| Re.c_prev := prev; Re.c_rest := []; Re.c_pos := length pre |}, cur'.
    split; [exists pre; split; [exact Et|reflexivity]|].
    split; [exact Hs|split; reflexivity].
  - destruct (Re.mt _ _ _ _ _) as [[c' cs]|] eqn:E.
    + intros [= <-]. apply mt_sound in E as (cur' & cs' & Hs & [= <- <-]).
      exists {| Re.c_prev := prev; Re.c_rest := x :: rest; Re.c_pos := length pre |}, cur'.
      split; [exists pre; split; [exact Et|reflexivity]|].
      split; [exact Hs|split; reflexivity].
    + intros H. apply (IH (pre ++ [x]) (Some x) m).
      * rewrite <- app_assoc. exact Et.
      * rewrite length_app. cbn [length].
        replace (length pre + 1)%nat with (S (length pre)) by lia. exact H.
Qed.

Lemma search_sound p t m :
  Re.search p t = Some m ->
  exists cur cur',
    stands_in t cur
    /\ sem (Re.p_flags p) (Re.p_re p) cur [] cur' (Re.m_caps m)
    /\ Re.m_start m = Re.c_pos cur /\ Re.m_end m = Re.c_pos cur'.
Proof.
  unfold Re.search, Re.search_cur, Re.start_cursor. cbn [Re.c_prev Re.c_rest Re.c_pos].
  apply (search_rest_sound p t t [] None m). reflexivity.
Qed.

Lemma finditer_none p t : Re.search p t = None -> Re.finditer p t = [].
Proof.
  unfold Re.finditer, Re.search. cbn [Re.finditer_from]. intros ->. reflexivity.
Qed.

(** Characters that every match must contain. *)
Section Requires.

Variables (fl : Re.flags) (p : cp -> bool).
Variables (chr_ok : cp -> bool) (set_ok : bool -> list Re.cset_item -> bool).
Hypothesis chr_ok_spec : forall c x,
  chr_ok c = true -> Re.chr_match fl c x = true -> p x = true.
Hypothesis set_ok_spec : forall neg items x,
  set_ok neg items = true -> xorb neg (Re.set_match fl items x) = true -> p x = true.

Lemma sem_requires r : forall cur cs cur' cs',
  requires chr_ok set_ok r = true ->
  sem fl r cur cs cur' cs' ->
  exists l x, Re.c_rest cur = l ++ Re.c_rest cur' /\ In x l /\ p x = true.
Proof.
  induction r as [|c| |neg items|r1 IH1 r2 IH2|r1 IH1 r2 IH2|greedy lo hi r IH|i r IH
                 |r IH| | |]; intros cur cs cur' cs'; cbn [requires sem];
    try discriminate.
  - intros Hc (x & rest & E & Hx & -> & _). exists [x], x.
    split; [exact E|]. split; [left; reflexivity|eapply chr_ok_spec; eassumption].
  - intros Hc (x & rest & E & Hx & -> & _). exists [x], x.
    split; [exact E|]. split; [left; reflexivity|eapply set_ok_spec; eassumption].
  - intros Hreq (mid & csm & H1 & H2).
    destruct (sem_consumes _ _ _ _ _ _ H1) as (l1 & E1 & _).
    destruct (sem_consumes _ _ _ _ _ _ H2) as (l2 & E2 & _).
    apply orb_true_iff in Hreq as [Hreq|Hreq].
    + destruct (IH1 _ _ _ _ Hreq H1) as (l & x & E & Hin & Hp).
      exists (l ++ l2), x. split; [rewrite E, E2, app_assoc; reflexivity|].
      split; [apply in_or_app; left; exact Hin|exact Hp].
    + destruct (IH2 _ _ _ _ Hreq H2) as (l & x & E & Hin & Hp).
      exists (l1 ++ l), x. split; [rewrite E1, E, app_assoc; reflexivity|].
      split; [apply in_or_app; right; exact Hin|exact Hp].
  - intros Hreq. apply andb_prop in Hreq as [Hr1 Hr2].
    intros [H|H]; [eapply IH1|eapply IH2]; eassumption.
  - intros Hreq. apply andb_prop in Hreq as [Hlo Hr]. apply Nat.leb_le in Hlo.
    intros (n & Hn & _ & Hi). destruct n as [|n]; [lia|]. cbn [iter_sem] in Hi.
    destruct Hi as (mid & csm & H1 & H2).
    destruct (IH _ _ _ _ Hr H1) as (l & x & E & Hin & Hp).
    destruct (iter_sem_consumes _ (sem_consumes fl r) _ _ _ _ _ H2) as (l2 & E2 & _).
    exists (l ++ l2), x. split; [rewrite E, E2, app_assoc; reflexivity|].
    split; [apply in_or_app; left; exact Hin|exact Hp].
  - intros Hreq (cs'' & H & _). eapply IH; eassumption.
Qed.

Lemma search_requires pat t :
  Re.p_flags pat = fl ->
  requires chr_ok set_ok (Re.p_re pat) = true ->
  forallb (fun c => negb (p c)) t = true ->
  Re.search pat t = None.
Proof.
  intros Hfl Hreq Ht. destruct (Re.search pat t) as [m|] eqn:E; [|reflexivity].
  apply search_sound in E as (cur & cur' & (pre & Et & _) & Hs & _).
  rewrite Hfl in Hs. apply (sem_requires _ _ _ _ _ Hreq) in Hs as (l & x & El & Hin & Hp).
  rewrite forallb_forall in Ht. specialize (Ht x).
  rewrite Hp in Ht. discriminate Ht.
  rewrite Et, El. apply in_or_app. right. apply in_or_app. left. exact Hin.
Qed.

End Requires.

(** ** extract_amount needs a digit *)







(** ** extract_amount: the mangled-range matcher answers first *)




Lemma in_ascii_digits c : Py.is_digit c = true -> In c ascii_digits.
Proof.
  unfold Py.is_digit, Py.in_range. rewrite andb_true_iff, !N.leb_le. intros H.
  assert (E : c = 48 \/ c = 49 \/ c = 50 \/ c = 51 \/ c = 52 \/ c = 53 \/ c = 54
              \/ c = 55 \/ c = 56 \/ c = 57) by lia.
  unfold ascii_digits. cbn [In]. intuition.
Qed.

Lemma in_digit_strings a :
  forallb Py.is_digit a = true -> In a (digit_strings (length a)).
Proof.
  induction a as [|c a IH]; cbn [forallb length digit_strings]; [intros; left; reflexivity|].
  intros H. apply andb_prop in H as [Hc Ha].
  apply in_flat_map. exists c. split; [apply in_ascii_digits, Hc|].
  apply in_map, IH, Ha.
Qed.








(** ** extract_amount: numbers written without separators *)

Lemma letter_or_hyphen_spec fl c x :
  letter_or_hyphen c = true -> Re.chr_match fl c x = true -> letter_or_hyphen x = true.
Proof.
  unfold Re.chr_match. destruct (Re.ignorecase fl).
  - unfold letter_or_hyphen, Py.is_alpha, Py.to_lower, Py.is_upper, Py.is_lower,
      Py.in_range.
    destruct ((65 <=? x) && (x <=? 90)) eqn:Ex;
      destruct ((65 <=? c) && (c <=? 90)) eqn:Ec;
      rewrite ?andb_true_iff, ?andb_false_iff, ?N.leb_le, ?N.leb_gt in *;
      rewrite !orb_true_iff, !andb_true_iff, !N.leb_le, !N.eqb_eq; lia.
  - intros H E. apply N.eqb_eq in E. subst x. exact H.
Qed.

Lemma search_needs_letter pat t :
  needs_letter_or_hyphen pat = true ->
  forallb (fun c => negb (letter_or_hyphen c)) t = true ->
  Re.search pat t = None.
Proof.
  intros Hn Ht.
  apply (search_requires (Re.p_flags pat) letter_or_hyphen letter_or_hyphen
           (fun _ _ => false)); auto; [|discriminate].
  intros c x. apply letter_or_hyphen_spec.
Qed.

Lemma clean_and_convert_fast num mult :
  Amount.clean_and_convert Re.compile num mult
  = Amount.clean_and_convert fast_compile num mult.
Proof.
  unfold Amount.clean_and_convert, Amount.compile_or_raise, fast_compile.
  destruct num as [num|]; [|reflexivity]. rewrite compile_symbols_or_comma.
  replace (re_const Amount.symbols_or_comma_src Re.no_flags) with sym_pat
    by (vm_compute; reflexivity).
  reflexivity.
Qed.

Lemma pool_matches_fast k p t ms :
  Amount.pool_matches Re.compile k p t ms = Amount.pool_matches fast_compile k p t ms.
Proof.
  induction ms as [|m ms IH]; cbn [Amount.pool_matches]; [reflexivity|].
  rewrite IH. unfold Amount.contribution.
  destruct (negb _); [reflexivity|].
  destruct (Amount.read_groups k _) as [[[cur n] mult]|e]; [|reflexivity].
  rewrite clean_and_convert_fast. reflexivity.
Qed.

Lemma symbol_pattern_eq :
  re_const Amount.symbol_single_src Re.IGNORECASE = symbol_pat.
Proof. vm_compute. reflexivity. Qed.

Lemma patterns_need_letter :
  needs_letter_or_hyphen (re_const Amount.mangled_range_src Re.no_flags) = true
  /\ needs_letter_or_hyphen (re_const Amount.standard_range_src Re.IGNORECASE) = true
  /\ needs_letter_or_hyphen (re_const Amount.upto_src Re.IGNORECASE) = true
  /\ needs_letter_or_hyphen (re_const Amount.strict_single_src Re.IGNORECASE) = true
  /\ needs_letter_or_hyphen (re_const Amount.code_single_src Re.IGNORECASE) = true.
Proof. repeat split; vm_compute; reflexivity. Qed.

(** Without letters and hyphens only the currency-symbol pattern counts. *)
Lemma symbols_only t :
  forallb (fun c => negb (letter_or_hyphen c)) t = true ->
  Amount.extract_amount t
  = pick (Amount.pool_matches fast_compile Amount.Symbol symbol_pat t
            (Re.finditer symbol_pat t)).
Proof.
  intros Ht. rewrite extract_amount_unfold.
  unfold Amount.or_else, Amount.mangled_stage, Amount.standard_stage,
    Amount.upto_stage, Amount.single_stage, Amount.potential_matches,
    Amount.pool_pattern.
  destruct patterns_need_letter as (N1 & N2 & N3 & N4 & N5).
  rewrite (search_needs_letter _ t N1 Ht), (search_needs_letter _ t N2 Ht),
    (search_needs_letter _ t N3 Ht),
    (finditer_none _ t (search_needs_letter _ t N4 Ht)),
    (finditer_none _ t (search_needs_letter _ t N5 Ht)).
  cbn [Amount.pool_matches bind app]. rewrite symbol_pattern_eq, pool_matches_fast.
  unfold pick.
  destruct (Amount.pool_matches fast_compile Amount.Symbol symbol_pat t _) as [pm|e];
    [|reflexivity].
  cbn [bind]. destruct (Amount.sort_desc pm) as [|[[v c] matched] rest]; reflexivity.
Qed.

Lemma four_digits_ok : forallb four_ok (digit_strings 4) = true.
Proof. vm_compute. reflexivity. Qed.

Lemma digit_not_letter c : Py.is_digit c = true -> letter_or_hyphen c = false.
Proof.
  unfold Py.is_digit, letter_or_hyphen, Py.is_alpha, Py.is_upper, Py.is_lower,
    Py.in_range.
  rewrite andb_true_iff, !N.leb_le. intros H.
  rewrite !orb_false_iff, !andb_false_iff, !N.leb_gt, N.eqb_neq. lia.
Qed.

(** X16.  A text without ASCII letters and hyphens is judged by the
    currency-symbol pattern alone.  Its number pattern takes at most three
    digits before a comma and is not closed by a word boundary, so an amount
    written without separators is read by its first three digits: for every
    four digits [ds], "$ds" gives the number of the first three, "$5000"
    gives 500. *)
Theorem unseparated_amount_is_cut :
  (forall t,
     forallb (fun c => negb (letter_or_hyphen c)) t = true ->
     Amount.extract_amount t
     = pick (Amount.pool_pattern Re.compile Amount.Symbol
               (re_const Amount.symbol_single_src Re.IGNORECASE) t))
  /\ (forall ds,
        forallb Py.is_digit ds = true -> length ds = 4%nat ->
        Amount.extract_amount (txt "$" ++ ds)
        = Return (VInt (number_of (take 3 ds)), Some (txt "$"))).
Proof.
  split.
  - intros t Ht. rewrite (symbols_only t Ht). unfold Amount.pool_pattern.
    rewrite symbol_pattern_eq, pool_matches_fast. reflexivity.
  - intros ds Hd Hl. change (txt "$" ++ ds) with (36 :: ds).
    rewrite symbols_only.
    + pose proof four_digits_ok as H. rewrite forallb_forall in H.
      pose proof (in_digit_strings ds Hd) as Hin. rewrite Hl in Hin.
      specialize (H ds Hin). clear Hin.
      unfold four_ok in H. cbv zeta in H.
      destruct (Amount.pool_matches fast_compile Amount.Symbol symbol_pat (36 :: ds) _)
        as [[|[[v [c|]] matched] [|? ?]]|e]; try discriminate.
      apply andb_prop in H as [Hv Hc]. apply Z.eqb_eq in Hv. apply text_eqb_eq in Hc.
      subst v c. reflexivity.
    + cbn [forallb]. apply andb_true_iff. split; [reflexivity|].
      apply forallb_forall. intros c Hc. rewrite forallb_forall in Hd.
      rewrite (digit_not_letter c (Hd c Hc)). reflexivity.
Qed.

Lemma unseparated_amount_is_cut_witness :
  Amount.extract_amount (txt "$5000") = Return (VInt 500, Some (txt "$")).
Proof.
  apply (proj2 unseparated_amount_is_cut (txt "5000")); reflexivity.
Defined.

(** ** extract_organization: the name is a cleaned text *)

Lemma by_patterns_tidy pats s x :
  Organization.by_patterns pats s = Some x -> tidy x = true.
Proof.
  induction pats as [|src r IH]; cbn [Organization.by_patterns]; [discriminate|].
  cbv zeta. destruct (Re.search _ s) as [m|]; [|exact IH].
  destruct (Organization.first_group _) as [org|]; [|exact IH].
  intros [= <-]. apply tidy_clean_text.
Qed.

Lemma from_domain_tidy url x :
  Organization.from_domain url = Some x -> tidy x = true.
Proof.
  unfold Organization.from_domain. cbv zeta.
  match goal with |- match ?e with _ => _ end = _ -> _ => destruct e as [|p r] end;
    [discriminate|].
  intros [= <-]. apply tidy_clean_text.
Qed.

Lemma from_url_patterns_tidy pats url x :
  Organization.from_url_patterns pats url = Some x -> tidy x = true.
Proof.
  induction pats as [|src r IH]; cbn [Organization.from_url_patterns]; [discriminate|].
  cbv zeta. destruct (Re.search _ url) as [m|]; [|exact IH].
  destruct (Re.group url m 1) as [g|]; [|exact IH].
  destruct (_ && _); [|exact IH].
  intros [= <-]. apply tidy_clean_text.
Qed.

Lemma from_hostname_tidy netloc url x :
  Organization.from_hostname netloc url = Some x -> tidy x = true.
Proof.
  unfold Organization.from_hostname.
  destruct (netloc url) as [[|c h]|]; try discriminate. cbv zeta.
  destruct (Re.sub _ _ (Re.sub _ _ _)); [discriminate|].
  intros [= <-]. apply tidy_clean_text.
Qed.

Lemma when_truthy_tidy o f x :
  (forall u y, f u = Some y -> tidy y = true) ->
  Organization.when_truthy o f = Some x -> tidy x = true.
Proof.
  intros Hf. unfold Organization.when_truthy. destruct (truthy o); [|discriminate].
  apply Hf.
Qed.

Lemma or_try_tidy a b x :
  (forall y, a = Some y -> tidy y = true) ->
  (forall y, b = Some y -> tidy y = true) ->
  Organization.or_try a b = Some x -> tidy x = true.
Proof. intros Ha Hb. destruct a as [y|]; cbn; [apply Ha|apply Hb]. Qed.

(** X17.  With a title that is a string [extract_organization] does not
    raise, and the name it returns is a tidy text whatever the source it
    comes from (title, domain, description, article tags, URL patterns,
    host name, or the fallback "Unknown Organization"): none of the
    typographic characters [clean_text] replaces, no whitespace at either
    end, whitespace only as single spaces. *)
Theorem resolved_organization_is_tidy
    (netloc : text -> option text) (art : option article) (g : grant) (t : text) :
  title g = Some t ->
  exists o, Organization.extract_organization netloc art g = Return o
            /\ tidy o = true.
Proof.
  intros Ht. unfold Organization.extract_organization. rewrite Ht. cbv zeta.
  eexists. split; [reflexivity|].
  match goal with |- tidy (default _ ?o) = true => destruct o as [x|] eqn:E end;
    [|vm_compute; reflexivity].
  cbn [default from_option id]. revert E.
  apply or_try_tidy; [intros y; apply by_patterns_tidy|].
  intros y. apply or_try_tidy;
    [intros z; apply when_truthy_tidy; intros u; apply from_domain_tidy|].
  intros z. apply or_try_tidy;
    [intros v; apply when_truthy_tidy; intros u w; apply by_patterns_tidy|].
  intros v. apply or_try_tidy.
  { intros w. destruct art as [a|]; [|discriminate].
    destruct (a_org_tag a) as [tag|]; [|discriminate].
    destruct (Py.strip tag) as [|c s]; [discriminate|]. intros E.
    assert (E' : w = clean_text (c :: s)) by congruence.
    rewrite E'. apply tidy_clean_text. }
  intros w. apply or_try_tidy.
  - intros u. apply when_truthy_tidy. intros u'. apply from_url_patterns_tidy.
  - intros u. apply when_truthy_tidy. intros u'. apply from_hostname_tidy.
Qed.

Lemma resolved_organization_is_tidy_witness :
  exists o,
    Organization.extract_organization (fun _ => None) None
      (mkgrant None (Some (txt "Grants by  Acme Labs Program")) None None None
               VNone None None None)
    = Return o /\ tidy o = true.
Proof.
  apply (resolved_organization_is_tidy _ _ _ (txt "Grants by  Acme Labs Program")).
  reflexivity.
Defined.
(** ** parse_date: slash dates *)

Lemma try_formats_map cleaned fmts :
  Dates.try_formats cleaned fmts = try_compiled cleaned (map compile_format fmts).
Proof.
  induction fmts as [|fmt r IH]; cbn [Dates.try_formats map try_compiled]; [reflexivity|].
  rewrite strptime_compiled, IH.
  destruct (compile_format fmt) as [[p keys]|]; reflexivity.
Qed.

Lemma try_formats_compiled cleaned :
  Dates.try_formats cleaned Dates.formats = try_compiled cleaned compiled_formats.
Proof.
  rewrite try_formats_map.
  replace (map compile_format Dates.formats) with compiled_formats
    by (vm_compute; reflexivity).
  reflexivity.
Qed.

Lemma date_char_not_space c : date_char c = true -> Py.is_space c = false.
Proof.
  unfold date_char, Py.is_digit, Py.is_space, Py.in_range.
  rewrite orb_true_iff, andb_true_iff, !N.leb_le, N.eqb_eq. intros H.
  rewrite !orb_false_iff, !andb_false_iff, !N.leb_gt, !N.eqb_neq. lia.
Qed.

Lemma other_item_spec it x :
  other_item it = true -> Re.item_match it x = true -> date_char x = false.
Proof.
  destruct it as [c|lo hi| | |]; cbn [other_item Re.item_match]; try discriminate.
  - intros H E. apply N.eqb_eq in E. subst x. apply negb_true_iff, H.
  - unfold date_char, Py.is_digit, Py.in_range.
    rewrite N.ltb_lt, andb_true_iff, !N.leb_le. intros H E.
    rewrite orb_false_iff, andb_false_iff, !N.leb_gt, N.eqb_neq. lia.
  - intros _ E. destruct (date_char x) eqn:Ed; [|reflexivity].
    apply date_char_not_space in Ed. congruence.
Qed.

Lemma other_set_spec neg items x :
  other_set neg items = true ->
  xorb neg (Re.set_match Re.no_flags items x) = true -> negb (date_char x) = true.
Proof.
  unfold other_set, Re.set_match. destruct neg; [discriminate|].
  cbn [negb andb xorb Re.ignorecase Re.no_flags orb]. rewrite orb_false_r.
  intros Hi E. apply existsb_exists in E as (it & Hin & Hm).
  rewrite forallb_forall in Hi. apply negb_true_iff.
  apply (other_item_spec it x (Hi it Hin) Hm).
Qed.

Lemma search_needs_other pat t :
  Re.p_flags pat = Re.no_flags ->
  needs_other pat = true ->
  forallb date_char t = true ->
  Re.search pat t = None.
Proof.
  intros Hfl Hn Ht.
  apply (search_requires Re.no_flags (fun c => negb (date_char c))
           (fun c => negb (date_char c)) other_set); auto.
  - intros c x Hc E. unfold Re.chr_match in E. cbn [Re.ignorecase Re.no_flags] in E.
    apply N.eqb_eq in E. subst x. exact Hc.
  - apply other_set_spec.
  - rewrite forallb_forall in *. intros c Hc. rewrite (Ht c Hc). reflexivity.
Qed.

Lemma sub_nothing pat repl t :
  Re.search pat t = None -> Re.sub pat repl t = t.
Proof. intros H. unfold Re.sub. rewrite (finditer_none pat t H). reflexivity. Qed.

Lemma normalize_patterns :
  (Re.p_flags Dates.ordinal_pattern = Re.no_flags
   /\ needs_other Dates.ordinal_pattern = true)
  /\ (Re.p_flags Dates.zero_width_pattern = Re.no_flags
      /\ needs_other Dates.zero_width_pattern = true)
  /\ (Re.p_flags Dates.whitespace_pattern = Re.no_flags
      /\ needs_other Dates.whitespace_pattern = true).
Proof. repeat split; vm_compute; reflexivity. Qed.

(** A text of digits and slashes is its own normal form. *)
Lemma normalize_date_chars t :
  forallb date_char t = true -> Dates.normalize t = t.
Proof.
  intros Ht. unfold Dates.normalize.
  destruct normalize_patterns as ((F1 & N1) & (F2 & N2) & (F3 & N3)).
  assert (Es : Py.strip t = t).
  { rewrite forallb_forall in Ht. apply strip_by_fixed.
    - destruct t as [|c r]; cbn; [exact I|]. apply date_char_not_space, Ht. now left.
    - destruct (last t) as [c|] eqn:El; [|exact I].
      apply date_char_not_space, Ht. apply last_Some in El as (l & ->).
      apply in_or_app. right. now left. }
  cbv zeta. rewrite Es.
  rewrite (sub_nothing _ _ t (search_needs_other _ t F1 N1 Ht)).
  rewrite (sub_nothing _ _ t (search_needs_other _ t F2 N2 Ht)).
  apply (sub_nothing _ _ t (search_needs_other _ t F3 N3 Ht)).
Qed.

Lemma decade_slash_ok :
  forallb (fun y => forallb (fun a => forallb (slash_ok y a) (zrange 1 31)) (zrange 1 31))
          (zrange 2025 10) = true.
Proof. vm_compute. reflexivity. Qed.

Lemma digit_code k : (0 <= k < 10)%Z -> Py.is_digit (48 + Z.to_N k) = true.
Proof.
  intros H. unfold Py.is_digit, Py.in_range. rewrite andb_true_iff, !N.leb_le. lia.
Qed.

Lemma two_digits_chars z : forallb date_char (Dates.two_digits z) = true.
Proof.
  unfold Dates.two_digits, date_char. cbn [forallb].
  rewrite !digit_code by (apply Z.mod_pos_bound; lia). reflexivity.
Qed.

Lemma four_digits_chars z : forallb date_char (four_digits z) = true.
Proof.
  unfold four_digits, date_char. cbn [forallb].
  rewrite !digit_code by (apply Z.mod_pos_bound; lia). reflexivity.
Qed.

Lemma slash_date_chars a b yt :
  forallb date_char yt = true -> forallb date_char (slash_date a b yt) = true.
Proof.
  intros H. unfold slash_date. rewrite !forallb_app, !two_digits_chars.
  cbn [andb]. apply andb_true_intro. split; [reflexivity|].
  apply andb_true_intro. split; [reflexivity|exact H].
Qed.

(** X18.  Slash dates are read day first.  For the ten years from the
    cutoff year on, the text "aa/bb/yyyy" and its two-digit-year form
    "aa/bb/yy" are parsed as day aa of month bb when that is a calendar
    date, and as month aa, day bb only when it is not (bb above 12);
    when neither is a date the formats give nothing and the result is that
    of the locale and dateutil fallbacks on the same text. *)
Theorem slash_dates_are_read_day_first
    (fb : Dates.fallbacks) (a b y : Z) (s : text) :
  (1 <= a <= 31)%Z -> (1 <= b <= 31)%Z -> (2025 <= y <= 2034)%Z ->
  s = slash_date a b (four_digits y)
  \/ s = slash_date a b (Dates.two_digits (y mod 100)) ->
  Dates.parse_date fb s
  = match day_first a b y with
    | Some d => Some d
    | None =>
        match Dates.locale_strptime fb s with
        | Some d => Some d
        | None => Dates.dateutil_parse fb s
        end
    end.
Proof.
  intros Ha Hb Hy Hs.
  assert (Hok : slash_ok y a b = true).
  { pose proof decade_slash_ok as H. rewrite forallb_forall in H.
    specialize (H y (in_zrange 2025 10 y ltac:(lia))). cbv beta in H.
    rewrite forallb_forall in H.
    specialize (H a (in_zrange 1 31 a ltac:(lia))). cbv beta in H.
    rewrite forallb_forall in H.
    exact (H b (in_zrange 1 31 b ltac:(lia))). }
  unfold slash_ok in Hok. apply andb_prop in Hok as [H4 H2].
  apply bool_decide_eq_true in H4, H2.
  assert (Hc : forallb date_char s = true).
  { destruct Hs as [-> | ->]; apply slash_date_chars;
      [apply four_digits_chars|apply two_digits_chars]. }
  unfold Dates.parse_date. cbv zeta. rewrite (normalize_date_chars s Hc).
  rewrite try_formats_compiled.
  assert (E : try_compiled s compiled_formats = day_first a b y).
  { destruct Hs as [-> | ->]; assumption. }
  rewrite E. destruct (day_first a b y); reflexivity.
Qed.

Lemma slash_dates_are_read_day_first_witness :
  Dates.parse_date Dates.no_fallbacks (txt "04/05/2026") = Some (Dates.mkdate 2026 5 4)
  /\ Dates.parse_date Dates.no_fallbacks (txt "04/13/26") = Some (Dates.mkdate 2026 4 13).
Proof.
  split.
  - apply (slash_dates_are_read_day_first Dates.no_fallbacks 4 5 2026 (txt "04/05/2026"));
      [lia|lia|lia|left; reflexivity].
  - apply (slash_dates_are_read_day_first Dates.no_fallbacks 4 13 2026 (txt "04/13/26"));
      [lia|lia|lia|right; reflexivity].
Defined.
